(** * Two-way fixed-effects estimators of the vote-by-mail replication

    A shallow embedding of the regression functions of the replication
    scripts (versions 2, 3 and 4 of [vbm_replication/code]) and the
    properties their specification states about them.

    Modelling conventions.

    - Python floats are idealised as exact rationals in canonical form
      ([Qc]): every statement below is a statement of exact arithmetic,
      but for those of the module [Binary64], which computes the two
      demeaning steps on binary64 floats with the rounding of every
      operation and shows where the exact statements hold for the program
      up to rounding only.
    - A pandas DataFrame is a list of rows (positions [0 .. n-1] are the
      index after [reset_index(drop=True)]); a row maps a column name to a
      cell; the missing cell (NaN) is [None].  Identifier columns hold
      numeric codes: the code only ever compares them for equality.
    - The third-party estimation routines (statsmodels [OLS], linearmodels
      [PanelOLS], pyfixest [feols]) are not part of the repository.  They
      are Section variables: a fit either returns its statistics or raises.
    - A Python call either returns a value or raises ([outcome]); a
      function that can [return None] returns an [option]. *)

From Stdlib Require Import PrimFloat.
From Stdlib Require Uint63.
From Stdlib Require Import String ZArith QArith Qcanon Bool Permutation Lia Arith.
From Stdlib Require Import DecimalString List.
Import ListNotations.

Local Open Scope string_scope.
Local Open Scope list_scope.
Local Open Scope Qc_scope.

(** ** Python values and control flow *)

Inductive exn : Type :=
| UnboundLocalError (name : string)
| ValueError (msg : string)
| LibraryError (msg : string).

(** [str(e)] *)
Definition str_of_exn (e : exn) : string :=
  match e with
  | UnboundLocalError name =>
      ("local variable '" ++ name ++ "' referenced before assignment")%string
  | ValueError msg => msg
  | LibraryError msg => msg
  end.

Inductive outcome (A : Type) : Type :=
| Returned (a : A)
| Raised (e : exn).

Arguments Returned {A} a.
Arguments Raised {A} e.

Definition bind {A B : Type} (m : outcome A) (k : A -> outcome B) : outcome B :=
  match m with
  | Returned a => k a
  | Raised e => Raised e
  end.

Notation "x <- m ;; k" := (bind m (fun x => k))
  (at level 61, m at next level, right associativity).

(** Reading a local variable that no executed branch has assigned. *)
Definition read_local {A : Type} (name : string) (v : option A) : outcome A :=
  match v with
  | Some a => Returned a
  | None => Raised (UnboundLocalError name)
  end.

Inductive pyval : Type :=
| PFloat (q : Qc)
| PNaN
| PInt (n : Z)
| PStr (s : string).

(** A result [dict], in insertion order. *)
Definition dict : Type := list (string * pyval).

Fixpoint lookup (k : string) (d : dict) : option pyval :=
  match d with
  | [] => None
  | (k', v) :: d' => if String.eqb k k' then Some v else lookup k d'
  end.

Definition keys (d : dict) : list string := map fst d.

(** ** Series and frames *)

Definition Qc_of_nat (n : nat) : Qc := Q2Qc (inject_Z (Z.of_nat n)).

Definition qsum (l : list Qc) : Qc := fold_right Qcplus 0 l.

(** [Series.mean()], in exact arithmetic; the rounded mean that pandas
    computes for a group is [Binary64.mean], further down. *)
Definition mean (l : list Qc) : Qc := qsum l / Qc_of_nat (length l).

Definition Cell : Type := option Qc.
Definition Row : Type := string -> Cell.
Definition DataFrame : Type := list Row.

Definition notna (r : Row) (c : string) : bool :=
  match r c with
  | Some _ => true
  | None => false
  end.

(** [df[cols].dropna()]: the rows complete on [cols].  The projection on
    [cols] is not represented: every later read is of a column of [cols]
    or of a column assigned after the selection. *)
Definition dropna (cols : list string) (df : DataFrame) : DataFrame :=
  filter (fun r => forallb (notna r) cols) df.

Definition cell_value (c : Cell) : Qc :=
  match c with
  | Some q => q
  | None => 0
  end.

(** [df[c]] as the list of its values. *)
Definition col (c : string) (df : DataFrame) : list Qc :=
  map (fun r => cell_value (r c)) df.

Definition set_cell (r : Row) (c : string) (v : Qc) : Row :=
  fun c' => if String.eqb c' c then Some v else r c'.

(** [df[c] = vals] for a series on the frame's own index. *)
Definition assign (c : string) (vals : list Qc) (df : DataFrame) : DataFrame :=
  map (fun p => set_cell (fst p) c (snd p)) (combine df vals).

(** [a - b] for two series on the same index. *)
Definition series_sub (a b : list Qc) : list Qc :=
  map (fun p => fst p - snd p) (combine a b).

(** The values of the rows whose key is [k]. *)
Definition group_vals (k : Qc) (keys vals : list Qc) : list Qc :=
  map snd (filter (fun p => Qc_eq_bool (fst p) k) (combine keys vals)).

(** [df.groupby(key)[val].transform('mean')] *)
Definition transform_mean (keys vals : list Qc) : list Qc :=
  map (fun k => mean (group_vals k keys vals)) keys.

(** [df[val] - df.groupby(key)[val].transform('mean')] *)
Definition demean (key val : string) (df : DataFrame) : list Qc :=
  series_sub (col val df) (transform_mean (col key df) (col val df)).

(** [Series.unique()]: the distinct values in order of first appearance. *)
Fixpoint unique (l : list Qc) : list Qc :=
  match l with
  | [] => []
  | x :: t => x :: filter (fun y => negb (Qc_eq_bool y x)) (unique t)
  end.

(** [Series.nunique()] *)
Definition nunique (l : list Qc) : Z := Z.of_nat (length (unique l)).

(** [df[df[c] == k]] *)
Definition mask (c : string) (k : Qc) (df : DataFrame) : DataFrame :=
  filter (fun r => Qc_eq_bool (cell_value (r c)) k) df.

(** [pd.Series(vals, index=df.index)] *)
Definition pd_Series (vals : list Qc) (df : DataFrame) : outcome (list Qc) :=
  if Nat.eqb (length vals) (length df) then Returned vals
  else Raised (ValueError "Length of values does not match length of index").

(** [list(set(names))] enumerates the distinct names in an order the
    interpreter chooses; [enumerates cols names] says [cols] is one such
    enumeration. *)
Definition enumerates (cols names : list string) : Prop :=
  NoDup cols /\ forall c, In c cols <-> In c names.

(** The enumeration used when no order is given: first occurrences. *)
Definition set_list (names : list string) : list string :=
  rev (nodup string_dec (rev names)).

(** What a clustered fit reports for the treatment regressor. *)
Record Fit : Type := mkFit {
  fit_coef : Qc;
  fit_se : Qc;
  fit_pval : Qc;
  fit_nobs : Z
}.

(** ** Version 4, [02_replicate.py] *)

Module Replicate4.

Section Estimator.

(** [sm.OLS(y, sm.add_constant(X)).fit().resid.tolist()], [X] given by its
    columns. *)
Variable OLS_resid : list (list Qc) -> list Qc -> outcome (list Qc).

(** [sm.OLS(y, sm.add_constant(x), missing='drop')
       .fit(cov_type='cluster', cov_kwds={'groups': clusters})]
    read at the treatment regressor: [params.iloc[1]], [bse.iloc[1]],
    [pvalues.iloc[1]] and [nobs]. *)
Variable OLS_cluster : list Qc -> list Qc -> list Qc -> outcome Fit.

(** [try: resid = OLS(y, X).fit().resid  except: resid = y] *)
Definition resid_or_raw (X : list (list Qc)) (y : list Qc) : list Qc :=
  match OLS_resid X y with
  | Returned r => r
  | Raised _ => y
  end.

(** One pass of the loop body: what one county appends to [y_resid] and to
    [treat_resid]. *)
Definition residualize_county (min_rows : nat) (regressors : list string)
    (county_data : DataFrame) : list Qc * list Qc :=
  if Nat.ltb (length county_data) min_rows then
    (col "y_dm2" county_data, col "treat_dm2" county_data)
  else
    let X := map (fun c => col c county_data) regressors in
    (resid_or_raw X (col "y_dm2" county_data),
     resid_or_raw X (col "treat_dm2" county_data)).

(** [for county in sample[county_var].unique(): ...] with the two
    accumulators [y_resid] and [treat_resid]. *)
Fixpoint county_loop (min_rows : nat) (regressors : list string)
    (county_var : string) (counties : list Qc) (sample : DataFrame)
    (y_resid treat_resid : list Qc) : list Qc * list Qc :=
  match counties with
  | [] => (y_resid, treat_resid)
  | county :: rest =>
      let county_data := mask county_var county sample in
      let blocks := residualize_county min_rows regressors county_data in
      county_loop min_rows regressors county_var rest sample
        (y_resid ++ fst blocks) (treat_resid ++ snd blocks)
  end.

Definition trend_residuals (min_rows : nat) (regressors : list string)
    (county_var : string) (sample : DataFrame) : list Qc * list Qc :=
  county_loop min_rows regressors county_var
    (unique (col county_var sample)) sample [] [].

(** The local variables the final regression reads. *)
Record locals : Type := mkLocals {
  l_sample : DataFrame;
  l_y_final : option (list Qc);
  l_x_final : option (list Qc)
}.

(** [sample['year'] - sample['year'].mean()] *)
Definition center (l : list Qc) : list Qc :=
  map (fun v => v - mean l) l.

Definition square (l : list Qc) : list Qc := map (fun v => v * v) l.

(** Step 3 of the function: lines 89-171. *)
Definition handle_trends (county_var trend_type : string)
    (sample : DataFrame) (y_dm2 treat_dm2 : list Qc) : outcome locals :=
  if String.eqb trend_type "none" then
    Returned (mkLocals sample (Some y_dm2) (Some treat_dm2))
  else
    let year_centered := center (col "year" sample) in
    if String.eqb trend_type "linear" then
      let sample := assign "y_dm2" y_dm2 sample in
      let sample := assign "treat_dm2" treat_dm2 sample in
      let sample := assign "year_c" year_centered sample in
      let resid := trend_residuals 2 ["year_c"] county_var sample in
      y_final <- pd_Series (fst resid) sample ;;
      x_final <- pd_Series (snd resid) sample ;;
      Returned (mkLocals sample (Some y_final) (Some x_final))
    else if String.eqb trend_type "quadratic" then
      let sample := assign "y_dm2" y_dm2 sample in
      let sample := assign "treat_dm2" treat_dm2 sample in
      let sample := assign "year_c" year_centered sample in
      let sample := assign "year_c2" (square year_centered) sample in
      let resid := trend_residuals 3 ["year_c"; "year_c2"] county_var sample in
      y_final <- pd_Series (fst resid) sample ;;
      x_final <- pd_Series (snd resid) sample ;;
      Returned (mkLocals sample (Some y_final) (Some x_final))
    else
      Returned (mkLocals sample None None).

(** Steps 1 and 2: the sample with [y_dm] and [treat_dm] attached, and the
    twice-demeaned series. *)
Definition demean_twice (y_var treat_var county_var state_year_var : string)
    (sample : DataFrame) : DataFrame * (list Qc * list Qc) :=
  let y_dm := demean county_var y_var sample in
  let treat_dm := demean county_var treat_var sample in
  let sample := assign "y_dm" y_dm sample in
  let sample := assign "treat_dm" treat_dm sample in
  let y_dm2 := demean state_year_var "y_dm" sample in
  let treat_dm2 := demean state_year_var "treat_dm" sample in
  (sample, (y_dm2, treat_dm2)).

(** Everything before the final regression: lines 74-171. *)
Definition final_design (cols_needed : list string) (df : DataFrame)
    (y_var treat_var county_var state_year_var trend_type : string)
    : outcome locals :=
  let sample := dropna cols_needed df in
  let d := demean_twice y_var treat_var county_var state_year_var sample in
  handle_trends county_var trend_type (fst d) (fst (snd d)) (snd (snd d)).

Definition result_dict (fit : Fit) (clusters : list Qc) : dict :=
  [ ("coef", PFloat (fit_coef fit));
    ("se", PFloat (fit_se fit));
    ("pval", PFloat (fit_pval fit));
    ("n_obs", PInt (fit_nobs fit));
    ("n_clusters", PInt (nunique clusters)) ].

(** Lines 173-193. *)
Definition final_regression (cluster_var : string) (l : locals)
    : outcome (option dict) :=
  x_final <- read_local "x_final" (l_x_final l) ;;
  y_final <- read_local "y_final" (l_y_final l) ;;
  let clusters := col cluster_var (l_sample l) in
  fit <- OLS_cluster y_final x_final clusters ;;
  Returned (Some (result_dict fit clusters)).

(** The function for a given enumeration [cols_needed] of the column set. *)
Definition run_twfe_regression_on (cols_needed : list string) (df : DataFrame)
    (y_var treat_var county_var state_year_var cluster_var trend_type : string)
    : outcome (option dict) :=
  l <- final_design cols_needed df y_var treat_var county_var state_year_var
         trend_type ;;
  final_regression cluster_var l.

Definition cols_of (y_var treat_var county_var state_year_var cluster_var : string)
    : list string :=
  [y_var; treat_var; county_var; state_year_var; cluster_var; "year"].

Definition run_twfe_regression (df : DataFrame)
    (y_var treat_var county_var state_year_var cluster_var trend_type : string)
    : outcome (option dict) :=
  run_twfe_regression_on
    (set_list (cols_of y_var treat_var county_var state_year_var cluster_var))
    df y_var treat_var county_var state_year_var cluster_var trend_type.

End Estimator.

End Replicate4.

(** ** Version 4, [05_extension_analysis.py] *)

Module Extension4.

Section Estimator.

Variable OLS_resid : list (list Qc) -> list Qc -> outcome (list Qc).
Variable OLS_cluster : list Qc -> list Qc -> list Qc -> outcome Fit.

(** The float literal [1.96]. *)
Definition z_95 : Qc := Q2Qc (196 # 100).

Definition result_dict (fit : Fit) (clusters : list Qc) : dict :=
  [ ("coef", PFloat (fit_coef fit));
    ("se", PFloat (fit_se fit));
    ("pval", PFloat (fit_pval fit));
    ("n_obs", PInt (fit_nobs fit));
    ("n_clusters", PInt (nunique clusters));
    ("ci_low", PFloat (fit_coef fit - z_95 * fit_se fit));
    ("ci_high", PFloat (fit_coef fit + z_95 * fit_se fit)) ].

Definition final_regression (cluster_var : string) (l : Replicate4.locals)
    : outcome (option dict) :=
  x_final <- read_local "x_final" (Replicate4.l_x_final l) ;;
  y_final <- read_local "y_final" (Replicate4.l_y_final l) ;;
  let clusters := col cluster_var (Replicate4.l_sample l) in
  fit <- OLS_cluster y_final x_final clusters ;;
  Returned (Some (result_dict fit clusters)).

(** The column list before the last [list(set(...))]. *)
Definition cols_of (y_var treat_var county_var state_year_var cluster_var : string)
    (additional_controls : option (list string)) : list string :=
  Replicate4.cols_of y_var treat_var county_var state_year_var cluster_var
  ++ match additional_controls with
     | Some (c :: cs) => c :: cs
     | _ => []
     end.

(** Steps 1 to 3 are the text of [02_replicate.py]; the guard on the sample
    size comes before them. *)
Definition run_twfe_regression_on (cols_needed : list string) (df : DataFrame)
    (y_var treat_var county_var state_year_var cluster_var trend_type : string)
    : outcome (option dict) :=
  let sample := dropna cols_needed df in
  if Nat.ltb (length sample) 10 then Returned None
  else
    let d := Replicate4.demean_twice y_var treat_var county_var state_year_var
               sample in
    l <- Replicate4.handle_trends OLS_resid county_var trend_type
           (fst d) (fst (snd d)) (snd (snd d)) ;;
    final_regression cluster_var l.

Definition run_twfe_regression (df : DataFrame)
    (y_var treat_var county_var state_year_var cluster_var trend_type : string)
    (additional_controls : option (list string)) : outcome (option dict) :=
  run_twfe_regression_on
    (set_list (cols_of y_var treat_var county_var state_year_var cluster_var
                 additional_controls))
    df y_var treat_var county_var state_year_var cluster_var trend_type.

End Estimator.

End Extension4.

(** ** Helpers of the version-2 scripts *)

(** [df[sample_filter]] for a boolean series, [df] when the filter is
    [None]. *)
Definition apply_filter (sample_filter : option (list bool)) (df : DataFrame)
    : DataFrame :=
  match sample_filter with
  | None => df
  | Some keep => map fst (filter snd (combine df keep))
  end.

(** [float -> int] as [astype(int)] does it: truncation towards zero. *)
Definition trunc (q : Qc) : Z := Z.quot (Qnum (this q)) (Zpos (Qden (this q))).

Definition Qc_of_Z (z : Z) : Qc := Q2Qc (inject_Z z).

(** [df[c] = df[c].astype(int)] *)
Definition astype_int (c : string) (df : DataFrame) : DataFrame :=
  assign c (map (fun v => Qc_of_Z (trunc v)) (col c df)) df.

(** [str(n)] for an integer, as an f-string prints it. *)
Definition str_of_Z (z : Z) : string := NilZero.string_of_int (Z.to_int z).

Definition Qc_leb (x y : Qc) : bool := Qle_bool (this x) (this y).

Fixpoint insert_sorted (x : Qc) (l : list Qc) : list Qc :=
  match l with
  | [] => [x]
  | y :: t => if Qc_leb x y then x :: y :: t else y :: insert_sorted x t
  end.

(** [sorted(l)] *)
Definition sorted (l : list Qc) : list Qc := fold_right insert_sorted [] l.

(** [(df[key] == k).astype(float) * df[val]] *)
Definition indicator_times (k : Qc) (keys vals : list Qc) : list Qc :=
  map (fun p => if Qc_eq_bool (fst p) k then snd p else 0) (combine keys vals).

(** A design matrix given by its named columns. *)
Definition design : Type := list (string * list Qc).

Definition select (cols : list string) (df : DataFrame) : design :=
  map (fun c => (c, col c df)) cols.

(** ** Version 2, [02_replicate.py] *)

Module Replicate2.

Section Estimator.

(** [PanelOLS(dependent, exog, entity_effects=True, time_effects=True,
       drop_absorbed=True).fit(cov_type='clustered', cluster_entity=True)]
    on the (entity, time) index, read at the named regressor. *)
Variable PanelOLS_fit :
  list Qc -> design -> list Qc -> list Qc -> string -> outcome Fit.

(** [sm.OLS(y, X).fit(cov_type='cluster', cov_kwds={'groups': groups})]
    read at the named regressor. *)
Variable OLS_cluster_fit : list Qc -> design -> list Qc -> string -> outcome Fit.

Definition cols_needed (y_var x_var : string) : list string :=
  [y_var; x_var; "county_id"; "state_year_id"; "year"; "year2"].

(** Lines 75-94; the [astype(float)] assignments leave a complete numeric
    column as it is. *)
Definition prepare_sample (df : DataFrame) (y_var x_var : string)
    (sample_filter : option (list bool)) : DataFrame :=
  dropna (cols_needed y_var x_var) (apply_filter sample_filter df).

(** [for cid in county_ids[1:]: sample[prefix + str(cid)] = ...;
       exog_cols.append(...)] *)
Fixpoint county_trend_columns (prefix val : string) (cids : list Qc)
    (sample : DataFrame) (exog_cols : list string)
    : DataFrame * list string :=
  match cids with
  | [] => (sample, exog_cols)
  | cid :: rest =>
      let col_name := (prefix ++ str_of_Z (trunc cid))%string in
      let sample :=
        assign col_name
          (indicator_times cid (col "county_id" sample) (col val sample))
          sample in
      county_trend_columns prefix val rest sample (exog_cols ++ [col_name])
  end.

(** Lines 96-120. *)
Definition build_exog (x_var trend_type : string) (sample : DataFrame)
    : DataFrame * list string :=
  let exog_cols := [x_var] in
  let st :=
    if String.eqb trend_type "linear" || String.eqb trend_type "quadratic" then
      let sample := assign "year_dm" (demean "county_id" "year" sample) sample in
      let exog_cols := exog_cols ++ ["year_dm"] in
      let county_ids := sorted (unique (col "county_id" sample)) in
      county_trend_columns "ctrend_" "year_dm" (tl county_ids) sample exog_cols
    else (sample, exog_cols) in
  if String.eqb trend_type "quadratic" then
    let sample := assign "year2_dm" (demean "county_id" "year2" (fst st)) (fst st) in
    let county_ids := sorted (unique (col "county_id" sample)) in
    county_trend_columns "ctrend2_" "year2_dm" (tl county_ids) sample (snd st)
  else st.

(** [sm.add_constant(exog, has_constant='add')] *)
Definition add_constant (n : nat) (exog : design) : design :=
  ("const", repeat 1 n) :: exog.

Definition manual_dict (fit : Fit) (sample : DataFrame) : dict :=
  [ ("coef", PFloat (fit_coef fit));
    ("se", PFloat (fit_se fit));
    ("n_obs", PInt (Z.of_nat (length sample)));
    ("n_counties", PInt (nunique (col "county_id" sample)));
    ("n_elections", PInt (nunique (col "state_year_id" sample))) ].

(** [for var in vars: sample[var + out] = sample[var + inp]
       - sample.groupby(key)[var + inp].transform('mean')] *)
Fixpoint demean_vars (key inp out : string) (vars : list string)
    (sample : DataFrame) : DataFrame :=
  match vars with
  | [] => sample
  | var :: rest =>
      demean_vars key inp out rest
        (assign (var ++ out) (demean key (var ++ inp) sample) sample)
  end.

(** The fallback: manual within transformation (lines 159-220). *)
Definition run_manual_twfe (df : DataFrame) (y_var x_var : string)
    (sample_filter : option (list bool)) (trend_type : string)
    : outcome (option dict) :=
  let sample := prepare_sample df y_var x_var sample_filter in
  if Nat.eqb (length sample) 0 then Returned None
  else
    let sample := astype_int "county_id" sample in
    let sample := astype_int "state_year_id" sample in
    let sample := demean_vars "county_id" "" "_dm1" [y_var; x_var] sample in
    let sample := demean_vars "state_year_id" "_dm1" "_dm" [y_var; x_var] sample in
    let y := col (y_var ++ "_dm") sample in
    let X := select [(x_var ++ "_dm")%string] sample in
    let st :=
      if negb (String.eqb trend_type "none") then
        let sample := assign "year_dm" (demean "county_id" "year" sample) sample in
        let sample :=
          assign "year_dm" (demean "state_year_id" "year_dm" sample) sample in
        (sample, X ++ select ["year_dm"] sample)
      else (sample, X) in
    let st :=
      if String.eqb trend_type "quadratic" then
        let sample :=
          assign "year2_dm" (demean "county_id" "year2" (fst st)) (fst st) in
        let sample :=
          assign "year2_dm" (demean "state_year_id" "year2_dm" sample) sample in
        (sample, snd st ++ select ["year2_dm"] sample)
      else st in
    let sample := fst st in
    fit <- OLS_cluster_fit y (snd st) (col "county_id" sample) (x_var ++ "_dm") ;;
    Returned (Some (manual_dict fit sample)).

Definition panel_dict (fit : Fit) (entity time : list Qc) : dict :=
  [ ("coef", PFloat (fit_coef fit));
    ("se", PFloat (fit_se fit));
    ("n_obs", PInt (fit_nobs fit));
    ("n_counties", PInt (nunique entity));
    ("n_elections", PInt (nunique time)) ].

(** The sample and the exogenous columns as the panel estimator gets
    them (lines 88-126). *)
Definition panel_sample (df : DataFrame) (y_var x_var : string)
    (sample_filter : option (list bool)) (trend_type : string)
    : DataFrame * list string :=
  let sample := prepare_sample df y_var x_var sample_filter in
  let sample := astype_int "county_id" sample in
  let sample := astype_int "state_year_id" sample in
  build_exog x_var trend_type sample.

(** The body of the [try] block (lines 128-144). *)
Definition primary_fit (df : DataFrame) (y_var x_var : string)
    (sample_filter : option (list bool)) (trend_type : string) : outcome Fit :=
  let st := panel_sample df y_var x_var sample_filter trend_type in
  let sample := fst st in
  let exog := add_constant (length sample) (select (snd st) sample) in
  PanelOLS_fit (col y_var sample) exog (col "county_id" sample)
    (col "state_year_id" sample) x_var.

(** Lines 55-156: [try] the panel estimator, [except Exception] return what
    the fallback returns. *)
Definition run_panel_regression (df : DataFrame) (y_var x_var : string)
    (sample_filter : option (list bool)) (trend_type : string)
    : outcome (option dict) :=
  let sample := prepare_sample df y_var x_var sample_filter in
  if Nat.eqb (length sample) 0 then Returned None
  else
    let sample := fst (panel_sample df y_var x_var sample_filter trend_type) in
    match primary_fit df y_var x_var sample_filter trend_type with
    | Returned fit =>
        Returned (Some (panel_dict fit (col "county_id" sample)
                          (col "state_year_id" sample)))
    | Raised _ => run_manual_twfe df y_var x_var sample_filter trend_type
    end.

End Estimator.

End Replicate2.

(** ** Version 2, [05_run_extension.py] *)

Module Extension2.

Section Estimator.

(** [sm.add_constant(exog)] with its default [has_constant='skip']. *)
Variable add_constant : design -> design.

Variable PanelOLS_fit :
  list Qc -> design -> list Qc -> list Qc -> string -> outcome Fit.

Definition cols_of (y_var x_var entity_var time_var cluster_var : string)
    : list string :=
  [y_var; x_var; entity_var; time_var; cluster_var].

Definition result_dict (fit : Fit) (entity time : list Qc) : dict :=
  [ ("coef", PFloat (fit_coef fit));
    ("se", PFloat (fit_se fit));
    ("pval", PFloat (fit_pval fit));
    ("n_obs", PInt (fit_nobs fit));
    ("n_entities", PInt (nunique entity));
    ("n_periods", PInt (nunique time)) ].

(** The sample as the panel estimator gets it (lines 56-79). *)
Definition panel_sample (cols_needed : list string) (df : DataFrame)
    (sample_filter : option (list bool)) (entity_var time_var : string)
    : DataFrame :=
  let sample := dropna cols_needed (apply_filter sample_filter df) in
  let sample := astype_int entity_var sample in
  astype_int time_var sample.

(** The body of the [try] block (lines 81-97). *)
Definition primary_fit (cols_needed : list string) (df : DataFrame)
    (y_var x_var : string) (sample_filter : option (list bool))
    (entity_var time_var : string) : outcome Fit :=
  let sample := panel_sample cols_needed df sample_filter entity_var time_var in
  PanelOLS_fit (col y_var sample) (add_constant (select [x_var] sample))
    (col entity_var sample) (col time_var sample) x_var.

(** Lines 35-110 for a given enumeration of the column set: [try] the
    panel estimator, [except Exception] return [None]. *)
Definition run_twfe_regression_on (cols_needed : list string) (df : DataFrame)
    (y_var x_var : string) (sample_filter : option (list bool))
    (entity_var time_var : string) : outcome (option dict) :=
  let sample := dropna cols_needed (apply_filter sample_filter df) in
  if Nat.eqb (length sample) 0 then Returned None
  else
    let sample :=
      panel_sample cols_needed df sample_filter entity_var time_var in
    match primary_fit cols_needed df y_var x_var sample_filter entity_var
            time_var with
    | Returned fit =>
        Returned (Some (result_dict fit (col entity_var sample)
                          (col time_var sample)))
    | Raised _ => Returned None
    end.

Definition run_twfe_regression (df : DataFrame) (y_var x_var : string)
    (sample_filter : option (list bool))
    (entity_var time_var cluster_var : string) : outcome (option dict) :=
  run_twfe_regression_on
    (set_list (cols_of y_var x_var entity_var time_var cluster_var))
    df y_var x_var sample_filter entity_var time_var.

End Estimator.

End Extension2.

(** ** Version 3, [05_extension_analysis.py] *)

Module Extension3.

(** What a fitted [pyfixest] model answers: [coef()], [se()], [tstat()],
    [pvalue()] at the treatment, and the two ways the code asks for R2. *)
Record FeolsModel : Type := mkFeols {
  m_coef : Qc;
  m_se : Qc;
  m_tstat : Qc;
  m_pvalue : Qc;
  m_r2_method : outcome Qc;
  m_r2_attr : outcome Qc
}.

(** What a clustered statsmodels fit answers at [x_dm]. *)
Record FullFit : Type := mkFullFit {
  f_coef : Qc;
  f_se : Qc;
  f_tvalue : Qc;
  f_pvalue : Qc;
  f_rsquared : Qc
}.

Section Estimator.

(** The module-level flag set by [import pyfixest]. *)
Variable HAS_PYFIXEST : bool.

(** [pf.feols(outcome ~ treatment | entity + time, data, vcov={'CRV1':
    cluster})] followed by the four accessors, on the named columns. *)
Variable feols :
  DataFrame -> string -> string -> string -> string -> string
  -> outcome FeolsModel.

(** [OLS(y, sm.add_constant(x)).fit(cov_type='cluster', groups)] *)
Variable OLS_cluster_full : list Qc -> list Qc -> list Qc -> outcome FullFit.

Definition cols_of (outcome_var treatment_var entity_var time_var cluster_var
    : string) : list string :=
  [outcome_var; treatment_var; entity_var; time_var; cluster_var].

(** The record of a specification that could not be estimated. *)
Definition unavailable (n : Z) (note : string) : dict :=
  [ ("coef", PNaN); ("se", PNaN); ("t", PNaN); ("p", PNaN);
    ("n", PInt n); ("r2", PNaN); ("note", PStr note) ].

(** [try: r2 = model.r2()  except: try: r2 = model._r2  except: r2 = nan] *)
Definition r2_of (m : FeolsModel) : pyval :=
  match m_r2_method m with
  | Returned v => PFloat v
  | Raised _ =>
      match m_r2_attr m with
      | Returned v => PFloat v
      | Raised _ => PNaN
      end
  end.

(** [df[out] = df.groupby(key)[val].transform(lambda x: x - x.mean())] twice,
    then the overall mean of [var] added back (lines 130-132, 134-136). *)
Definition demean_recentre (entity_var time_var var out : string)
    (df_reg : DataFrame) : DataFrame :=
  let df1 := assign out (demean entity_var var df_reg) df_reg in
  let df2 := assign out (demean time_var out df1) df1 in
  assign out (map (fun v => v + mean (col var df2)) (col out df2)) df2.

(** The frame of the manual branch (lines 129-136).  The earlier
    [pd.to_numeric(errors='coerce')] leaves a numeric or missing cell as it
    is. *)
Definition manual_frame (df_reg : DataFrame)
    (outcome_var treatment_var entity_var time_var : string) : DataFrame :=
  let df_reg := demean_recentre entity_var time_var outcome_var "y_dm" df_reg in
  demean_recentre entity_var time_var treatment_var "x_dm" df_reg.

(** The fit of the manual branch (lines 138-140). *)
Definition manual_fit (df_reg : DataFrame)
    (outcome_var treatment_var entity_var time_var cluster_var : string)
    : outcome FullFit :=
  let df_reg :=
    manual_frame df_reg outcome_var treatment_var entity_var time_var in
  OLS_cluster_full (col "y_dm" df_reg) (col "x_dm" df_reg)
    (col cluster_var df_reg).

Definition run_twfe_regression_on (cols_needed : list string) (df : DataFrame)
    (outcome_var treatment_var entity_var time_var cluster_var : string)
    : outcome (option dict) :=
  let df_reg := dropna cols_needed df in
  let n := Z.of_nat (length df_reg) in
  if Nat.ltb (length df_reg) 10 then
    Returned (Some (unavailable 0 "Insufficient observations"))
  else if HAS_PYFIXEST then
    match feols df_reg outcome_var treatment_var entity_var time_var
            cluster_var with
    | Returned m =>
        Returned (Some
          [ ("coef", PFloat (m_coef m)); ("se", PFloat (m_se m));
            ("t", PFloat (m_tstat m)); ("p", PFloat (m_pvalue m));
            ("n", PInt n); ("r2", r2_of m); ("note", PStr "") ])
    | Raised e => Returned (Some (unavailable n (str_of_exn e)))
    end
  else
    let frame :=
      manual_frame df_reg outcome_var treatment_var entity_var time_var in
    match manual_fit df_reg outcome_var treatment_var entity_var time_var
            cluster_var with
    | Returned f =>
        Returned (Some
          [ ("coef", PFloat (f_coef f)); ("se", PFloat (f_se f));
            ("t", PFloat (f_tvalue f)); ("p", PFloat (f_pvalue f));
            ("n", PInt (Z.of_nat (length frame)));
            ("r2", PFloat (f_rsquared f)); ("note", PStr "Manual demeaning") ])
    | Raised e =>
        Returned (Some (unavailable (Z.of_nat (length frame)) (str_of_exn e)))
    end.

Definition run_twfe_regression (df : DataFrame)
    (outcome_var treatment_var entity_var time_var cluster_var : string)
    : outcome (option dict) :=
  run_twfe_regression_on
    (set_list (cols_of outcome_var treatment_var entity_var time_var cluster_var))
    df outcome_var treatment_var entity_var time_var cluster_var.

End Estimator.

End Extension3.

(** * Vocabulary of the statements, example frames and library stand-ins

    Nothing below is part of the scripts: these definitions name what the
    statements talk about (row-wise views of the series, the order in which
    the trend loop emits rows, balance and contiguity of a panel), the
    concrete frames of the examples, and constant stand-ins for the library
    routines. *)

(** A row given by its cells; a column that is not listed is missing. *)
Fixpoint row_of (cells : list (string * Cell)) : Row :=
  fun c =>
    match cells with
    | [] => None
    | (k, v) :: rest => if String.eqb c k then v else row_of rest c
    end.

(** An observation of the replication panel. *)
Definition obs (county state_year year : Z) (y treat : Cell) : Row :=
  row_of [ ("county_id", Some (Qc_of_Z county));
           ("state_year", Some (Qc_of_Z state_year));
           ("year", Some (Qc_of_Z year));
           ("y", y);
           ("treat", treat) ].

Definition num (z : Z) : Cell := Some (Qc_of_Z z).

(** Library stand-ins for closed examples: one that always raises and one
    that always reports the same statistics. *)
Definition resid_raises : list (list Qc) -> list Qc -> outcome (list Qc) :=
  fun _ _ => Raised (LibraryError "singular matrix").

Definition cluster_raises : list Qc -> list Qc -> list Qc -> outcome Fit :=
  fun _ _ _ => Raised (LibraryError "singular matrix").

Definition cluster_reports (f : Fit) : list Qc -> list Qc -> list Qc -> outcome Fit :=
  fun _ _ _ => Returned f.

Definition some_fit : Fit := mkFit 0 1 1 4.

Definition known_trend (trend_type : string) : Prop :=
  In trend_type ["none"; "linear"; "quadratic"].

(** The panel of the empty-sample examples: the outcome is missing in
    every row. *)
Definition panel_no_outcome : DataFrame :=
  [ obs 1 10 2000 None (num 0); obs 2 10 2000 None (num 1) ].

(** Two counties observed in two state-years, all cells present. *)
Definition panel_2x2 : DataFrame :=
  [ obs 1 10 2000 (num 3) (num 0); obs 1 11 2004 (num 5) (num 1);
    obs 2 10 2000 (num 4) (num 0); obs 2 11 2004 (num 8) (num 0) ].

(** The groups selected by the distinct keys, laid end to end in order of
    first appearance: what a loop over [unique()] visits. *)
Definition by_group {A : Type} (key : A -> Qc) (l : list A) : list (list A) :=
  map (fun k => filter (fun a => Qc_eq_bool (key a) k) l) (unique (map key l)).

(** The columns step 3 attaches to the sample. *)
Definition trend_columns : list string :=
  ["y_dm2"; "treat_dm2"; "year_c"; "year_c2"].

Definition polynomial_trend (trend_type : string) : Prop :=
  trend_type = "linear" \/ trend_type = "quadratic".

(** The parameter count of the per-county trend model. *)
Definition min_rows (trend_type : string) : nat :=
  if String.eqb trend_type "linear" then 2 else 3.

Definition regressors (trend_type : string) : list string :=
  if String.eqb trend_type "linear" then ["year_c"] else ["year_c"; "year_c2"].

(** The sample as the loop reads it. *)
Definition trend_frame (trend_type : string) (sample : DataFrame)
    (y_dm2 treat_dm2 : list Qc) : DataFrame :=
  let year_centered := Replicate4.center (col "year" sample) in
  let sample := assign "y_dm2" y_dm2 sample in
  let sample := assign "treat_dm2" treat_dm2 sample in
  let sample := assign "year_c" year_centered sample in
  if String.eqb trend_type "linear" then sample
  else assign "year_c2" (Replicate4.square year_centered) sample.

(** A residual routine that answers with one residual per observation. *)
Definition length_preserving
    (OLS_resid : list (list Qc) -> list Qc -> outcome (list Qc)) : Prop :=
  forall X y r, OLS_resid X y = Returned r -> length r = length y.

(** A residual routine standing for a regression that fits its points
    exactly. *)
Definition perfect_fit : list (list Qc) -> list Qc -> outcome (list Qc) :=
  fun _ y => Returned (map (fun _ => 0) y).

(** County 1 observed three times, county 2 twice. *)
Definition panel_3_2 : DataFrame :=
  [ obs 1 10 2000 (num 3) (num 0); obs 2 10 2000 (num 4) (num 0);
    obs 1 11 2004 (num 5) (num 1); obs 2 11 2004 (num 8) (num 0);
    obs 1 12 2008 (num 6) (num 1) ].

Definition series_5a : list Qc :=
  [Qc_of_Z 1; Qc_of_Z 2; Qc_of_Z 3; Qc_of_Z 4; Qc_of_Z 5].

Definition series_5b : list Qc :=
  [Qc_of_Z 6; Qc_of_Z 7; Qc_of_Z 8; Qc_of_Z 9; Qc_of_Z 10].

(** An observation with the columns the version-2 scripts read. *)
Definition obs_v2 (county state_year year : Z) (y treat : Cell) : Row :=
  row_of [ ("county_id", num county);
           ("state_year_id", num state_year);
           ("year", num year);
           ("year2", num (year * year));
           ("y", y);
           ("treat", treat) ].

(** Two counties in five state-years: ten complete rows. *)
Definition panel_10 : DataFrame :=
  [ obs_v2 1 10 2000 (num 3) (num 0); obs_v2 2 10 2000 (num 4) (num 0);
    obs_v2 1 11 2004 (num 5) (num 0); obs_v2 2 11 2004 (num 8) (num 0);
    obs_v2 1 12 2008 (num 6) (num 1); obs_v2 2 12 2008 (num 7) (num 0);
    obs_v2 1 13 2012 (num 9) (num 1); obs_v2 2 13 2012 (num 9) (num 1);
    obs_v2 1 14 2016 (num 7) (num 1); obs_v2 2 14 2016 (num 6) (num 1) ].

Definition singular : exn := LibraryError "singular matrix".

Definition panel_raises
    : list Qc -> design -> list Qc -> list Qc -> string -> outcome Fit :=
  fun _ _ _ _ _ => Raised singular.

Definition panel_reports (f : Fit)
    : list Qc -> design -> list Qc -> list Qc -> string -> outcome Fit :=
  fun _ _ _ _ _ => Returned f.

Definition named_raises : list Qc -> design -> list Qc -> string -> outcome Fit :=
  fun _ _ _ _ => Raised singular.

Definition named_reports (f : Fit)
    : list Qc -> design -> list Qc -> string -> outcome Fit :=
  fun _ _ _ _ => Returned f.

Definition feols_raises
    : DataFrame -> string -> string -> string -> string -> string
      -> outcome Extension3.FeolsModel :=
  fun _ _ _ _ _ _ => Raised singular.

Definition full_raises
    : list Qc -> list Qc -> list Qc -> outcome Extension3.FullFit :=
  fun _ _ _ => Raised singular.

Definition fit_of_five : Fit := mkFit 0 1 1 5.

Definition add_constant_column : design -> design :=
  fun exog => ("const", repeat 1 5) :: exog.

(** The field [k] of what a call returned, when it returned a record. *)
Definition field (k : string) (r : outcome (option dict)) : option pyval :=
  match r with
  | Returned (Some d) => lookup k d
  | _ => None
  end.

(** Two invocations that list the needed columns in opposite orders. *)
Definition invocation_a : outcome (option dict) :=
  Replicate4.run_twfe_regression_on perfect_fit (cluster_reports fit_of_five)
    ["y"; "treat"; "county_id"; "state_year"; "year"]
    panel_3_2 "y" "treat" "county_id" "state_year" "county_id" "quadratic".

Definition invocation_b : outcome (option dict) :=
  Replicate4.run_twfe_regression_on perfect_fit (cluster_reports fit_of_five)
    ["year"; "state_year"; "county_id"; "treat"; "y"]
    panel_3_2 "y" "treat" "county_id" "state_year" "county_id" "quadratic".

(** The rows of [l] whose key is [x]. *)
Definition group {A : Type} (l : list A) (k : A -> Qc) (x : Qc) : list A :=
  filter (fun a => Qc_eq_bool (k a) x) l.

(** The mean of [f] over the group of the row [a]. *)
Definition group_mean {A : Type} (l : list A) (k f : A -> Qc) (a : A) : Qc :=
  mean (map f (group l k (k a))).

(** [f] with its group mean subtracted. *)
Definition within {A : Type} (l : list A) (k f : A -> Qc) (a : A) : Qc :=
  f a - group_mean l k f a.

Definition cellf (c : string) : Row -> Qc := fun r => cell_value (r c).

(** The number of rows of entity [e] in period [t]. *)
Definition cell_count {A : Type} (l : list A) (ke kt : A -> Qc) (e t : Qc)
    : nat :=
  length (filter (fun a => Qc_eq_bool (kt a) t) (group l ke e)).

(** Every entity is observed exactly once in every period. *)
Definition one_row_per_cell {A : Type} (l : list A) (ke kt : A -> Qc) : Prop :=
  forall e t,
    In e (map ke l) -> In t (map kt l) -> cell_count l ke kt e t = 1%nat.

(** The columns steps 1 and 2 attach to the sample. *)
Definition demean_columns : list string := ["y_dm"; "treat_dm"].

(** Every county is observed exactly once in every state-year. *)
Definition balanced (county_var state_year_var : string) (df : DataFrame)
    : bool :=
  forallb
    (fun e =>
       forallb
         (fun t =>
            Nat.eqb (length (mask state_year_var t (mask county_var e df))) 1)
         (unique (col state_year_var df)))
    (unique (col county_var df)).

(** Two counties with two offices each, all in one state-year. *)
Definition panel_one_period : DataFrame :=
  [ obs 1 10 2000 (num 3) (num 0); obs 1 10 2000 (num 5) (num 1);
    obs 2 10 2000 (num 4) (num 0); obs 2 10 2000 (num 8) (num 1) ].

Definition cols_replication : list string :=
  set_list (Replicate4.cols_of "y" "treat" "county_id" "state_year" "county_id").

(** The rows of the sample in the order in which the loop emits their
    residuals: county by county in order of first appearance, and within a
    county in row order.  Position [i] of the rebuilt series holds the
    residual computed for row [nth i (row_order ...)]. *)
Definition row_order (county_var : string) (sample : DataFrame) : list nat :=
  let counties := col county_var sample in
  concat
    (map (fun c =>
            filter (fun i => Qc_eq_bool (nth i counties 0) c)
              (seq 0 (length sample)))
       (unique counties)).

(** The number of earlier rows of the county of row [i]: the place of row
    [i] in its [county_data]. *)
Definition rank (counties : list Qc) (i : nat) : nat :=
  length
    (filter (fun j => Qc_eq_bool (nth j counties 0) (nth i counties 0))
       (seq 0 i)).

(** The residual that belongs to each row: the one its county's regression
    gives at the row's place in [county_data]. *)
Definition row_residuals
    (OLS_resid : list (list Qc) -> list Qc -> outcome (list Qc))
    (m : nat) (regs : list string) (county_var : string) (frame : DataFrame)
    : list Qc * list Qc :=
  let counties := col county_var frame in
  let block i :=
    Replicate4.residualize_county OLS_resid m regs
      (mask county_var (nth i counties 0) frame) in
  (map (fun i => nth (rank counties i) (fst (block i)) 0)
     (seq 0 (length frame)),
   map (fun i => nth (rank counties i) (snd (block i)) 0)
     (seq 0 (length frame))).

(** Every county's rows are adjacent: a county whose run has ended does not
    come back. *)
Fixpoint contiguous (l : list Qc) : bool :=
  match l with
  | [] => true
  | x :: t =>
      match t with
      | [] => true
      | y :: _ => Qc_eq_bool x y || negb (existsb (Qc_eq_bool x) t)
      end && contiguous t
  end.

(** [series] read at the positions [order]. *)
Definition reorder (order : list nat) (series : list Qc) : list Qc :=
  map (fun i => nth i series 0) order.

Definition frame_3_2 : DataFrame :=
  trend_frame "quadratic" panel_3_2 series_5a series_5b.

Definition resid_3_2 : list Qc * list Qc :=
  row_residuals perfect_fit 3 ["year_c"; "year_c2"] "county_id" frame_3_2.

(** Three counties listed state-year by state-year, as a panel sorted by
    election is; county 3 is observed once. *)
Definition panel_by_period : DataFrame :=
  [ obs 1 10 2000 (num 3) (num 0); obs 2 10 2000 (num 4) (num 0);
    obs 3 10 2000 (num 9) (num 1); obs 1 11 2004 (num 5) (num 1);
    obs 2 11 2004 (num 8) (num 0) ].

(** The same rows listed county by county. *)
Definition panel_by_county : DataFrame :=
  [ obs 1 10 2000 (num 3) (num 0); obs 1 11 2004 (num 5) (num 1);
    obs 2 10 2000 (num 4) (num 0); obs 2 11 2004 (num 8) (num 0);
    obs 3 10 2000 (num 9) (num 1) ].

(** [zip(a, b)] mapped through [f]. *)
Definition zip_with (f : Qc -> Qc -> Qc) (a b : list Qc) : list Qc :=
  map (fun p => f (fst p) (snd p)) (combine a b).

(** Reference value, in exact arithmetic, of the squared cluster-robust
    standard error of the slope that statsmodels reports for
    [OLS(y, add_constant(x)).fit(cov_type='cluster', groups=g)]: the
    sandwich [(X'X)^-1 (sum over clusters of s s') (X'X)^-1] at the slope,
    where [s] is a cluster's sum of [x_i u_i], times the default correction
    [G/(G-1) * (N-1)/(N-2)].  Used only to exhibit values; no theorem about
    the scripts depends on it. *)
Definition cluster_se_squared (y x g : list Qc) : Qc :=
  let n := Qc_of_nat (length y) in
  let G := Qc_of_nat (length (unique g)) in
  let dx := map (fun v => v - mean x) x in
  let dy := map (fun v => v - mean y) y in
  let Sxx := qsum (zip_with Qcmult dx dx) in
  let b := qsum (zip_with Qcmult dx dy) / Sxx in
  let u := zip_with (fun d e => e - b * d) dx dy in
  let score := zip_with Qcmult dx u in
  let meat :=
    qsum (map (fun c => qsum (group_vals c g score) * qsum (group_vals c g score))
            (unique g)) in
  (G / (G - 1)) * ((n - 1) / (n - (1 + 1))) * meat / (Sxx * Sxx).

(** What the final regression is called with: [y_final], [x_final] and the
    cluster labels. *)
Definition regression_inputs (o : outcome Replicate4.locals)
    (cluster_var : string) : option (list Qc * list Qc * list Qc) :=
  match o with
  | Returned l =>
      match Replicate4.l_y_final l, Replicate4.l_x_final l with
      | Some y, Some x => Some (y, x, col cluster_var (Replicate4.l_sample l))
      | _, _ => None
      end
  | Raised _ => None
  end.

(** The twice-demeaned series of [panel_by_county], row by row. *)
Definition y_by_county : list Qc :=
  [0; Q2Qc (-1 # 2); Qc_of_Z (-1); Q2Qc (1 # 2); 1].

Definition x_by_county : list Qc :=
  [Q2Qc (-1 # 3); Q2Qc (1 # 4); Q2Qc (1 # 6); Q2Qc (-1 # 4); Q2Qc (1 # 6)].

Definition labels_by_county : list Qc :=
  [Qc_of_Z 1; Qc_of_Z 1; Qc_of_Z 2; Qc_of_Z 2; Qc_of_Z 3].

Definition labels_by_period : list Qc :=
  [Qc_of_Z 1; Qc_of_Z 2; Qc_of_Z 3; Qc_of_Z 1; Qc_of_Z 2].

Fixpoint series_eqb (a b : list Qc) : bool :=
  match a, b with
  | [], [] => true
  | x :: a', y :: b' => Qc_eq_bool x y && series_eqb a' b'
  | _, _ => false
  end.

Definition inputs_eqb (o : option (list Qc * list Qc * list Qc))
    (y x g : list Qc) : bool :=
  match o with
  | Some (y', x', g') => series_eqb y' y && series_eqb x' x && series_eqb g' g
  | None => false
  end.

(** The rows the final regression is called with. *)
Definition design_rows (inputs : list Qc * list Qc * list Qc)
    : list (Qc * (Qc * Qc)) :=
  combine (fst (fst inputs)) (combine (snd (fst inputs)) (snd inputs)).

(** A clustered fit that does not depend on the order of its rows. *)
Definition order_invariant
    (OLS_cluster : list Qc -> list Qc -> list Qc -> outcome Fit) : Prop :=
  forall y x g y' x' g',
    length y = length x -> length x = length g ->
    length y' = length x' -> length x' = length g' ->
    Permutation (design_rows (y, x, g)) (design_rows (y', x', g')) ->
    OLS_cluster y x g = OLS_cluster y' x' g'.

(** * Further functions of the scripts

    The functions around the estimators: the reshaping of the county-year
    panel to office level, the interaction model and the 2x2 comparison of
    means of the extension scripts, and the master scripts that run the
    pipeline. *)

(** The values of a series that are not missing, in order. *)
Fixpoint present (cells : list Cell) : list Qc :=
  match cells with
  | [] => []
  | Some q :: rest => q :: present rest
  | None :: rest => present rest
  end.

(** ** The office-level panel of version 4 *)

Module Reshape4.

(** The [office] column holds a label; as every identifier it stands here
    as a code. *)
Definition office_code (office : string) : Qc :=
  if String.eqb office "gov" then Qc_of_Z 1
  else if String.eqb office "pres" then Qc_of_Z 2
  else if String.eqb office "sen" then Qc_of_Z 3
  else 0.

(** The dict appended for one office of one row: the identifier cells of
    the row, the office and the row's share for that office. *)
Definition long_row (id_cols : list string) (office var : string) (row : Row)
    : Row :=
  row_of (map (fun c => (c, row c)) id_cols
          ++ [ ("office", Some (office_code office)); ("dem_share", row var) ]).

(** [for office, var in offices: if pd.notna(row[var]): rows.append({...})] *)
Fixpoint office_loop (id_cols : list string) (offices : list (string * string))
    (row : Row) (rows : DataFrame) : DataFrame :=
  match offices with
  | [] => rows
  | (office, var) :: rest =>
      office_loop id_cols rest row
        (if notna row var then rows ++ [long_row id_cols office var row]
         else rows)
  end.

(** [for idx, row in df.iterrows(): ...] *)
Fixpoint row_loop (id_cols : list string) (offices : list (string * string))
    (df : DataFrame) (rows : DataFrame) : DataFrame :=
  match df with
  | [] => rows
  | row :: rest =>
      row_loop id_cols offices rest (office_loop id_cols offices row rows)
  end.

(** [02_replicate.py], [replicate_table2], lines 233-249. *)
Definition vote_share_long (df : DataFrame) : DataFrame :=
  row_loop ["state"; "county"; "year"; "county_id"; "state_year"; "treat"]
    [ ("gov", "dem_share_gov"); ("pres", "dem_share_pres");
      ("sen", "dem_share_sen") ]
    df [].

(** [05_extension_analysis.py], lines 209-226. *)
Definition reshape_to_vote_share_panel (df : DataFrame) : DataFrame :=
  row_loop
    ["state"; "county"; "year"; "county_id"; "state_year"; "treat"; "post_2018"]
    [ ("pres", "dem_share_pres"); ("gov", "dem_share_gov");
      ("sen", "dem_share_sen") ]
    df [].

End Reshape4.

(** ** Version 4, [02_replicate.py]: the tables *)

Module Tables4.

(** What can end a table function: an exception of the estimator, or one
    of its own statements failing on what the estimator returned. *)
Inductive error : Type :=
| EstimatorError (e : exn)
| TypeError (msg : string)
| KeyError (key : string).

Inductive result (A : Type) : Type :=
| Ok (a : A)
| Err (e : error).

Arguments Ok {A} a.
Arguments Err {A} e.

Definition and_then {A B : Type} (m : result A) (k : A -> result B) : result B :=
  match m with
  | Ok a => k a
  | Err e => Err e
  end.

Definition of_outcome {A : Type} (o : outcome A) : result A :=
  match o with
  | Returned a => Ok a
  | Raised e => Err (EstimatorError e)
  end.

(** [result[key]] *)
Definition subscript (r : option dict) (key : string) : result pyval :=
  match r with
  | None => Err (TypeError "'NoneType' object is not subscriptable")
  | Some d =>
      match lookup key d with
      | Some v => Ok v
      | None => Err (KeyError key)
      end
  end.

(** [results[key] = value] *)
Fixpoint setitem {A : Type} (key : string) (value : A)
    (results : list (string * A)) : list (string * A) :=
  match results with
  | [] => [(key, value)]
  | (k, v) :: rest =>
      if String.eqb key k then (key, value) :: rest
      else (k, v) :: setitem key value rest
  end.

Section Tables.

Variable OLS_resid : list (list Qc) -> list Qc -> outcome (list Qc).
Variable OLS_cluster : list Qc -> list Qc -> list Qc -> outcome Fit.

(** The code that stands for the state label ['CA']. *)
Variable CA : Qc.

(** [enumerate(['none', 'linear', 'quadratic'], 1)] *)
Definition specifications : list (Z * string) :=
  [ (1%Z, "none"); (2%Z, "linear"); (3%Z, "quadratic") ].

(** [for i, trend in enumerate(...): result = run_twfe_regression(...);
       results[prefix + str(i + offset)] = result; print(result['coef'],
       result['se'], result['n_obs'])] *)
Fixpoint specification_loop (sample : DataFrame) (y_var prefix : string)
    (offset : Z) (specs : list (Z * string))
    (results : list (string * option dict))
    : result (list (string * option dict)) :=
  match specs with
  | [] => Ok results
  | (i, trend) :: rest =>
      and_then
        (of_outcome
           (Replicate4.run_twfe_regression OLS_resid OLS_cluster sample y_var
              "treat" "county_id" "state_year" "county_id" trend))
        (fun r =>
           let results :=
             setitem (prefix ++ str_of_Z (i + offset)) r results in
           and_then (subscript r "coef") (fun _ =>
           and_then (subscript r "se") (fun _ =>
           and_then (subscript r "n_obs") (fun _ =>
           specification_loop sample y_var prefix offset rest results))))
  end.

(** [df[(df['state'] == 'CA') & (df['vbm_share'].notna())]] at one row. *)
Definition in_vbm_sample (r : Row) : bool :=
  match r "state" with
  | Some s => Qc_eq_bool s CA
  | None => false
  end && notna r "vbm_share".

(** Lines 270-324. *)
Definition replicate_table3 (df : DataFrame)
    : result (list (string * option dict)) :=
  let sample_turnout := filter (fun r => notna r "turnout_share") df in
  and_then
    (specification_loop sample_turnout "turnout_share" "turnout_col" 0
       specifications [])
    (fun results =>
       let sample_vbm := filter in_vbm_sample df in
       specification_loop sample_vbm "vbm_share" "vbm_col" 3 specifications
         results).

End Tables.

End Tables4.

(** ** The office-level panel of version 2 *)

Module Reshape2.

(** [s.replace(old, '')]: the occurrences of [old] are removed from left to
    right; [skip] counts the characters of an occurrence still to drop. *)
Fixpoint remove_from (old : string) (skip : nat) (s : string) : string :=
  match s with
  | EmptyString => EmptyString
  | String c s' =>
      match skip with
      | S k => remove_from old k s'
      | O =>
          if String.prefix old s then remove_from old (String.length old - 1) s'
          else String c (remove_from old 0 s')
      end
  end.

Definition str_remove (old s : string) : string :=
  match old with
  | EmptyString => s
  | _ => remove_from old 0 s
  end.

(** [df[id_vars + value_vars].melt(id_vars, value_vars, var_name='office',
    value_name='dem_share')]: one block of rows per value column, each block
    in row order.  [label] gives the code stored for a value column. *)
Definition melt (id_vars value_vars : list string) (label : string -> Qc)
    (df : DataFrame) : DataFrame :=
  flat_map
    (fun var =>
       map (fun row =>
              row_of (map (fun c => (c, row c)) id_vars
                      ++ [ ("office", Some (label var));
                           ("dem_share", row var) ]))
         df)
    value_vars.

(** [02_replicate.py], lines 30-48; the [str.replace] on the office column
    is applied to the label before it is coded. *)
Definition prepare_dem_voteshare_data (df : DataFrame) : DataFrame :=
  let keep_cols :=
    ["state"; "county"; "county_id"; "year"; "treat"; "year2"; "state_year_id"] in
  let dem_cols := ["dem_share_gov"; "dem_share_pres"; "dem_share_sen"] in
  let df_long :=
    melt keep_cols dem_cols
      (fun var => Reshape4.office_code (str_remove "dem_share_" var)) df in
  dropna ["dem_share"] df_long.

End Reshape2.

(** ** Version 4, [05_extension_analysis.py]: the interaction model *)

Module Interaction4.

(** What a clustered fit answers by regressor name: [params], [bse],
    [pvalues], and [nobs]. *)
Record NamedFit : Type := mkNamedFit {
  params : string -> Qc;
  bse : string -> Qc;
  pvalues : string -> Qc;
  nobs : Z
}.

Section Estimator.

(** [sm.OLS(y, sm.add_constant(X), missing='drop')
       .fit(cov_type='cluster', cov_kwds={'groups': clusters})] *)
Variable OLS_cluster_named : list Qc -> design -> list Qc -> outcome NamedFit.

Definition cols_of (y_var treat_var interact_var county_var state_year_var
    cluster_var : string) : list string :=
  [y_var; treat_var; interact_var; county_var; state_year_var; cluster_var;
   "year"].

(** [for var in vars: sample[var + '_county_dm'] = ...;
       sample[var + '_dm'] = ...] *)
Fixpoint demean_loop (county_var state_year_var : string) (vars : list string)
    (sample : DataFrame) : DataFrame :=
  match vars with
  | [] => sample
  | var :: rest =>
      let sample :=
        assign (var ++ "_county_dm") (demean county_var var sample) sample in
      let sample :=
        assign (var ++ "_dm")
          (demean state_year_var (var ++ "_county_dm") sample) sample in
      demean_loop county_var state_year_var rest sample
  end.

(** The sample with the interaction term and the demeaned columns (lines
    183-189). *)
Definition interaction_frame (sample : DataFrame)
    (y_var treat_var interact_var county_var state_year_var : string)
    : DataFrame :=
  let sample :=
    assign "treat_x_post"
      (zip_with Qcmult (col treat_var sample) (col interact_var sample))
      sample in
  demean_loop county_var state_year_var
    [y_var; treat_var; interact_var; "treat_x_post"] sample.

Definition result_dict (treat_dm : string) (results : NamedFit)
    (clusters : list Qc) : dict :=
  [ ("treat_coef", PFloat (params results treat_dm));
    ("treat_se", PFloat (bse results treat_dm));
    ("treat_pval", PFloat (pvalues results treat_dm));
    ("interact_coef", PFloat (params results "treat_x_post_dm"));
    ("interact_se", PFloat (bse results "treat_x_post_dm"));
    ("interact_pval", PFloat (pvalues results "treat_x_post_dm"));
    ("n_obs", PInt (nobs results));
    ("n_clusters", PInt (nunique clusters)) ].

(** Lines 167-206 for a given enumeration of the column set. *)
Definition run_interaction_regression_on (cols_needed : list string)
    (df : DataFrame)
    (y_var treat_var interact_var county_var state_year_var cluster_var : string)
    : outcome (option dict) :=
  let sample := dropna cols_needed df in
  if Nat.ltb (length sample) 10 then Returned None
  else
    let sample :=
      interaction_frame sample y_var treat_var interact_var county_var
        state_year_var in
    let y := col (y_var ++ "_dm") sample in
    let X := select [(treat_var ++ "_dm")%string; "treat_x_post_dm"] sample in
    let clusters := col cluster_var sample in
    results <- OLS_cluster_named y X clusters ;;
    Returned (Some (result_dict (treat_var ++ "_dm") results clusters)).

Definition run_interaction_regression (df : DataFrame)
    (y_var treat_var interact_var county_var state_year_var cluster_var : string)
    : outcome (option dict) :=
  run_interaction_regression_on
    (set_list (cols_of y_var treat_var interact_var county_var state_year_var
                 cluster_var))
    df y_var treat_var interact_var county_var state_year_var cluster_var.

End Estimator.

End Interaction4.

(** ** Version 2, [05_run_extension.py]: the 2x2 comparison of means *)

Module SimpleDiD2.

(** A float that may be NaN: [None] is NaN, and NaN propagates through
    subtraction. *)
Definition nan_sub (a b : option Qc) : option Qc :=
  match a, b with
  | Some x, Some y => Some (x - y)
  | _, _ => None
  end.

Definition to_pyval (v : option Qc) : pyval :=
  match v with
  | Some q => PFloat q
  | None => PNaN
  end.

(** [Series.mean()]: missing cells are skipped; the mean of no value is
    NaN. *)
Definition mean_skipna (cells : list Cell) : option Qc :=
  match present cells with
  | [] => None
  | vals => Some (mean vals)
  end.

(** [df['year'].isin(period)] at one row; a missing year is in no period. *)
Definition year_isin (period : list Qc) (row : Row) : bool :=
  match row "year" with
  | Some y => existsb (Qc_eq_bool y) period
  | None => false
  end.

(** [df.loc[group & df['year'].isin(period), y_var]] for a boolean series
    [group] on the frame's index. *)
Definition loc (df : DataFrame) (group : list bool) (period : list Qc)
    (y_var : string) : list Cell :=
  map (fun p => fst p y_var)
    (filter (fun p => snd p && year_isin period (fst p)) (combine df group)).

(** [if isinstance(period, int): period = [period]] *)
Definition as_list (period : Z + list Z) : list Qc :=
  match period with
  | inl year => [Qc_of_Z year]
  | inr years => map Qc_of_Z years
  end.

(** Lines 113-153. *)
Definition run_simple_did (df : DataFrame) (y_var : string)
    (treated_group control_group : list bool)
    (pre_period post_period : Z + list Z) : dict :=
  let pre_period := as_list pre_period in
  let post_period := as_list post_period in
  let treated_pre := mean_skipna (loc df treated_group pre_period y_var) in
  let treated_post := mean_skipna (loc df treated_group post_period y_var) in
  let control_pre := mean_skipna (loc df control_group pre_period y_var) in
  let control_post := mean_skipna (loc df control_group post_period y_var) in
  let did :=
    nan_sub (nan_sub treated_post treated_pre)
      (nan_sub control_post control_pre) in
  [ ("coef", to_pyval did);
    ("treated_pre", to_pyval treated_pre);
    ("treated_post", to_pyval treated_post);
    ("control_pre", to_pyval control_pre);
    ("control_post", to_pyval control_post);
    ("diff_treated", to_pyval (nan_sub treated_post treated_pre));
    ("diff_control", to_pyval (nan_sub control_post control_pre)) ].

End SimpleDiD2.

(** ** Version 2, [05_run_extension.py]: the year index *)

Module Categorical2.

(** The place of [x] in [l]. *)
Fixpoint position (x : Qc) (l : list Qc) : option nat :=
  match l with
  | [] => None
  | y :: t => if Qc_eq_bool x y then Some 0%nat else option_map S (position x t)
  end.

(** [pd.Categorical(values).codes]: the categories are the sorted distinct
    values; a value is coded by the place of its category, a missing value
    by -1. *)
Definition codes (values : list Cell) : list Qc :=
  let categories := sorted (unique (present values)) in
  map (fun v =>
         match v with
         | Some x =>
             match position x categories with
             | Some n => Qc_of_Z (Z.of_nat n)
             | None => Qc_of_Z (-1)
             end
         | None => Qc_of_Z (-1)
         end)
    values.

(** [df['year_idx'] = pd.Categorical(df['year']).codes] (lines 173 and
    224). *)
Definition with_year_idx (df : DataFrame) : DataFrame :=
  assign "year_idx" (codes (map (fun r => r "year") df)) df.

End Categorical2.

(** ** The master scripts *)

Module RunAll.

Section Pipeline.

(** [subprocess.run([sys.executable, script]).returncode].  A run of the
    pipeline starts each script at most once, so one return code per script
    name describes it. *)
Variable returncode : string -> Z.

(** How a master script ends, and the scripts it started, in order. *)
Record run : Type := mkRun {
  started : list string;
  exit_code : Z
}.

(** Version 4, [run_all.py]: [run_script] ends the process with
    [sys.exit(1)] when the script fails; [main] calls it for each script in
    turn and falls off its end otherwise. *)
Fixpoint run_scripts (scripts : list string) (log : list string) : run :=
  match scripts with
  | [] => mkRun log 0
  | script :: rest =>
      if Z.eqb (returncode script) 0 then run_scripts rest (log ++ [script])
      else mkRun (log ++ [script]) 1
  end.

Definition scripts4 : list string :=
  ["01_examine_original.py"; "02_replicate.py"; "03_collect_extension.py";
   "04_prepare_data.py"; "05_extension_analysis.py"].

Definition main4 : run := run_scripts scripts4 [].

(** Version 3, [00_run_all.py]: [run_script] answers whether the script
    succeeded; [main] records the answer in [results] and leaves the loop at
    the first failure. *)
Definition run_script (script : string) : bool := Z.eqb (returncode script) 0.

Fixpoint script_loop (scripts : list string) (results : list (string * bool))
    (all_success : bool) : list (string * bool) * bool :=
  match scripts with
  | [] => (results, all_success)
  | script :: rest =>
      let success := run_script script in
      let results := results ++ [(script, success)] in
      if negb success then (results, false)
      else script_loop rest results all_success
  end.

Definition scripts3 : list string :=
  ["02_replicate.py"; "03_collect_extension.py"; "04_merge_extension.py";
   "05_extension_analysis.py"].

(** [results] and the value [main] returns, which [sys.exit] receives. *)
Definition main3 : list (string * bool) * Z :=
  let st := script_loop scripts3 [] true in
  (fst st, if snd st then 0%Z else 1%Z).

End Pipeline.

End RunAll.

(** ** Version 4, [05_extension_analysis.py]: the California analysis *)

Module Analyses4.

Section Analyses.

Variable OLS_resid : list (list Qc) -> list Qc -> outcome (list Qc).
Variable OLS_cluster : list Qc -> list Qc -> list Qc -> outcome Fit.

(** One pass of the two loops of [california_analysis] (lines 424-435 and
    446-457): [sample = ca_df[ca_df[y_var].notna()]; if len(sample) > 10:
    result = run_twfe_regression(sample, y_var=y_var, trend_type=trend);
    if result: results.append({...})]. *)
Definition california_step (analysis outcome_label y_var trend : string)
    (ca_df : DataFrame) (results : list dict)
    : Tables4.result (list dict) :=
  let sample := filter (fun r => notna r y_var) ca_df in
  if Nat.ltb 10 (length sample) then
    Tables4.and_then
      (Tables4.of_outcome
         (Extension4.run_twfe_regression OLS_resid OLS_cluster sample y_var
            "treat" "county_id" "state_year" "county_id" trend None))
      (fun result =>
         match result with
         | None => Tables4.Ok results
         | Some [] => Tables4.Ok results
         | Some _ =>
             Tables4.and_then (Tables4.subscript result "coef") (fun coef =>
             Tables4.and_then (Tables4.subscript result "se") (fun se =>
             Tables4.and_then (Tables4.subscript result "n_obs") (fun n_obs =>
             Tables4.Ok
               (results
                ++ [ [ ("Analysis", PStr analysis);
                       ("Outcome", PStr outcome_label);
                       ("Coef", coef); ("SE", se); ("N_Obs", n_obs) ] ]))))
         end)
  else Tables4.Ok results.

End Analyses.

End Analyses4.

(** * Vocabulary of the further properties

    As above, nothing here is part of the scripts. *)

(** The cells of a row at the listed columns. *)
Definition cells (cols : list string) (r : Row) : list Cell := map r cols.

(** The long rows one wide row gives: one per office with a reported
    share, in the order of [offices]. *)
Definition office_rows (id_cols : list string) (offices : list (string * string))
    (row : Row) : DataFrame :=
  map (fun ov => Reshape4.long_row id_cols (fst ov) (snd ov) row)
    (filter (fun ov => notna row (snd ov)) offices).

Definition offices_replication : list (string * string) :=
  [ ("gov", "dem_share_gov"); ("pres", "dem_share_pres");
    ("sen", "dem_share_sen") ].

Definition offices_extension : list (string * string) :=
  [ ("pres", "dem_share_pres"); ("gov", "dem_share_gov");
    ("sen", "dem_share_sen") ].

Definition id_cols_replication : list string :=
  ["state"; "county"; "year"; "county_id"; "state_year"; "treat"].

(** The columns the three reshaped panels have in common. *)
Definition shared_cols : list string :=
  ["state"; "county"; "county_id"; "year"; "treat"; "office"; "dem_share"].

(** The keys of every record version 3's estimator returns. *)
Definition record_keys3 : list string :=
  ["coef"; "se"; "t"; "p"; "n"; "r2"; "note"].

(** Every county has fewer rows than its trend model has parameters. *)
Definition short_counties (county_var trend_type : string) (sample : DataFrame)
    : bool :=
  forallb
    (fun c => Nat.ltb (length (mask county_var c sample)) (min_rows trend_type))
    (unique (col county_var sample)).

(** The columns the manual branch of version 3 attaches. *)
Definition manual_columns : list string := ["y_dm"; "x_dm"].

(** The names of the county-trend columns of version 2's design. *)
Definition trend_names (prefix : string) (cids : list Qc) : list string :=
  map (fun cid => (prefix ++ str_of_Z (trunc cid))%string) cids.

(** The reported outcomes of one cell of the 2x2 comparison. *)
Definition did_cell (df : DataFrame) (y_var : string) (group : list bool)
    (period : Z + list Z) : list Qc :=
  present (SimpleDiD2.loc df group (SimpleDiD2.as_list period) y_var).

(** Whether one of the cells holds no reported outcome. *)
Definition some_cell_empty (cells : list (list Qc)) : bool :=
  existsb (fun l => Nat.eqb (length l) 0) cells.

(** The outcome of a row raised by [c]; a missing outcome stays missing. *)
Definition shift_row (y_var : string) (c : Qc) (r : Row) : Row :=
  fun name =>
    if String.eqb name y_var then
      match r name with
      | Some v => Some (v + c)
      | None => None
      end
    else r name.

Definition shift_outcome (y_var : string) (c : Qc) (df : DataFrame)
    : DataFrame :=
  map (shift_row y_var c) df.

(** A 2x2 example: counties 1 and 2 in 2016 and 2020; county 1 is the
    treated group. *)
Definition did_panel : DataFrame :=
  [ obs 1 10 2016 (num 3) (num 0); obs 2 10 2016 (num 4) (num 0);
    obs 1 11 2020 (num 7) (num 1); obs 2 11 2020 (num 5) (num 0) ].

Definition did_treated : list bool := [true; false; true; false].

Definition did_control : list bool := [false; true; false; true].

(** Whether a script ended with return code 0. *)
Definition succeeds (returncode : string -> Z) (script : string) : bool :=
  Z.eqb (returncode script) 0.

(** The scripts a master script starts are those up to and including the
    first that fails. *)
Fixpoint until_failure (ok : string -> bool) (scripts : list string)
    : list string :=
  match scripts with
  | [] => []
  | s :: rest => if ok s then s :: until_failure ok rest else [s]
  end.

(** Rows with the same [key] have the same [val]. *)
Definition determined_by (key val : string) (df : DataFrame) : bool :=
  forallb
    (fun a =>
       forallb
         (fun b =>
            implb (Qc_eq_bool (cellf key a) (cellf key b))
              (Qc_eq_bool (cellf val a) (cellf val b)))
         df)
    df.

(** County 1 is treated in both elections, county 2 in neither. *)
Definition panel_fixed_treatment : DataFrame :=
  [ obs 1 10 2000 (num 3) (num 1); obs 1 11 2004 (num 5) (num 1);
    obs 2 10 2000 (num 4) (num 0); obs 2 11 2004 (num 8) (num 0) ].

(** The last character of a name. *)
Fixpoint last_char (s : string) : option Ascii.ascii :=
  match s with
  | EmptyString => None
  | String a s' =>
      match last_char s' with
      | None => Some a
      | Some b => Some b
      end
  end.

(** The sample of version 2's estimators after the type conversions
    (lines 75-94 and 170-179 of [02_replicate.py]). *)
Definition manual_sample (df : DataFrame) (y_var x_var : string)
    (sample_filter : option (list bool)) : DataFrame :=
  astype_int "state_year_id"
    (astype_int "county_id"
       (Replicate2.prepare_sample df y_var x_var sample_filter)).

(** The product of treatment and period indicator is 0 in every row. *)
Definition no_interaction_support (treat_var interact_var : string)
    (sample : DataFrame) : bool :=
  forallb
    (fun r => Qc_eq_bool (cellf treat_var r * cellf interact_var r) 0)
    sample.

(** The ten rows of [panel_10], all of the earlier period. *)
Definition panel_pre_period : DataFrame :=
  map (fun r => set_cell r "post_2018" 0) panel_10.

Definition named_fit_raises
    : list Qc -> design -> list Qc -> outcome Interaction4.NamedFit :=
  fun _ _ _ => Raised singular.

(** The keys of the record of version 4's replication script. *)
Definition record_keys4 : list string :=
  ["coef"; "se"; "pval"; "n_obs"; "n_clusters"].

Definition table3_keys : list string :=
  ["turnout_col1"; "turnout_col2"; "turnout_col3";
   "vbm_col4"; "vbm_col5"; "vbm_col6"].

(** Two counties in five state-years with the columns of the version-4
    scripts: ten complete rows. *)
Definition panel_ten : DataFrame :=
  [ obs 1 10 2000 (num 3) (num 0); obs 2 10 2000 (num 4) (num 0);
    obs 1 11 2004 (num 5) (num 0); obs 2 11 2004 (num 8) (num 0);
    obs 1 12 2008 (num 6) (num 1); obs 2 12 2008 (num 7) (num 0);
    obs 1 13 2012 (num 9) (num 1); obs 2 13 2012 (num 9) (num 1);
    obs 1 14 2016 (num 7) (num 1); obs 2 14 2016 (num 6) (num 1) ].

(** ** Shares of the entities in the time groups *)

(** The share of entity [e] in the period of the row [a]: the rows of [e]
    in that period as a fraction of all the rows of the period. *)
Definition share {A : Type} (l : list A) (ke kt : A -> Qc) (e : Qc) (a : A)
    : Qc :=
  Qc_of_nat (cell_count l ke kt e (kt a))
  / Qc_of_nat (length (group l kt (kt a))).

(** Over the periods in which any one entity is observed, every entity
    holds a constant share of the rows. *)
Definition even_shares {A : Type} (l : list A) (ke kt : A -> Qc) : Prop :=
  forall e a b,
    In a l -> In b l -> ke a = ke b ->
    share l ke kt e a = share l ke kt e b.

(** [even_shares] of a frame, decided. *)
Definition proportional (county_var state_year_var : string) (df : DataFrame)
    : bool :=
  forallb
    (fun e =>
       forallb
         (fun a =>
            forallb
              (fun b =>
                 implb (Qc_eq_bool (cellf county_var a) (cellf county_var b))
                   (Qc_eq_bool
                      (share df (cellf county_var) (cellf state_year_var) e a)
                      (share df (cellf county_var) (cellf state_year_var) e b)))
              df)
         df)
    (unique (col county_var df)).


(** ** A clustered fit in exact arithmetic *)

(** The least-squares slope of [y] on [x] and a constant, in exact
    arithmetic. *)
Definition ols_slope (y x : list Qc) : Qc :=
  let dx := map (fun v => v - mean x) x in
  let dy := map (fun v => v - mean y) y in
  qsum (zip_with Qcmult dx dy) / qsum (zip_with Qcmult dx dx).

(** A clustered fit computed from its rows in exact arithmetic: it reports
    the least-squares slope, the number of rows and, in the place of the
    standard error, whose value is not rational, its square by
    [cluster_se_squared]; the p-value is not computed. *)
Definition exact_fit : list Qc -> list Qc -> list Qc -> outcome Fit :=
  fun y x g =>
    Returned (mkFit (ols_slope y x) (cluster_se_squared y x g) 0
                (Z.of_nat (length y))).

(** * The demeaning steps in binary64

    The scripts run on binary64 floats.  The exact means above are the
    idealisation under which the algebraic properties are stated; this
    module keeps the rounding of every operation, to tell which of them
    hold for the program only up to rounding. *)

Module Binary64.

(** pandas' group mean is a compensated (Kahan) sum of the group's values
    in row order, divided by their number. *)
Fixpoint kahan_sum (sumx compensation : PrimFloat.float)
    (vals : list PrimFloat.float) : PrimFloat.float :=
  match vals with
  | [] => sumx
  | val :: rest =>
      let y := PrimFloat.sub val compensation in
      let t := PrimFloat.add sumx y in
      kahan_sum t (PrimFloat.sub (PrimFloat.sub t sumx) y) rest
  end.

Definition of_nat (n : nat) : PrimFloat.float :=
  PrimFloat.of_uint63 (Uint63.of_Z (Z.of_nat n)).

Definition mean (vals : list PrimFloat.float) : PrimFloat.float :=
  PrimFloat.div (kahan_sum 0%float 0%float vals) (of_nat (length vals)).

(** The values of the rows whose key is [k]. *)
Definition group_vals (k : Qc) (keys : list Qc) (vals : list PrimFloat.float)
    : list PrimFloat.float :=
  map snd (filter (fun p => Qc_eq_bool (fst p) k) (combine keys vals)).

(** [df.groupby(key)[val].transform('mean')] *)
Definition transform_mean (keys : list Qc) (vals : list PrimFloat.float)
    : list PrimFloat.float :=
  map (fun k => mean (group_vals k keys vals)) keys.

(** [a - b] for two series on the same index. *)
Definition series_sub (a b : list PrimFloat.float) : list PrimFloat.float :=
  map (fun p => PrimFloat.sub (fst p) (snd p)) (combine a b).

(** [df[val] - df.groupby(key)[val].transform('mean')] *)
Definition demean (keys : list Qc) (vals : list PrimFloat.float)
    : list PrimFloat.float :=
  series_sub vals (transform_mean keys vals).

(** Steps 1 and 2 of version 4's [run_twfe_regression] (lines 79-87) on
    the key columns and the two series of the sample: the entity-demeaned
    pair and the twice-demeaned pair. *)
Definition demean_twice (county state_year : list Qc)
    (y treat : list PrimFloat.float)
    : (list PrimFloat.float * list PrimFloat.float)
      * (list PrimFloat.float * list PrimFloat.float) :=
  let y_dm := demean county y in
  let treat_dm := demean county treat in
  let y_dm2 := demean state_year y_dm in
  let treat_dm2 := demean state_year treat_dm in
  ((y_dm, treat_dm), (y_dm2, treat_dm2)).

End Binary64.

(** Two counties with three offices each, all in one state-year; the
    outcomes are the binary64 values nearest to 0.1, 0.2, 0.4 and to 0.35,
    0.61, 0.48. *)
Definition counties_one_period : list Qc :=
  [Qc_of_Z 1; Qc_of_Z 1; Qc_of_Z 1; Qc_of_Z 2; Qc_of_Z 2; Qc_of_Z 2].

Definition periods_one_period : list Qc :=
  [Qc_of_Z 10; Qc_of_Z 10; Qc_of_Z 10; Qc_of_Z 10; Qc_of_Z 10; Qc_of_Z 10].

Definition outcomes_one_period : list PrimFloat.float :=
  [ 0x1.999999999999ap-4%float; 0x1.999999999999ap-3%float;
    0x1.999999999999ap-2%float; 0x1.6666666666666p-2%float;
    0x1.3851eb851eb85p-1%float; 0x1.eb851eb851eb8p-2%float ].

Definition treated_one_period : list PrimFloat.float :=
  [ 0%float; 1%float; 0%float; 0%float; 1%float; 1%float ].

Definition demeaned_one_period
    : (list PrimFloat.float * list PrimFloat.float)
      * (list PrimFloat.float * list PrimFloat.float) :=
  Binary64.demean_twice counties_one_period periods_one_period
    outcomes_one_period treated_one_period.

(** Position by position, whether two binary64 series hold equal values. *)
Definition same_values (a b : list PrimFloat.float) : list bool :=
  map (fun p => PrimFloat.eqb (fst p) (snd p)) (combine a b).

(** * Properties *)

(** ** Lists, series and frames *)

Lemma Qc_eq_bool_true (x y : Qc) : Qc_eq_bool x y = true <-> x = y.
Proof.
  split.
  - apply Qc_eq_bool_correct.
  - intros ->. unfold Qc_eq_bool. destruct (Qc_eq_dec y y); congruence.
Qed.

Lemma Qc_eq_bool_false (x y : Qc) : Qc_eq_bool x y = false <-> x <> y.
Proof.
  unfold Qc_eq_bool. destruct (Qc_eq_dec x y); split; congruence.
Qed.

Lemma Qc_eq_bool_refl (x : Qc) : Qc_eq_bool x x = true.
Proof. now apply Qc_eq_bool_true. Qed.

Lemma Qc_eq_bool_sym (x y : Qc) : Qc_eq_bool x y = Qc_eq_bool y x.
Proof.
  destruct (Qc_eq_bool y x) eqn:E.
  - apply Qc_eq_bool_true in E. now apply Qc_eq_bool_true.
  - apply Qc_eq_bool_false in E. apply Qc_eq_bool_false. congruence.
Qed.

Lemma length_col (c : string) (df : DataFrame) : length (col c df) = length df.
Proof. unfold col. apply length_map. Qed.

Lemma length_assign (c : string) (vals : list Qc) (df : DataFrame) :
  length vals = length df -> length (assign c vals df) = length df.
Proof.
  intros H. unfold assign. rewrite length_map, length_combine. lia.
Qed.

Lemma dropna_all_missing (cols : list string) (df : DataFrame) :
  (forall r, In r df -> exists c, In c cols /\ r c = None) ->
  dropna cols df = [].
Proof.
  intros H. unfold dropna. induction df as [|r df IH]; [reflexivity|].
  simpl. destruct (forallb (notna r) cols) eqn:E.
  - exfalso. destruct (H r (or_introl eq_refl)) as [c [Hc Hn]].
    rewrite forallb_forall in E. specialize (E c Hc).
    unfold notna in E. now rewrite Hn in E.
  - apply IH. intros r' Hr'. apply H. now right.
Qed.

Lemma set_list_In (names : list string) (c : string) :
  In c (set_list names) <-> In c names.
Proof.
  unfold set_list. rewrite <- in_rev, nodup_In, <- in_rev. reflexivity.
Qed.

Lemma set_list_enumerates (names : list string) :
  enumerates (set_list names) names.
Proof.
  split.
  - unfold set_list. apply NoDup_rev, NoDup_nodup.
  - intros c. apply set_list_In.
Qed.

Lemma dropna_enumeration (cols1 cols2 : list string) (df : DataFrame) :
  (forall c, In c cols1 <-> In c cols2) ->
  dropna cols1 df = dropna cols2 df.
Proof.
  intros H. unfold dropna. apply filter_ext. intros r.
  destruct (forallb (notna r) cols2) eqn:E.
  - rewrite forallb_forall in *. intros c Hc. apply E, H, Hc.
  - destruct (forallb (notna r) cols1) eqn:E1; [|reflexivity].
    rewrite <- E. symmetry. rewrite forallb_forall in *.
    intros c Hc. apply E1, H, Hc.
Qed.

(** ** The empty sample and the trend argument in version 4 *)

Section Version4.

Variable OLS_resid : list (list Qc) -> list Qc -> outcome (list Qc).
Variable OLS_cluster : list Qc -> list Qc -> list Qc -> outcome Fit.

Lemma handle_trends_empty (county_var trend_type : string) :
  known_trend trend_type ->
  Replicate4.handle_trends OLS_resid county_var trend_type [] [] []
  = Returned (Replicate4.mkLocals [] (Some []) (Some [])).
Proof.
  intros [<- | [<- | [<- | []]]]; reflexivity.
Qed.

Lemma handle_trends_unknown (county_var trend_type : string)
    (sample : DataFrame) (y_dm2 treat_dm2 : list Qc) :
  ~ known_trend trend_type ->
  Replicate4.handle_trends OLS_resid county_var trend_type sample y_dm2 treat_dm2
  = Returned (Replicate4.mkLocals sample None None).
Proof.
  intros H. unfold Replicate4.handle_trends.
  destruct (String.eqb_spec trend_type "none") as [->|_].
  { exfalso. apply H. left. reflexivity. }
  destruct (String.eqb_spec trend_type "linear") as [->|_].
  { exfalso. apply H. right. left. reflexivity. }
  destruct (String.eqb_spec trend_type "quadratic") as [->|_].
  { exfalso. apply H. right. right. left. reflexivity. }
  reflexivity.
Qed.

Lemma final_regression_not_None (cluster_var : string) (l : Replicate4.locals) :
  Replicate4.final_regression OLS_cluster cluster_var l <> Returned None.
Proof.
  unfold Replicate4.final_regression.
  destruct (Replicate4.l_x_final l); simpl; [|discriminate].
  destruct (Replicate4.l_y_final l); simpl; [|discriminate].
  destruct (OLS_cluster _ _ _); simpl; discriminate.
Qed.

Lemma replicate4_never_None (cols : list string) (df : DataFrame)
    (y_var treat_var county_var state_year_var cluster_var trend_type : string) :
  Replicate4.run_twfe_regression_on OLS_resid OLS_cluster cols df y_var treat_var
    county_var state_year_var cluster_var trend_type <> Returned None.
Proof.
  unfold Replicate4.run_twfe_regression_on.
  destruct (Replicate4.final_design _ _ _ _ _ _ _ _); simpl.
  - apply final_regression_not_None.
  - discriminate.
Qed.

(** C1, as [02_replicate.py] of version 4 runs it.  When every row lacks
    one of the outcome, treatment, entity or time cells, the sample is
    empty, no guard intervenes and the function hands three empty series to
    the clustered regression: it returns what that call yields (its
    exception, or a five-field dictionary), and never [None]. *)
Theorem replicate4_empty_sample_reaches_regression
    (df : DataFrame)
    (y_var treat_var county_var state_year_var cluster_var trend_type : string) :
  (forall r, In r df ->
     exists c, In c [y_var; treat_var; county_var; state_year_var] /\ r c = None) ->
  known_trend trend_type ->
  Replicate4.run_twfe_regression OLS_resid OLS_cluster df y_var treat_var
    county_var state_year_var cluster_var trend_type
  = (fit <- OLS_cluster [] [] [] ;;
     Returned (Some (Replicate4.result_dict fit [])))
  /\ Replicate4.run_twfe_regression OLS_resid OLS_cluster df y_var treat_var
       county_var state_year_var cluster_var trend_type <> Returned None.
Proof.
  intros Hmiss Htrend. split; [|apply replicate4_never_None].
  unfold Replicate4.run_twfe_regression, Replicate4.run_twfe_regression_on,
    Replicate4.final_design.
  rewrite dropna_all_missing.
  - simpl. rewrite handle_trends_empty by assumption. reflexivity.
  - intros r Hr. destruct (Hmiss r Hr) as [c [Hc Hn]].
    exists c. split; [|assumption].
    apply set_list_In. unfold Replicate4.cols_of.
    simpl in Hc. simpl. intuition.
Qed.

End Version4.

Lemma replicate4_empty_sample_witness :
  Replicate4.run_twfe_regression resid_raises cluster_raises panel_no_outcome
    "y" "treat" "county_id" "state_year" "county_id" "linear"
  = (fit <- cluster_raises [] [] [] ;;
     Returned (Some (Replicate4.result_dict fit [])))
  /\ Replicate4.run_twfe_regression resid_raises cluster_raises panel_no_outcome
       "y" "treat" "county_id" "state_year" "county_id" "linear"
     <> Returned None.
Proof.
  apply (replicate4_empty_sample_reaches_regression resid_raises cluster_raises
           panel_no_outcome "y" "treat" "county_id" "state_year" "county_id"
           "linear").
  - intros r [<- | [<- | []]]; exists "y"; simpl; auto.
  - right. left. reflexivity.
Defined.

Section UnknownTrend.

Variable OLS_resid : list (list Qc) -> list Qc -> outcome (list Qc).
Variable OLS_cluster : list Qc -> list Qc -> list Qc -> outcome Fit.

(** C10, amended.  For a trend argument that is none of ['none'],
    ['linear'], ['quadratic'], [02_replicate.py] raises the unbound-local
    error on [x_final] for every panel; [05_extension_analysis.py] does so
    when at least ten complete rows remain, and returns [None] before that
    when fewer remain. *)
Theorem unknown_trend_type_behaviour
    (df : DataFrame)
    (y_var treat_var county_var state_year_var cluster_var trend_type : string)
    (additional_controls : option (list string)) :
  ~ known_trend trend_type ->
  Replicate4.run_twfe_regression OLS_resid OLS_cluster df y_var treat_var
    county_var state_year_var cluster_var trend_type
  = Raised (UnboundLocalError "x_final")
  /\ Extension4.run_twfe_regression OLS_resid OLS_cluster df y_var treat_var
       county_var state_year_var cluster_var trend_type additional_controls
     = if Nat.ltb
            (length
               (dropna
                  (set_list
                     (Extension4.cols_of y_var treat_var county_var
                        state_year_var cluster_var additional_controls)) df))
            10
       then Returned None
       else Raised (UnboundLocalError "x_final").
Proof.
  intros H. split.
  - unfold Replicate4.run_twfe_regression, Replicate4.run_twfe_regression_on,
      Replicate4.final_design.
    rewrite handle_trends_unknown by assumption. reflexivity.
  - unfold Extension4.run_twfe_regression, Extension4.run_twfe_regression_on.
    destruct (Nat.ltb _ 10); [reflexivity|].
    rewrite handle_trends_unknown by assumption. reflexivity.
Qed.

End UnknownTrend.

Lemma cubic_is_unknown : ~ known_trend "cubic".
Proof.
  intros [H | [H | [H | []]]]; discriminate H.
Qed.

Lemma unknown_trend_type_witness :
  Replicate4.run_twfe_regression resid_raises (cluster_reports some_fit)
    panel_2x2 "y" "treat" "county_id" "state_year" "county_id" "cubic"
  = Raised (UnboundLocalError "x_final")
  /\ Extension4.run_twfe_regression resid_raises (cluster_reports some_fit)
       panel_2x2 "y" "treat" "county_id" "state_year" "county_id" "cubic" None
     = Returned None.
Proof.
  exact (unknown_trend_type_behaviour resid_raises (cluster_reports some_fit)
           panel_2x2 "y" "treat" "county_id" "state_year" "county_id" "cubic"
           None cubic_is_unknown).
Defined.

(** C10 as stated fails on [05_extension_analysis.py]: with four complete
    rows and the trend argument ['cubic'] the call returns [None]; no
    unbound-local error is raised. *)
Lemma unknown_trend_small_sample_returns_None :
  ~ known_trend "cubic"
  /\ Extension4.run_twfe_regression resid_raises (cluster_reports some_fit)
       panel_2x2 "y" "treat" "county_id" "state_year" "county_id" "cubic" None
     = Returned None.
Proof.
  split; [exact cubic_is_unknown | reflexivity].
Qed.

(** ** Columns of a frame after an assignment *)

Lemma col_assign_same (c : string) (vals : list Qc) (df : DataFrame) :
  length vals = length df -> col c (assign c vals df) = vals.
Proof.
  unfold col, assign. revert vals.
  induction df as [|r df IH]; intros [|v vals] H; simpl in *;
    try reflexivity; try discriminate.
  unfold set_cell at 1. rewrite String.eqb_refl. simpl.
  f_equal. apply IH. lia.
Qed.

Lemma col_assign_other (c c' : string) (vals : list Qc) (df : DataFrame) :
  c' <> c -> length vals = length df ->
  col c' (assign c vals df) = col c' df.
Proof.
  intros Hne. unfold col, assign. revert vals.
  induction df as [|r df IH]; intros [|v vals] H; simpl in *;
    try reflexivity; try discriminate.
  unfold set_cell at 1.
  destruct (String.eqb_spec c' c) as [E|_]; [contradiction|].
  f_equal. apply IH. lia.
Qed.


Lemma length_mask (c : string) (k : Qc) (df : DataFrame) (vals : list Qc) :
  length vals = length df ->
  length (mask c k df) = length (group_vals k (col c df) vals).
Proof.
  unfold mask, group_vals, col. rewrite length_map. revert vals.
  induction df as [|r df IH]; intros [|v vals] H; simpl in *;
    try reflexivity; try discriminate.
  destruct (Qc_eq_bool (cell_value (r c)) k); simpl; rewrite (IH vals); lia.
Qed.

Lemma length_group_vals (k : Qc) (keys v1 v2 : list Qc) :
  length v1 = length keys -> length v2 = length keys ->
  length (group_vals k keys v1) = length (group_vals k keys v2).
Proof.
  unfold group_vals. rewrite !length_map. revert v1 v2.
  induction keys as [|x keys IH]; intros [|a v1] [|b v2] H1 H2; simpl in *;
    try reflexivity; try discriminate.
  destruct (Qc_eq_bool x k); simpl; rewrite (IH v1 v2); lia.
Qed.

Lemma length_series_sub (a b : list Qc) :
  length a = length b -> length (series_sub a b) = length a.
Proof.
  intros H. unfold series_sub. rewrite length_map, length_combine. lia.
Qed.

Lemma length_transform_mean (keys vals : list Qc) :
  length (transform_mean keys vals) = length keys.
Proof. unfold transform_mean. apply length_map. Qed.

Lemma length_demean (key val : string) (df : DataFrame) :
  length (demean key val df) = length df.
Proof.
  unfold demean. rewrite length_series_sub.
  - apply length_col.
  - now rewrite length_transform_mean, !length_col.
Qed.

(** ** Distinct keys and the groups they select *)

Lemma filter_filter_comm {A : Type} (p q : A -> bool) (l : list A) :
  filter p (filter q l) = filter q (filter p l).
Proof.
  induction l as [|a l IH]; [reflexivity|].
  simpl. destruct (p a) eqn:Ep, (q a) eqn:Eq; simpl;
    rewrite ?Ep, ?Eq, IH; reflexivity.
Qed.

Lemma filter_idem {A : Type} (p : A -> bool) (l : list A) :
  filter p (filter p l) = filter p l.
Proof.
  induction l as [|a l IH]; [reflexivity|].
  simpl. destruct (p a) eqn:Ep; simpl; rewrite ?Ep, IH; reflexivity.
Qed.

Lemma filter_map_swap {A B : Type} (f : A -> B) (p : B -> bool) (l : list A) :
  filter p (map f l) = map f (filter (fun a => p (f a)) l).
Proof.
  induction l as [|a l IH]; [reflexivity|].
  simpl. destruct (p (f a)); simpl; now rewrite IH.
Qed.

Lemma filter_length_le {A : Type} (p : A -> bool) (l : list A) :
  (length (filter p l) <= length l)%nat.
Proof.
  induction l as [|a l IH]; simpl; [lia|].
  destruct (p a); simpl; lia.
Qed.

Lemma unique_filter_neq (x : Qc) (l : list Qc) :
  filter (fun y => negb (Qc_eq_bool y x)) (unique l)
  = unique (filter (fun y => negb (Qc_eq_bool y x)) l).
Proof.
  induction l as [|y t IH]; [reflexivity|].
  simpl. destruct (Qc_eq_bool y x) eqn:E; simpl.
  - apply Qc_eq_bool_true in E. subst y.
    rewrite filter_idem. exact IH.
  - f_equal. rewrite filter_filter_comm, IH. reflexivity.
Qed.

Lemma unique_In (x : Qc) (l : list Qc) : In x (unique l) <-> In x l.
Proof.
  induction l as [|y t IH]; [reflexivity|].
  simpl. rewrite filter_In, IH. split.
  - intros [H | [H _]]; auto.
  - intros [H | H]; [now left|].
    destruct (Qc_eq_dec y x) as [E|E]; [now left|].
    right. split; [assumption|].
    apply negb_true_iff, Qc_eq_bool_false. congruence.
Qed.

Lemma unique_NoDup (l : list Qc) : NoDup (unique l).
Proof.
  induction l as [|y t IH]; simpl; constructor.
  - rewrite filter_In. intros [_ H].
    now rewrite Qc_eq_bool_refl in H.
  - now apply NoDup_filter.
Qed.

Lemma filter_split_perm {A : Type} (p : A -> bool) (l : list A) :
  Permutation (filter p l ++ filter (fun a => negb (p a)) l) l.
Proof.
  induction l as [|a l IH]; [constructor|].
  simpl. destruct (p a); simpl.
  - now constructor.
  - symmetry. apply Permutation_cons_app. now symmetry.
Qed.

Lemma by_group_cons {A : Type} (key : A -> Qc) (a : A) (l : list A) :
  let rest := filter (fun b => negb (Qc_eq_bool (key b) (key a))) l in
  by_group key (a :: l)
  = (a :: filter (fun b => Qc_eq_bool (key b) (key a)) l)
    :: by_group key rest.
Proof.
  intros rest. unfold by_group. simpl. rewrite Qc_eq_bool_refl. f_equal.
  rewrite unique_filter_neq, filter_map_swap. fold rest.
  apply map_ext_in. intros k Hk.
  apply unique_In, in_map_iff in Hk. destruct Hk as [b [<- Hb]].
  unfold rest in Hb. apply filter_In in Hb. destruct Hb as [_ Hb].
  apply negb_true_iff in Hb.
  rewrite Qc_eq_bool_sym, Hb. unfold rest.
  induction l as [|c l IH]; [reflexivity|].
  simpl. destruct (Qc_eq_bool (key c) (key a)) eqn:Eca; simpl.
  - destruct (Qc_eq_bool (key c) (key b)) eqn:Ecb; [|exact IH].
    apply Qc_eq_bool_true in Eca, Ecb. apply Qc_eq_bool_false in Hb.
    congruence.
  - destruct (Qc_eq_bool (key c) (key b)); [f_equal|]; exact IH.
Qed.

Lemma by_group_perm {A : Type} (key : A -> Qc) (l : list A) :
  Permutation (concat (by_group key l)) l.
Proof.
  remember (length l) as n eqn:Hn. revert l Hn.
  induction n as [n IH] using lt_wf_ind. intros [|a l] Hn.
  - constructor.
  - rewrite by_group_cons. cbv zeta. simpl concat.
    constructor.
    etransitivity.
    + apply Permutation_app_head.
      apply (IH (length (filter (fun b => negb (Qc_eq_bool (key b) (key a))) l))).
      * subst n. simpl.
        pose proof (filter_length_le
                      (fun b => negb (Qc_eq_bool (key b) (key a))) l). lia.
      * reflexivity.
    + apply (filter_split_perm (fun b => Qc_eq_bool (key b) (key a))).
Qed.

(** ** The trend-absorption loop *)

Lemma length_center (l : list Qc) : length (Replicate4.center l) = length l.
Proof. unfold Replicate4.center. apply length_map. Qed.

Lemma length_square (l : list Qc) : length (Replicate4.square l) = length l.
Proof. unfold Replicate4.square. apply length_map. Qed.

Lemma length_concat_map {A B C : Type} (f : A -> list B) (g : A -> list C)
    (l : list A) :
  (forall a, In a l -> length (f a) = length (g a)) ->
  length (concat (map f l)) = length (concat (map g l)).
Proof.
  induction l as [|a l IH]; intros H; [reflexivity|].
  simpl. rewrite !length_app, (H a (or_introl eq_refl)), IH; [reflexivity|].
  intros b Hb. apply H. now right.
Qed.

Lemma mask_by_group (c : string) (df : DataFrame) :
  map (fun k => mask c k df) (unique (col c df))
  = by_group (fun r => cell_value (r c)) df.
Proof. reflexivity. Qed.

Lemma length_masks (c : string) (df : DataFrame) :
  length (concat (map (fun k => mask c k df) (unique (col c df)))) = length df.
Proof.
  rewrite mask_by_group. apply Permutation_length, by_group_perm.
Qed.

Section TrendLoop.

Variable OLS_resid : list (list Qc) -> list Qc -> outcome (list Qc).

Lemma handle_trends_polynomial (county_var trend_type : string)
    (sample : DataFrame) (y_dm2 treat_dm2 : list Qc) :
  polynomial_trend trend_type ->
  Replicate4.handle_trends OLS_resid county_var trend_type sample y_dm2 treat_dm2
  = let frame := trend_frame trend_type sample y_dm2 treat_dm2 in
    let resid :=
      Replicate4.trend_residuals OLS_resid (min_rows trend_type)
        (regressors trend_type) county_var frame in
    y_final <- pd_Series (fst resid) frame ;;
    x_final <- pd_Series (snd resid) frame ;;
    Returned (Replicate4.mkLocals frame (Some y_final) (Some x_final)).
Proof.
  intros [-> | ->]; reflexivity.
Qed.

Lemma county_loop_concat (m : nat) (regs : list string) (county_var : string)
    (counties : list Qc) (frame : DataFrame) (y_resid treat_resid : list Qc) :
  Replicate4.county_loop OLS_resid m regs county_var counties frame
    y_resid treat_resid
  = (y_resid
     ++ concat (map (fun c => fst (Replicate4.residualize_county OLS_resid m regs
                                     (mask county_var c frame))) counties),
     treat_resid
     ++ concat (map (fun c => snd (Replicate4.residualize_county OLS_resid m regs
                                     (mask county_var c frame))) counties)).
Proof.
  revert y_resid treat_resid.
  induction counties as [|c cs IH]; intros y_resid treat_resid; simpl.
  - now rewrite !app_nil_r.
  - rewrite IH, <- !app_assoc. reflexivity.
Qed.

Lemma length_resid_or_raw (X : list (list Qc)) (y : list Qc) :
  length_preserving OLS_resid ->
  length (Replicate4.resid_or_raw OLS_resid X y) = length y.
Proof.
  intros L. unfold Replicate4.resid_or_raw.
  destruct (OLS_resid X y) eqn:E; [apply (L _ _ _ E)|reflexivity].
Qed.

Lemma length_residualize_county (m : nat) (regs : list string)
    (county_data : DataFrame) :
  length_preserving OLS_resid ->
  length (fst (Replicate4.residualize_county OLS_resid m regs county_data))
  = length county_data
  /\ length (snd (Replicate4.residualize_county OLS_resid m regs county_data))
     = length county_data.
Proof.
  intros L. unfold Replicate4.residualize_county.
  destruct (Nat.ltb _ _); simpl;
    rewrite ?length_resid_or_raw by assumption; now rewrite !length_col.
Qed.

Lemma length_trend_residuals (m : nat) (regs : list string)
    (county_var : string) (frame : DataFrame) :
  length_preserving OLS_resid ->
  length (fst (Replicate4.trend_residuals OLS_resid m regs county_var frame))
  = length frame
  /\ length (snd (Replicate4.trend_residuals OLS_resid m regs county_var frame))
     = length frame.
Proof.
  intros L. unfold Replicate4.trend_residuals.
  rewrite county_loop_concat. simpl.
  split; (etransitivity; [|apply (length_masks county_var frame)]);
    apply length_concat_map; intros c _;
    apply (length_residualize_county m regs (mask county_var c frame) L).
Qed.

Lemma handle_trends_returns (county_var trend_type : string)
    (sample : DataFrame) (y_dm2 treat_dm2 : list Qc) :
  length_preserving OLS_resid ->
  polynomial_trend trend_type ->
  Replicate4.handle_trends OLS_resid county_var trend_type sample y_dm2 treat_dm2
  = let frame := trend_frame trend_type sample y_dm2 treat_dm2 in
    let resid :=
      Replicate4.trend_residuals OLS_resid (min_rows trend_type)
        (regressors trend_type) county_var frame in
    Returned (Replicate4.mkLocals frame (Some (fst resid)) (Some (snd resid))).
Proof.
  intros L Ht. rewrite handle_trends_polynomial by assumption. cbv zeta.
  destruct (length_trend_residuals (min_rows trend_type) (regressors trend_type)
              county_var (trend_frame trend_type sample y_dm2 treat_dm2) L)
    as [Hy Hx].
  unfold pd_Series. rewrite Hy, Hx, Nat.eqb_refl. reflexivity.
Qed.

End TrendLoop.

Ltac frame_lengths :=
  repeat first
    [ rewrite length_assign | rewrite length_center | rewrite length_square
    | rewrite length_col | rewrite length_demean ];
  try assumption; try reflexivity; try congruence.

Lemma length_trend_frame (trend_type : string) (sample : DataFrame)
    (y_dm2 treat_dm2 : list Qc) :
  length y_dm2 = length sample -> length treat_dm2 = length sample ->
  length (trend_frame trend_type sample y_dm2 treat_dm2) = length sample.
Proof.
  intros Hy Ht. unfold trend_frame.
  destruct (String.eqb trend_type "linear"); frame_lengths.
Qed.

Lemma col_trend_frame (c trend_type : string) (sample : DataFrame)
    (y_dm2 treat_dm2 : list Qc) :
  length y_dm2 = length sample -> length treat_dm2 = length sample ->
  ~ In c trend_columns ->
  col c (trend_frame trend_type sample y_dm2 treat_dm2) = col c sample.
Proof.
  intros Hy Ht Hc. unfold trend_columns in Hc. simpl in Hc.
  unfold trend_frame.
  destruct (String.eqb trend_type "linear");
    repeat (rewrite col_assign_other; [| intuition congruence | frame_lengths ]);
    reflexivity.
Qed.

Lemma col_trend_frame_y (trend_type : string) (sample : DataFrame)
    (y_dm2 treat_dm2 : list Qc) :
  length y_dm2 = length sample -> length treat_dm2 = length sample ->
  col "y_dm2" (trend_frame trend_type sample y_dm2 treat_dm2) = y_dm2.
Proof.
  intros Hy Ht. unfold trend_frame.
  destruct (String.eqb trend_type "linear");
    repeat (rewrite col_assign_other; [| discriminate | frame_lengths ]);
    apply col_assign_same; assumption.
Qed.

Lemma col_trend_frame_treat (trend_type : string) (sample : DataFrame)
    (y_dm2 treat_dm2 : list Qc) :
  length y_dm2 = length sample -> length treat_dm2 = length sample ->
  col "treat_dm2" (trend_frame trend_type sample y_dm2 treat_dm2) = treat_dm2.
Proof.
  intros Hy Ht. unfold trend_frame.
  destruct (String.eqb trend_type "linear");
    repeat (rewrite col_assign_other; [| discriminate | frame_lengths ]);
    apply col_assign_same; frame_lengths.
Qed.

Lemma length_mask_same_keys (c : string) (k : Qc) (df df' : DataFrame) :
  col c df = col c df' -> length (mask c k df) = length (mask c k df').
Proof.
  intros H.
  rewrite (length_mask c k df (col c df)) by apply length_col.
  rewrite (length_mask c k df' (col c df')) by apply length_col.
  now rewrite H.
Qed.

Section SmallGroups.

Variable OLS_resid : list (list Qc) -> list Qc -> outcome (list Qc).


End SmallGroups.

Lemma perfect_fit_length_preserving : length_preserving perfect_fit.
Proof.
  intros X y r H. injection H as <-. apply length_map.
Qed.

Lemma resid_raises_length_preserving : length_preserving resid_raises.
Proof. intros X y r H. discriminate H. Qed.


(** ** What a failing estimation backend leads to *)

Lemma length_demean_recentre (entity_var time_var var out : string)
    (df : DataFrame) :
  length (Extension3.demean_recentre entity_var time_var var out df) = length df.
Proof.
  unfold Extension3.demean_recentre.
  rewrite length_assign; rewrite ?length_map; frame_lengths.
Qed.

Lemma length_manual_frame (df : DataFrame)
    (outcome_var treatment_var entity_var time_var : string) :
  length (Extension3.manual_frame df outcome_var treatment_var entity_var time_var)
  = length df.
Proof.
  unfold Extension3.manual_frame. now rewrite !length_demean_recentre.
Qed.

Section BackendFailure.

Variable PanelOLS_fit :
  list Qc -> design -> list Qc -> list Qc -> string -> outcome Fit.
Variable OLS_cluster_fit : list Qc -> design -> list Qc -> string -> outcome Fit.
Variable feols :
  DataFrame -> string -> string -> string -> string -> string
  -> outcome Extension3.FeolsModel.
Variable OLS_cluster_full :
  list Qc -> list Qc -> list Qc -> outcome Extension3.FullFit.

(** C2, amended.  In version 2 ([run_panel_regression]) a panel estimator
    that raises makes the call return whatever the manual fallback
    returns, the fallback's own exception included: nothing catches that
    one.  In version 3 ([run_twfe_regression], at least ten complete rows)
    the backend in use raising [e] makes the call return the unavailable
    record whose note is [str(e)]; no other backend is tried. *)
Theorem backend_failure_per_script
    (df2 : DataFrame) (y_var x_var : string)
    (sample_filter : option (list bool)) (trend_type : string) (e2 : exn)
    (df3 : DataFrame)
    (outcome_var treatment_var entity_var time_var cluster_var : string)
    (e3 : exn) :
  (Replicate2.primary_fit PanelOLS_fit df2 y_var x_var sample_filter trend_type
   = Raised e2 ->
   Replicate2.run_panel_regression PanelOLS_fit OLS_cluster_fit df2 y_var x_var
     sample_filter trend_type
   = Replicate2.run_manual_twfe OLS_cluster_fit df2 y_var x_var sample_filter
       trend_type)
  /\
  (let df_reg :=
     dropna (set_list (Extension3.cols_of outcome_var treatment_var entity_var
                         time_var cluster_var)) df3 in
   (10 <= length df_reg)%nat ->
   (feols df_reg outcome_var treatment_var entity_var time_var cluster_var
    = Raised e3 ->
    Extension3.run_twfe_regression true feols OLS_cluster_full df3 outcome_var
      treatment_var entity_var time_var cluster_var
    = Returned (Some (Extension3.unavailable (Z.of_nat (length df_reg))
                        (str_of_exn e3))))
   /\
   (Extension3.manual_fit OLS_cluster_full df_reg outcome_var treatment_var
      entity_var time_var cluster_var = Raised e3 ->
    Extension3.run_twfe_regression false feols OLS_cluster_full df3 outcome_var
      treatment_var entity_var time_var cluster_var
    = Returned (Some (Extension3.unavailable (Z.of_nat (length df_reg))
                        (str_of_exn e3))))).
Proof.
  split.
  - intros H. unfold Replicate2.run_panel_regression.
    rewrite H. unfold Replicate2.run_manual_twfe.
    destruct (Nat.eqb _ 0); reflexivity.
  - cbv zeta. intros Hn.
    unfold Extension3.run_twfe_regression, Extension3.run_twfe_regression_on.
    apply Nat.ltb_ge in Hn. rewrite Hn.
    split; intros H; rewrite H; [reflexivity|].
    now rewrite length_manual_frame.
Qed.

End BackendFailure.

Lemma backend_failure_witness :
  Replicate2.run_panel_regression panel_raises (named_reports some_fit) panel_10
    "y" "treat" None "linear"
  = Replicate2.run_manual_twfe (named_reports some_fit) panel_10 "y" "treat"
      None "linear"
  /\ Extension3.run_twfe_regression true feols_raises full_raises panel_10
       "y" "treat" "county_id" "state_year_id" "county_id"
     = Returned (Some (Extension3.unavailable 10 "singular matrix"))
  /\ Extension3.run_twfe_regression false feols_raises full_raises panel_10
       "y" "treat" "county_id" "state_year_id" "county_id"
     = Returned (Some (Extension3.unavailable 10 "singular matrix")).
Proof.
  destruct (backend_failure_per_script panel_raises (named_reports some_fit)
              feols_raises full_raises
              panel_10 "y" "treat" None "linear" singular
              panel_10 "y" "treat" "county_id" "state_year_id" "county_id"
              singular) as [H2 H3].
  split; [apply H2; reflexivity|].
  cbv zeta in H3.
  assert (Hn : (10 <= length (dropna (set_list (Extension3.cols_of "y" "treat"
                   "county_id" "state_year_id" "county_id")) panel_10))%nat)
    by (vm_compute; lia).
  destruct (H3 Hn) as [Ha Hb].
  split; [apply Ha | apply Hb]; reflexivity.
Defined.

(** C2 as stated fails on [run_panel_regression]: when the panel estimator
    raises and the regression of the fallback raises too, the call raises;
    it returns no unavailable record. *)
Lemma fallback_failure_propagates :
  Replicate2.primary_fit panel_raises panel_10 "y" "treat" None "none"
  = Raised singular
  /\ Replicate2.run_manual_twfe named_raises panel_10 "y" "treat" None "none"
     = Raised singular
  /\ Replicate2.run_panel_regression panel_raises named_raises panel_10
       "y" "treat" None "none"
     = Raised singular.
Proof.
  repeat split; reflexivity.
Qed.

(** ** The fields of a result record *)

Section ResultRecord.

Variable add_constant : design -> design.
Variable PanelOLS_fit :
  list Qc -> design -> list Qc -> list Qc -> string -> outcome Fit.
Variable OLS_resid : list (list Qc) -> list Qc -> outcome (list Qc).
Variable OLS_cluster : list Qc -> list Qc -> list Qc -> outcome Fit.

(** C4, amended.  A successful [run_twfe_regression] of version 2's
    [05_run_extension.py] returns exactly the six fields [coef], [se],
    [pval], [n_obs], [n_entities], [n_periods], the four statistics read
    from one clustered fit and the two counts taken on the sample.  A
    successful [run_twfe_regression] of version 4's [02_replicate.py]
    returns exactly five fields: [coef], [se], [pval], [n_obs] of one
    clustered fit and [n_clusters], the number of distinct cluster values;
    it reports no count of time periods. *)
Theorem result_record_fields
    (df2 : DataFrame) (y_var x_var : string)
    (sample_filter : option (list bool))
    (entity_var time_var cluster_var : string) (d2 : dict)
    (df4 : DataFrame)
    (y_var4 treat_var county_var state_year_var cluster_var4 trend_type : string)
    (d4 : dict) :
  (Extension2.run_twfe_regression add_constant PanelOLS_fit df2 y_var x_var
     sample_filter entity_var time_var cluster_var = Returned (Some d2) ->
   let cols :=
     set_list (Extension2.cols_of y_var x_var entity_var time_var cluster_var) in
   let sample :=
     Extension2.panel_sample cols df2 sample_filter entity_var time_var in
   exists fit,
     Extension2.primary_fit add_constant PanelOLS_fit cols df2 y_var x_var
       sample_filter entity_var time_var = Returned fit
     /\ d2 = [ ("coef", PFloat (fit_coef fit));
               ("se", PFloat (fit_se fit));
               ("pval", PFloat (fit_pval fit));
               ("n_obs", PInt (fit_nobs fit));
               ("n_entities", PInt (nunique (col entity_var sample)));
               ("n_periods", PInt (nunique (col time_var sample))) ])
  /\
  (Replicate4.run_twfe_regression OLS_resid OLS_cluster df4 y_var4 treat_var
     county_var state_year_var cluster_var4 trend_type = Returned (Some d4) ->
   exists l y_final x_final fit,
     Replicate4.final_design OLS_resid
       (set_list (Replicate4.cols_of y_var4 treat_var county_var state_year_var
                    cluster_var4))
       df4 y_var4 treat_var county_var state_year_var trend_type = Returned l
     /\ Replicate4.l_y_final l = Some y_final
     /\ Replicate4.l_x_final l = Some x_final
     /\ OLS_cluster y_final x_final (col cluster_var4 (Replicate4.l_sample l))
        = Returned fit
     /\ d4 = [ ("coef", PFloat (fit_coef fit));
               ("se", PFloat (fit_se fit));
               ("pval", PFloat (fit_pval fit));
               ("n_obs", PInt (fit_nobs fit));
               ("n_clusters",
                PInt (nunique (col cluster_var4 (Replicate4.l_sample l)))) ]).
Proof.
  split.
  - unfold Extension2.run_twfe_regression, Extension2.run_twfe_regression_on.
    cbv zeta. destruct (Nat.eqb _ 0); [discriminate|].
    destruct (Extension2.primary_fit _ _ _ _ _ _ _ _ _) as [fit|e];
      [|discriminate].
    intros H. injection H as <-. exists fit. split; reflexivity.
  - unfold Replicate4.run_twfe_regression, Replicate4.run_twfe_regression_on.
    destruct (Replicate4.final_design _ _ _ _ _ _ _ _) as [l|e];
      [|discriminate].
    simpl. unfold Replicate4.final_regression.
    destruct (Replicate4.l_x_final l) as [x|] eqn:Ex; [|discriminate].
    destruct (Replicate4.l_y_final l) as [y|] eqn:Ey; [|discriminate].
    simpl. destruct (OLS_cluster y x _) as [fit|e] eqn:Ef; [|discriminate].
    simpl. intros H. injection H as <-.
    exists l, y, x, fit. repeat split; auto.
Qed.

End ResultRecord.

Lemma result_record_witness :
  (exists fit,
     Extension2.primary_fit add_constant_column (panel_reports fit_of_five)
       (set_list (Extension2.cols_of "y" "treat" "county_id" "state_year"
                    "county_id"))
       panel_3_2 "y" "treat" None "county_id" "state_year" = Returned fit
     /\ [ ("coef", PFloat 0); ("se", PFloat 1); ("pval", PFloat 1);
          ("n_obs", PInt 5); ("n_entities", PInt 2); ("n_periods", PInt 3) ]
        = [ ("coef", PFloat (fit_coef fit));
            ("se", PFloat (fit_se fit));
            ("pval", PFloat (fit_pval fit));
            ("n_obs", PInt (fit_nobs fit));
            ("n_entities",
             PInt (nunique (col "county_id"
               (Extension2.panel_sample
                  (set_list (Extension2.cols_of "y" "treat" "county_id"
                               "state_year" "county_id"))
                  panel_3_2 None "county_id" "state_year"))));
            ("n_periods",
             PInt (nunique (col "state_year"
               (Extension2.panel_sample
                  (set_list (Extension2.cols_of "y" "treat" "county_id"
                               "state_year" "county_id"))
                  panel_3_2 None "county_id" "state_year")))) ])
  /\
  (exists l y_final x_final fit,
     Replicate4.final_design perfect_fit
       (set_list (Replicate4.cols_of "y" "treat" "county_id" "state_year"
                    "county_id"))
       panel_3_2 "y" "treat" "county_id" "state_year" "none" = Returned l
     /\ Replicate4.l_y_final l = Some y_final
     /\ Replicate4.l_x_final l = Some x_final
     /\ cluster_reports fit_of_five y_final x_final
          (col "county_id" (Replicate4.l_sample l)) = Returned fit
     /\ [ ("coef", PFloat 0); ("se", PFloat 1); ("pval", PFloat 1);
          ("n_obs", PInt 5); ("n_clusters", PInt 2) ]
        = [ ("coef", PFloat (fit_coef fit));
            ("se", PFloat (fit_se fit));
            ("pval", PFloat (fit_pval fit));
            ("n_obs", PInt (fit_nobs fit));
            ("n_clusters",
             PInt (nunique (col "county_id" (Replicate4.l_sample l)))) ]).
Proof.
  destruct (result_record_fields add_constant_column (panel_reports fit_of_five)
              perfect_fit (cluster_reports fit_of_five)
              panel_3_2 "y" "treat" None "county_id" "state_year" "county_id"
              [ ("coef", PFloat 0); ("se", PFloat 1); ("pval", PFloat 1);
                ("n_obs", PInt 5); ("n_entities", PInt 2);
                ("n_periods", PInt 3) ]
              panel_3_2 "y" "treat" "county_id" "state_year" "county_id" "none"
              [ ("coef", PFloat 0); ("se", PFloat 1); ("pval", PFloat 1);
                ("n_obs", PInt 5); ("n_clusters", PInt 2) ]) as [H2 H4].
  split; [apply H2 | apply H4]; reflexivity.
Defined.

(** C4 as stated fails on [02_replicate.py]: on a panel of two counties in
    three state-years the record has five fields, and none of them is the
    number of distinct time periods. *)
Lemma replicate4_record_lacks_period_count :
  Replicate4.run_twfe_regression perfect_fit (cluster_reports fit_of_five)
    panel_3_2 "y" "treat" "county_id" "state_year" "county_id" "none"
  = Returned (Some [ ("coef", PFloat 0); ("se", PFloat 1); ("pval", PFloat 1);
                     ("n_obs", PInt 5); ("n_clusters", PInt 2) ])
  /\ nunique (col "state_year" panel_3_2) = 3%Z.
Proof.
  split; reflexivity.
Qed.

(** ** Determinism *)

Section Determinism.

Variable OLS_resid : list (list Qc) -> list Qc -> outcome (list Qc).
Variable OLS_cluster : list Qc -> list Qc -> list Qc -> outcome Fit.

(** C8.  The only choice the interpreter makes inside
    [run_twfe_regression] is the order in which [list(set(...))] lists the
    needed columns.  Two invocations on the same panel and specification,
    with the same library routines, whatever orders they get, yield the
    same outcome, hence the same coefficient and the same standard error. *)
Theorem run_twfe_regression_deterministic
    (cols1 cols2 : list string) (df : DataFrame)
    (y_var treat_var county_var state_year_var cluster_var trend_type : string)
    (r1 r2 : outcome (option dict)) :
  enumerates cols1
    (Replicate4.cols_of y_var treat_var county_var state_year_var cluster_var) ->
  enumerates cols2
    (Replicate4.cols_of y_var treat_var county_var state_year_var cluster_var) ->
  Replicate4.run_twfe_regression_on OLS_resid OLS_cluster cols1 df y_var
    treat_var county_var state_year_var cluster_var trend_type = r1 ->
  Replicate4.run_twfe_regression_on OLS_resid OLS_cluster cols2 df y_var
    treat_var county_var state_year_var cluster_var trend_type = r2 ->
  r1 = r2 /\ field "coef" r1 = field "coef" r2 /\ field "se" r1 = field "se" r2.
Proof.
  intros [_ H1] [_ H2] <- <-.
  assert (E : dropna cols1 df = dropna cols2 df).
  { apply dropna_enumeration. intros c. rewrite H1, H2. reflexivity. }
  unfold Replicate4.run_twfe_regression_on, Replicate4.final_design.
  rewrite E. repeat split; reflexivity.
Qed.

End Determinism.

Lemma run_twfe_regression_deterministic_witness :
  invocation_a = invocation_b
  /\ field "coef" invocation_a = field "coef" invocation_b
  /\ field "se" invocation_a = field "se" invocation_b.
Proof.
  cbv zeta.
  apply (run_twfe_regression_deterministic perfect_fit
           (cluster_reports fit_of_five)
           ["y"; "treat"; "county_id"; "state_year"; "year"]
           ["year"; "state_year"; "county_id"; "treat"; "y"]
           panel_3_2 "y" "treat" "county_id" "state_year" "county_id"
           "quadratic").
  - split.
    + repeat constructor; simpl; intuition discriminate.
    + intros c. simpl. intuition.
  - split.
    + repeat constructor; simpl; intuition discriminate.
    + intros c. simpl. intuition.
  - reflexivity.
  - reflexivity.
Defined.

(** ** Sums of series *)

Lemma Qc_of_nat_S (n : nat) : Qc_of_nat (S n) = Qc_of_nat n + 1.
Proof.
  unfold Qc_of_nat, Qcplus. apply Q2Qc_eq_iff.
  rewrite Nat2Z.inj_succ. unfold Z.succ. rewrite inject_Z_plus.
  change (this (Q2Qc (inject_Z (Z.of_nat n))))
    with (Qred (inject_Z (Z.of_nat n))).
  change (this (Q2Qc 1)) with (Qred 1).
  rewrite !Qred_correct. reflexivity.
Qed.

Lemma Qc_of_nat_nonzero (n : nat) : (0 < n)%nat -> Qc_of_nat n <> 0.
Proof.
  intros H E. unfold Qc_of_nat in E.
  apply Q2Qc_eq_iff in E. unfold Qeq in E. simpl in E. lia.
Qed.

Lemma qsum_app (a b : list Qc) : qsum (a ++ b) = qsum a + qsum b.
Proof.
  induction a as [|x a IH]; simpl.
  - ring.
  - rewrite IH. ring.
Qed.

Lemma qsum_perm (a b : list Qc) : Permutation a b -> qsum a = qsum b.
Proof.
  induction 1; simpl; try congruence; ring.
Qed.

Lemma qsum_map_const {A : Type} (c : Qc) (l : list A) :
  qsum (map (fun _ => c) l) = Qc_of_nat (length l) * c.
Proof.
  induction l as [|a l IH]; simpl length.
  - change (Qc_of_nat 0) with 0. simpl. ring.
  - rewrite Qc_of_nat_S. simpl. rewrite IH. ring.
Qed.

Lemma qsum_map_sub {A : Type} (f g : A -> Qc) (l : list A) :
  qsum (map (fun a => f a - g a) l) = qsum (map f l) - qsum (map g l).
Proof.
  induction l as [|a l IH]; simpl.
  - ring.
  - rewrite IH. ring.
Qed.

Lemma qsum_map_scale {A : Type} (f : A -> Qc) (c : Qc) (l : list A) :
  qsum (map (fun a => f a * c) l) = qsum (map f l) * c.
Proof.
  induction l as [|a l IH]; simpl.
  - ring.
  - rewrite IH. ring.
Qed.

Lemma qsum_map_indicator {A : Type} (p : A -> bool) (f : A -> Qc) (l : list A) :
  qsum (map (fun a => if p a then f a else 0) l) = qsum (map f (filter p l)).
Proof.
  induction l as [|a l IH]; simpl; [reflexivity|].
  destruct (p a); simpl; rewrite IH; ring.
Qed.

Lemma qsum_concat_map {A : Type} (f : A -> Qc) (ll : list (list A)) :
  qsum (map f (concat ll)) = qsum (map (fun g => qsum (map f g)) ll).
Proof.
  induction ll as [|g ll IH]; simpl; [reflexivity|].
  rewrite map_app, qsum_app, IH. reflexivity.
Qed.

Lemma mean_times_length (l : list Qc) :
  Qc_of_nat (length l) * mean l = qsum l.
Proof.
  unfold mean. destruct l as [|x l].
  - simpl. change (Qc_of_nat 0) with 0. unfold Qcdiv. ring.
  - field. apply Qc_of_nat_nonzero. simpl. lia.
Qed.

Lemma mean_zero_sum (l : list Qc) : qsum l = 0 -> mean l = 0.
Proof.
  intros H. unfold mean, Qcdiv. rewrite H. ring.
Qed.

(** ** The within transformation, row by row *)

Section Within.

Context {A : Type}.
Variable l : list A.

Lemma group_key (k : A -> Qc) (x : Qc) (a : A) :
  In a (group l k x) -> k a = x.
Proof.
  unfold group. rewrite filter_In. intros [_ H].
  now apply Qc_eq_bool_true.
Qed.

Lemma within_group_sum (k f : A -> Qc) (x : Qc) :
  qsum (map (within l k f) (group l k x)) = 0.
Proof.
  rewrite (map_ext_in (within l k f)
             (fun a => f a - mean (map f (group l k x)))).
  - rewrite qsum_map_sub, qsum_map_const.
    rewrite <- (length_map f), mean_times_length. ring.
  - intros a Ha. unfold within, group_mean.
    now rewrite (group_key k x a Ha).
Qed.

(** Two row functions with the same sum in every group have the same
    total. *)
Lemma qsum_by_groups (k f g : A -> Qc) :
  (forall x, qsum (map f (group l k x)) = qsum (map g (group l k x))) ->
  qsum (map f l) = qsum (map g l).
Proof.
  intros H.
  rewrite <- (qsum_perm _ _ (Permutation_map f (by_group_perm k l))).
  rewrite <- (qsum_perm _ _ (Permutation_map g (by_group_perm k l))).
  rewrite !qsum_concat_map. unfold by_group. rewrite !map_map.
  f_equal. apply map_ext. intros x. apply H.
Qed.

Lemma within_total_sum (k f : A -> Qc) : qsum (map (within l k f) l) = 0.
Proof.
  rewrite (qsum_by_groups k (within l k f) (fun _ => 0)).
  - rewrite qsum_map_const. ring.
  - intros x. rewrite within_group_sum, qsum_map_const. ring.
Qed.

End Within.

(** The series of the code are the row functions mapped over the frame. *)

Lemma group_vals_map {A : Type} (k f : A -> Qc) (x : Qc) (l : list A) :
  group_vals x (map k l) (map f l) = map f (group l k x).
Proof.
  unfold group_vals, group.
  induction l as [|a l IH]; [reflexivity|].
  simpl. destruct (Qc_eq_bool (k a) x); simpl; now rewrite IH.
Qed.

Lemma series_sub_map {A : Type} (f g : A -> Qc) (l : list A) :
  series_sub (map f l) (map g l) = map (fun a => f a - g a) l.
Proof.
  unfold series_sub.
  induction l as [|a l IH]; [reflexivity|].
  simpl. now rewrite IH.
Qed.

Lemma demean_series_within {A : Type} (k f : A -> Qc) (l : list A) :
  series_sub (map f l) (transform_mean (map k l) (map f l))
  = map (within l k f) l.
Proof.
  unfold transform_mean. rewrite map_map, series_sub_map.
  apply map_ext. intros a. unfold within, group_mean.
  now rewrite group_vals_map.
Qed.

Lemma demean_within (key val : string) (df : DataFrame) :
  demean key val df = map (within df (cellf key) (cellf val)) df.
Proof. unfold demean, col. apply demean_series_within. Qed.

(** ** Balanced panels *)

Lemma filter_all {A : Type} (p : A -> bool) (l : list A) :
  (forall a, In a l -> p a = true) -> filter p l = l.
Proof.
  induction l as [|a l IH]; intros H; [reflexivity|].
  simpl. rewrite (H a (or_introl eq_refl)). f_equal.
  apply IH. intros b Hb. apply H. now right.
Qed.

Lemma group_nonempty {A : Type} (l : list A) (k : A -> Qc) (x : Qc) :
  In x (map k l) -> (0 < length (group l k x))%nat.
Proof.
  intros H. apply in_map_iff in H. destruct H as [a [<- Ha]].
  assert (Hin : In a (group l k (k a))).
  { unfold group. apply filter_In. split; [assumption|apply Qc_eq_bool_refl]. }
  destruct (group l k (k a)); [contradiction|simpl; lia].
Qed.

Lemma group_empty {A : Type} (l : list A) (k : A -> Qc) (x : Qc) :
  ~ In x (map k l) -> group l k x = [].
Proof.
  intros H. unfold group.
  destruct (filter _ l) as [|a g] eqn:E; [reflexivity|].
  exfalso. apply H.
  assert (Ha : In a (filter (fun a => Qc_eq_bool (k a) x) l))
    by (rewrite E; now left).
  apply filter_In in Ha. destruct Ha as [Ha Hk].
  apply Qc_eq_bool_true in Hk. subst x. now apply in_map.
Qed.

Section Balanced.

Context {A : Type}.
Variable l : list A.
Variables ke kt : A -> Qc.

Hypothesis bal : one_row_per_cell l ke kt.

Lemma qsum_indicator_count (p : A -> bool) (g : list A) :
  qsum (map (fun a => if p a then 1 else 0) g)
  = Qc_of_nat (length (filter p g)).
Proof.
  rewrite qsum_map_indicator, qsum_map_const. ring.
Qed.

(** All periods hold the same number of rows. *)
Lemma period_size_constant :
  exists N, forall t, In t (map kt l) ->
    Qc_of_nat (length (group l kt t)) = N.
Proof.
  exists (qsum (map (fun a => / Qc_of_nat (length (group l ke (ke a)))) l)).
  intros t Ht.
  unfold group at 1. rewrite <- qsum_indicator_count.
  apply (qsum_by_groups l ke). intros e.
  destruct (in_dec Qc_eq_dec e (map ke l)) as [He|He].
  - rewrite qsum_indicator_count.
    change (length (filter (fun a => Qc_eq_bool (kt a) t) (group l ke e)))
      with (cell_count l ke kt e t).
    rewrite (bal e t He Ht).
    rewrite (map_ext_in _ (fun _ => / Qc_of_nat (length (group l ke e)))).
    + rewrite qsum_map_const. change (Qc_of_nat 1) with 1.
      field. apply Qc_of_nat_nonzero, group_nonempty, He.
    + intros a Ha. now rewrite (group_key l ke e a Ha).
  - rewrite (group_empty l ke e He). reflexivity.
Qed.

(** In a balanced panel the sequential transformation also centres every
    entity. *)
Lemma balanced_entity_sum (f : A -> Qc) (e : Qc) :
  qsum (map (within l kt (within l ke f)) (group l ke e)) = 0.
Proof.
  destruct (in_dec Qc_eq_dec e (map ke l)) as [He|He];
    [|now rewrite (group_empty l ke e He)].
  destruct period_size_constant as [N HN].
  set (d1 := within l ke f).
  set (S := fun t => qsum (map d1 (group l kt t))).
  unfold within at 1. rewrite qsum_map_sub.
  fold d1. unfold d1 at 1. rewrite within_group_sum. fold d1.
  rewrite (map_ext_in (group_mean l kt d1) (fun a => S (kt a) * / N)).
  - rewrite qsum_map_scale.
    change (group l ke e) with (filter (fun a => Qc_eq_bool (ke a) e) l).
    rewrite <- (qsum_map_indicator (fun a => Qc_eq_bool (ke a) e)
                  (fun a => S (kt a)) l).
    rewrite <- (qsum_by_groups l kt d1).
    + unfold d1. rewrite within_total_sum. ring.
    + intros t. rewrite qsum_map_indicator.
      destruct (in_dec Qc_eq_dec t (map kt l)) as [Ht|Ht];
        [|now rewrite (group_empty l kt t Ht)].
      rewrite (map_ext_in (fun a => S (kt a)) (fun _ => S t)).
      * rewrite qsum_map_const. unfold group at 2. rewrite filter_filter_comm.
        pose proof (bal e t He Ht) as Hb. unfold cell_count, group in Hb.
        rewrite Hb. change (Qc_of_nat 1) with 1.
        unfold S. ring.
      * intros a Ha. apply filter_In in Ha. destruct Ha as [Ha _].
        now rewrite (group_key l kt t a Ha).
  - intros a Ha. unfold group_mean, mean. rewrite length_map.
    assert (Hl : In a l) by (apply filter_In in Ha; tauto).
    rewrite (HN (kt a) (in_map kt l a Hl)). reflexivity.
Qed.

End Balanced.

(** ** The two demeaning steps on a frame *)

Lemma demean_twice_frame (c y_var treat_var county_var state_year_var : string)
    (sample : DataFrame) :
  ~ In c demean_columns ->
  col c (fst (Replicate4.demean_twice y_var treat_var county_var
                state_year_var sample))
  = col c sample.
Proof.
  intros Hc. unfold demean_columns in Hc. simpl in Hc.
  unfold Replicate4.demean_twice. simpl fst.
  repeat (rewrite col_assign_other; [| intuition congruence | frame_lengths ]).
  reflexivity.
Qed.

Lemma demean_twice_within (y_var treat_var county_var state_year_var : string)
    (sample : DataFrame) :
  ~ In state_year_var demean_columns ->
  snd (Replicate4.demean_twice y_var treat_var county_var state_year_var sample)
  = (map (within sample (cellf state_year_var)
            (within sample (cellf county_var) (cellf y_var))) sample,
     map (within sample (cellf state_year_var)
            (within sample (cellf county_var) (cellf treat_var))) sample).
Proof.
  intros Hc. unfold demean_columns in Hc. simpl in Hc.
  unfold Replicate4.demean_twice. simpl snd. unfold demean at 1 4.
  repeat (rewrite (col_assign_other _ state_year_var);
          [| intuition congruence | frame_lengths ]).
  rewrite (col_assign_other "treat_dm" "y_dm");
    [| discriminate | frame_lengths ].
  rewrite !col_assign_same by frame_lengths.
  rewrite !demean_within.
  unfold col. fold (cellf state_year_var).
  rewrite !demean_series_within. reflexivity.
Qed.

Lemma balanced_one_row_per_cell (county_var state_year_var : string)
    (df : DataFrame) :
  balanced county_var state_year_var df = true ->
  one_row_per_cell df (cellf county_var) (cellf state_year_var).
Proof.
  intros H e t He Ht. unfold balanced in H.
  rewrite forallb_forall in H.
  specialize (H e (proj2 (unique_In e _) He)).
  rewrite forallb_forall in H.
  specialize (H t (proj2 (unique_In t _) Ht)).
  apply Nat.eqb_eq in H. exact H.
Qed.

Lemma within_single_group {A : Type} (l : list A) (k f : A -> Qc) :
  (forall a b, In a l -> In b l -> k a = k b) ->
  qsum (map f l) = 0 ->
  map (within l k f) l = map f l.
Proof.
  intros Hk Hsum. apply map_ext_in. intros a Ha.
  unfold within, group_mean, group.
  rewrite filter_all.
  - rewrite (mean_zero_sum _ Hsum). ring.
  - intros b Hb. apply Qc_eq_bool_true. now apply Hk.
Qed.

Lemma handle_trends_none
    (OLS_resid : list (list Qc) -> list Qc -> outcome (list Qc))
    (county_var : string) (sample : DataFrame) (y_dm2 treat_dm2 : list Qc) :
  Replicate4.handle_trends OLS_resid county_var "none" sample y_dm2 treat_dm2
  = Returned (Replicate4.mkLocals sample (Some y_dm2) (Some treat_dm2)).
Proof. reflexivity. Qed.

(** ** Entity sums after the two steps *)

Section Shares.

Context {A : Type}.
Variable l : list A.
Variables ke kt : A -> Qc.

(** The entity sums of the sequential transformation, for any panel: minus
    the sum of the entity-demeaned series weighted by the entity's shares. *)
Lemma entity_sum_by_shares (f : A -> Qc) (e : Qc) :
  qsum (map (within l kt (within l ke f)) (group l ke e))
  = - qsum (map (fun b => within l ke f b * share l ke kt e b) l).
Proof.
  set (d1 := within l ke f).
  unfold within at 1. rewrite qsum_map_sub.
  fold d1. unfold d1 at 1. rewrite within_group_sum. fold d1.
  change (group l ke e) with (filter (fun a => Qc_eq_bool (ke a) e) l).
  rewrite <- (qsum_map_indicator (fun a => Qc_eq_bool (ke a) e)
                (group_mean l kt d1) l).
  rewrite (qsum_by_groups l kt
             (fun a => if Qc_eq_bool (ke a) e then group_mean l kt d1 a else 0)
             (fun b => d1 b * share l ke kt e b)); [ring|].
  intros t. rewrite qsum_map_indicator.
  rewrite (map_ext_in (group_mean l kt d1)
             (fun _ => mean (map d1 (group l kt t)))).
  - rewrite (map_ext_in (fun b => d1 b * share l ke kt e b)
               (fun b => d1 b
                         * (Qc_of_nat (cell_count l ke kt e t)
                            / Qc_of_nat (length (group l kt t))))).
    + rewrite qsum_map_const, qsum_map_scale.
      unfold cell_count. unfold group at 1 4.
      rewrite (filter_filter_comm (fun a => Qc_eq_bool (ke a) e)).
      fold (group l kt t).
      unfold mean, Qcdiv. rewrite length_map. ring.
    + intros b Hb. unfold share. now rewrite (group_key l kt t b Hb).
  - intros a Ha. apply filter_In in Ha. destruct Ha as [Ha _].
    unfold group_mean. now rewrite (group_key l kt t a Ha).
Qed.


(** A panel with one row per cell has even shares. *)
Lemma one_row_per_cell_even_shares :
  one_row_per_cell l ke kt -> even_shares l ke kt.
Proof.
  intros bal e a b Ha Hb _.
  destruct (period_size_constant l ke kt bal) as [N HN].
  unfold share.
  rewrite (HN (kt a) (in_map kt l a Ha)), (HN (kt b) (in_map kt l b Hb)).
  destruct (in_dec Qc_eq_dec e (map ke l)) as [He|He].
  - now rewrite (bal e (kt a) He (in_map kt l a Ha)),
                (bal e (kt b) He (in_map kt l b Hb)).
  - unfold cell_count. rewrite (group_empty l ke e He). reflexivity.
Qed.

End Shares.


Lemma balanced_proportional (county_var state_year_var : string)
    (df : DataFrame) :
  balanced county_var state_year_var df = true ->
  proportional county_var state_year_var df = true.
Proof.
  intros H. apply balanced_one_row_per_cell in H.
  apply one_row_per_cell_even_shares in H.
  unfold proportional. apply forallb_forall. intros e _.
  apply forallb_forall. intros a Ha. apply forallb_forall. intros b Hb.
  destruct (Qc_eq_bool (cellf county_var a) (cellf county_var b)) eqn:E;
    [|reflexivity].
  simpl. apply Qc_eq_bool_true. apply H; try assumption.
  now apply Qc_eq_bool_true.
Qed.

Lemma Qc_square_nonneg (x : Qc) : 0 <= x * x.
Proof.
  destruct (Qclt_le_dec x 0) as [H|H].
  - apply Qclt_le_weak, Qcopp_le_compat in H.
    replace (- 0) with 0 in H by ring.
    replace (x * x) with (- x * - x) by ring.
    replace 0 with (0 * - x) at 1 by ring.
    now apply Qcmult_le_compat_r.
  - replace 0 with (0 * x) at 1 by ring.
    now apply Qcmult_le_compat_r.
Qed.

Lemma qsum_squares_nonneg {A : Type} (g : A -> Qc) (G : list A) :
  0 <= qsum (map (fun r => g r * g r) G).
Proof.
  induction G as [|r G IH]; simpl; [apply Qcle_refl|].
  replace 0 with (0 + 0) by ring.
  apply Qcplus_le_compat; [apply Qc_square_nonneg|exact IH].
Qed.

Lemma qsum_squares_zero {A : Type} (g : A -> Qc) (G : list A) :
  qsum (map (fun r => g r * g r) G) = 0 -> forall r, In r G -> g r = 0.
Proof.
  induction G as [|r0 G IH]; simpl; intros H r Hr; [contradiction|].
  pose proof (Qc_square_nonneg (g r0)) as H1.
  pose proof (qsum_squares_nonneg g G) as H2.
  assert (E1 : g r0 * g r0 = 0).
  { apply Qcle_antisym; [|exact H1].
    rewrite <- H. replace (g r0 * g r0) with (g r0 * g r0 + 0) at 1 by ring.
    apply Qcplus_le_compat; [apply Qcle_refl|exact H2]. }
  destruct Hr as [<-|Hr].
  - destruct (Qcmult_integral _ _ E1); assumption.
  - apply IH; [|exact Hr]. rewrite E1 in H. rewrite <- H. ring.
Qed.

Section SharesNecessary.

Context {A : Type}.
Variable l : list A.
Variables ke kt : A -> Qc.

(** Even shares are what centring every entity takes: if the sequential
    transformation centres every entity whatever the series, the shares
    are even. *)
Lemma entity_sums_force_even_shares :
  (forall f e, qsum (map (within l kt (within l ke f)) (group l ke e)) = 0) ->
  even_shares l ke kt.
Proof.
  intros H e a b Ha Hb Hab.
  set (x := ke a).
  set (s := share l ke kt e).
  set (m := mean (map s (group l ke x))).
  set (f := fun r => if Qc_eq_bool (ke r) x then s r else 0).
  pose proof (H f e) as H0. rewrite entity_sum_by_shares in H0. fold s in H0.
  assert (Hsq : qsum (map (fun r => (s r - m) * (s r - m)) (group l ke x)) = 0).
  { unfold group at 1.
    rewrite <- (qsum_map_indicator (fun r => Qc_eq_bool (ke r) x)
                  (fun r => (s r - m) * (s r - m)) l).
    rewrite <- (qsum_by_groups l ke (fun r => within l ke f r * s r)).
    - rewrite <- (Qcopp_involutive (qsum _)). rewrite H0. ring.
    - intros x'. destruct (Qc_eq_dec x' x) as [->|Hx].
      + rewrite (map_ext_in (fun r => within l ke f r * s r)
                   (fun r => s r * s r - s r * m)).
        * rewrite (map_ext_in
                     (fun r => if Qc_eq_bool (ke r) x
                               then (s r - m) * (s r - m) else 0)
                     (fun r => (s r * s r - s r * m) - (s r * m - m * m))).
          -- rewrite (qsum_map_sub (fun r => s r * s r - s r * m)
                        (fun r => s r * m - m * m)).
             rewrite (qsum_map_sub (fun r => s r * m) (fun _ => m * m)).
             rewrite qsum_map_scale, qsum_map_const.
             rewrite <- (mean_times_length (map s (group l ke x))).
             fold m. rewrite length_map. ring.
          -- intros r Hr. rewrite (group_key l ke x r Hr), Qc_eq_bool_refl.
             ring.
        * intros r Hr. unfold within, group_mean.
          rewrite (group_key l ke x r Hr).
          rewrite (map_ext_in f s).
          -- fold m. unfold f.
             rewrite (group_key l ke x r Hr), Qc_eq_bool_refl. ring.
          -- intros r' Hr'. unfold f.
             now rewrite (group_key l ke x r' Hr'), Qc_eq_bool_refl.
      + rewrite (map_ext_in (fun r => within l ke f r * s r) (fun _ => 0)).
        * apply f_equal, map_ext_in. intros r Hr.
          rewrite (group_key l ke x' r Hr).
          apply Qc_eq_bool_false in Hx. now rewrite Hx.
        * intros r Hr.
          assert (Hz : forall r', In r' (group l ke x') -> f r' = 0).
          { intros r' Hr'. unfold f. rewrite (group_key l ke x' r' Hr').
            apply Qc_eq_bool_false in Hx. now rewrite Hx. }
          unfold within, group_mean. rewrite (group_key l ke x' r Hr).
          rewrite (Hz r Hr).
          rewrite (map_ext_in f (fun _ => 0) _ Hz).
          rewrite mean_zero_sum by (rewrite qsum_map_const; ring).
          ring. }
  assert (Hm : forall r, In r l -> ke r = x -> s r = m).
  { intros r Hr Hk.
    assert (Hg : In r (group l ke x)).
    { unfold group. apply filter_In. split; [assumption|].
      now apply Qc_eq_bool_true. }
    pose proof (qsum_squares_zero (fun r => s r - m) _ Hsq r Hg) as Hz.
    simpl in Hz. rewrite <- (Qcplus_0_l m), <- Hz. ring. }
  rewrite (Hm a Ha eq_refl). symmetry. apply Hm; [assumption|].
  now symmetry.
Qed.

End SharesNecessary.

Section TwiceDemeaned.

Variable OLS_resid : list (list Qc) -> list Qc -> outcome (list Qc).
Variable OLS_cluster : list Qc -> list Qc -> list Qc -> outcome Fit.


(** C5, amended.  In exact arithmetic, when the sample holds a single
    time period, the time demeaning changes nothing: the twice-demeaned
    series are the entity-demeaned series, and with [trend_type='none'] the
    function returns the clustered regression of the entity-demeaned
    outcome on the entity-demeaned treatment, so its coefficient is the
    slope of that regression.  In binary64 the mean the time demeaning
    subtracts is the rounded mean of the entity-demeaned series, which need
    not be 0: see [Binary64] and the example after this section. *)
Theorem single_period_time_demeaning_is_noop
    (df : DataFrame)
    (y_var treat_var county_var state_year_var cluster_var : string) (t0 : Qc) :
  let sample :=
    dropna (set_list (Replicate4.cols_of y_var treat_var county_var
                        state_year_var cluster_var)) df in
  let y_dm := demean county_var y_var sample in
  let treat_dm := demean county_var treat_var sample in
  ~ In state_year_var demean_columns ->
  ~ In cluster_var demean_columns ->
  (forall t, In t (col state_year_var sample) -> t = t0) ->
  snd (Replicate4.demean_twice y_var treat_var county_var state_year_var sample)
  = (y_dm, treat_dm)
  /\ Replicate4.run_twfe_regression OLS_resid OLS_cluster df y_var treat_var
       county_var state_year_var cluster_var "none"
     = (fit <- OLS_cluster y_dm treat_dm (col cluster_var sample) ;;
        Returned (Some (Replicate4.result_dict fit (col cluster_var sample))))
  /\ (forall fit,
        OLS_cluster y_dm treat_dm (col cluster_var sample) = Returned fit ->
        field "coef"
          (Replicate4.run_twfe_regression OLS_resid OLS_cluster df y_var
             treat_var county_var state_year_var cluster_var "none")
        = Some (PFloat (fit_coef fit))).
Proof.
  intros sample y_dm treat_dm Hsy Hcl Hone.
  assert (Hnoop :
    snd (Replicate4.demean_twice y_var treat_var county_var state_year_var
           sample) = (y_dm, treat_dm)).
  { rewrite demean_twice_within by assumption.
    assert (Hkeys : forall a b, In a sample -> In b sample ->
              cellf state_year_var a = cellf state_year_var b).
    { intros a b Ha Hb.
      rewrite (Hone _ (in_map (cellf state_year_var) sample a Ha)).
      rewrite (Hone _ (in_map (cellf state_year_var) sample b Hb)).
      reflexivity. }
    unfold y_dm, treat_dm. rewrite !demean_within.
    f_equal; apply within_single_group; try assumption;
      apply within_total_sum. }
  assert (Hrun :
    Replicate4.run_twfe_regression OLS_resid OLS_cluster df y_var treat_var
      county_var state_year_var cluster_var "none"
    = (fit <- OLS_cluster y_dm treat_dm (col cluster_var sample) ;;
       Returned (Some (Replicate4.result_dict fit (col cluster_var sample))))).
  { unfold Replicate4.run_twfe_regression, Replicate4.run_twfe_regression_on,
      Replicate4.final_design.
    fold sample. rewrite handle_trends_none.
    cbn [bind Replicate4.final_regression read_local Replicate4.l_x_final
         Replicate4.l_y_final Replicate4.l_sample].
    rewrite demean_twice_frame by assumption.
    rewrite Hnoop. reflexivity. }
  split; [exact Hnoop|]. split; [exact Hrun|].
  intros fit Hfit. rewrite Hrun, Hfit. reflexivity.
Qed.

End TwiceDemeaned.



Lemma single_period_witness :
  snd (Replicate4.demean_twice "y" "treat" "county_id" "state_year"
         (dropna cols_replication panel_one_period))
  = (demean "county_id" "y" (dropna cols_replication panel_one_period),
     demean "county_id" "treat" (dropna cols_replication panel_one_period))
  /\ Replicate4.run_twfe_regression perfect_fit (cluster_reports fit_of_five)
       panel_one_period "y" "treat" "county_id" "state_year" "county_id" "none"
     = (fit <- cluster_reports fit_of_five
                 (demean "county_id" "y"
                    (dropna cols_replication panel_one_period))
                 (demean "county_id" "treat"
                    (dropna cols_replication panel_one_period))
                 (col "county_id" (dropna cols_replication panel_one_period)) ;;
        Returned (Some (Replicate4.result_dict fit
                          (col "county_id"
                             (dropna cols_replication panel_one_period)))))
  /\ (forall fit,
        cluster_reports fit_of_five
          (demean "county_id" "y" (dropna cols_replication panel_one_period))
          (demean "county_id" "treat"
             (dropna cols_replication panel_one_period))
          (col "county_id" (dropna cols_replication panel_one_period))
        = Returned fit ->
        field "coef"
          (Replicate4.run_twfe_regression perfect_fit
             (cluster_reports fit_of_five) panel_one_period "y" "treat"
             "county_id" "state_year" "county_id" "none")
        = Some (PFloat (fit_coef fit))).
Proof.
  apply (single_period_time_demeaning_is_noop perfect_fit
           (cluster_reports fit_of_five) panel_one_period "y" "treat"
           "county_id" "state_year" "county_id" (Qc_of_Z 10)).
  - simpl. intuition discriminate.
  - simpl. intuition discriminate.
  - intros t Ht. vm_compute in Ht.
    repeat (destruct Ht as [<- | Ht]; [reflexivity|]). contradiction.
Defined.

(** C5 as stated fails for the floats the script computes with.  The panel
    holds one state-year; the entity-demeaned outcomes of its six rows have
    the compensated binary64 mean -0x1.5555555555555p-57 (about -9.25e-18),
    not 0, and the time demeaning subtracts it: the second and the sixth
    value change, the sixth from 0 to 0x1.5555555555555p-57. *)
Lemma single_period_binary64_changes_values :
  unique periods_one_period = [Qc_of_Z 10]
  /\ Binary64.mean (fst (fst demeaned_one_period))
     = (-0x1.5555555555555p-57)%float
  /\ same_values (fst (fst demeaned_one_period))
       (fst (snd demeaned_one_period))
     = [true; false; true; true; true; false]
  /\ nth 5 (fst (fst demeaned_one_period)) 0%float = 0%float
  /\ nth 5 (fst (snd demeaned_one_period)) 0%float
     = 0x1.5555555555555p-57%float
  /\ fst (snd demeaned_one_period) <> fst (fst demeaned_one_period).
Proof.
  split; [reflexivity|].
  split; [vm_compute; reflexivity|].
  split; [vm_compute; reflexivity|].
  split; [vm_compute; reflexivity|].
  split; [vm_compute; reflexivity|].
  intros H.
  apply (f_equal (fun s => PrimFloat.eqb (nth 5 s 0%float) 0%float)) in H.
  vm_compute in H. discriminate H.
Qed.

(** ** Where the residuals of the trend loop land *)

Lemma nth_map_seq {B : Type} (g : nat -> B) (d : B) (n s i : nat) :
  (i < n)%nat -> nth i (map g (seq s n)) d = g (s + i)%nat.
Proof.
  revert s i. induction n as [|n IH]; intros s i H; [lia|].
  destruct i as [|i]; simpl.
  - f_equal. lia.
  - rewrite IH by lia. f_equal. lia.
Qed.

Lemma map_nth_seq {B : Type} (l : list B) (d : B) :
  map (fun i => nth i l d) (seq 0 (length l)) = l.
Proof.
  induction l as [|a l IH]; [reflexivity|].
  simpl. f_equal. rewrite <- seq_shift, map_map. exact IH.
Qed.

Lemma reorder_identity (series : list Qc) :
  reorder (seq 0 (length series)) series = series.
Proof. apply map_nth_seq. Qed.

Lemma filter_seq_In (p : nat -> bool) (n i : nat) :
  In i (filter p (seq 0 n)) -> (i < n)%nat /\ p i = true.
Proof.
  rewrite filter_In, in_seq. intros [H1 H2]. split; [lia|assumption].
Qed.

(** The rows of one county have the ranks 0, 1, 2, ... *)
Lemma ranks_of_county (counties : list Qc) (c : Qc) (n : nat) :
  map (rank counties)
    (filter (fun i => Qc_eq_bool (nth i counties 0) c) (seq 0 n))
  = seq 0 (length (filter (fun i => Qc_eq_bool (nth i counties 0) c) (seq 0 n))).
Proof.
  induction n as [|n IH]; [reflexivity|].
  rewrite seq_S, filter_app, map_app, length_app, IH. simpl.
  destruct (Qc_eq_bool (nth n counties 0) c) eqn:E; simpl.
  - rewrite Nat.add_1_r, seq_S. simpl. f_equal. f_equal.
    apply Qc_eq_bool_true in E. unfold rank. now rewrite E.
  - now rewrite Nat.add_0_r, !app_nil_r.
Qed.

Lemma length_filter_positions (p : Qc -> bool) (vals : list Qc) :
  length (filter (fun i => p (nth i vals 0)) (seq 0 (length vals)))
  = length (filter p vals).
Proof.
  induction vals as [|a vals IH] using rev_ind; [reflexivity|].
  rewrite length_app. simpl length. rewrite Nat.add_1_r, seq_S.
  rewrite !filter_app, !length_app. simpl.
  rewrite (filter_ext_in _ (fun i => p (nth i vals 0))).
  - rewrite IH. f_equal.
    rewrite app_nth2, Nat.sub_diag by lia. simpl.
    now destruct (p a).
  - intros i Hi. apply in_seq in Hi. now rewrite app_nth1 by lia.
Qed.

Lemma length_county_rows (c : string) (k : Qc) (df : DataFrame) :
  length (filter (fun i => Qc_eq_bool (nth i (col c df) 0) k)
            (seq 0 (length df)))
  = length (mask c k df).
Proof.
  rewrite <- (length_col c df).
  rewrite (length_filter_positions (fun v => Qc_eq_bool v k)).
  unfold col, mask. now rewrite filter_map_swap, length_map.
Qed.

Lemma filter_nil_all {A : Type} (p : A -> bool) (l : list A) :
  filter p l = [] -> forall a, In a l -> p a = false.
Proof.
  intros H a Ha. destruct (p a) eqn:E; [|reflexivity].
  assert (Hin : In a (filter p l)) by (apply filter_In; now split).
  rewrite H in Hin. contradiction.
Qed.

Lemma existsb_key_false {A : Type} (k : A -> Qc) (x : Qc) (l : list A) :
  (forall a, In a l -> Qc_eq_bool (k a) x = false) ->
  existsb (Qc_eq_bool x) (map k l) = false.
Proof.
  intros H. destruct (existsb (Qc_eq_bool x) (map k l)) eqn:E; [|reflexivity].
  apply existsb_exists in E. destruct E as [y [Hy Hxy]].
  apply in_map_iff in Hy. destruct Hy as [a [<- Ha]].
  rewrite Qc_eq_bool_sym, (H a Ha) in Hxy. discriminate.
Qed.

Lemma existsb_key_true {A : Type} (k : A -> Qc) (x : Qc) (l : list A) (a : A) :
  In a l -> Qc_eq_bool (k a) x = true ->
  existsb (Qc_eq_bool x) (map k l) = true.
Proof.
  intros Ha Hk. apply existsb_exists. exists (k a). split.
  - now apply in_map.
  - now rewrite Qc_eq_bool_sym.
Qed.

(** Listing the rows group by group, in order of first appearance, gives
    back the list exactly when the groups are contiguous. *)
Lemma regroup_fixed_iff {A : Type} (k : A -> Qc) (l : list A) :
  concat (by_group k l) = l <-> contiguous (map k l) = true.
Proof.
  induction l as [|a l IH]; [split; reflexivity|].
  rewrite by_group_cons. cbv zeta.
  destruct l as [|b l'].
  { split; reflexivity. }
  change (contiguous (map k (a :: b :: l')))
    with ((Qc_eq_bool (k a) (k b)
           || negb (Qc_eq_bool (k a) (k b)
                    || existsb (Qc_eq_bool (k a)) (map k l')))
          && contiguous (map k (b :: l'))).
  rewrite by_group_cons in IH. cbv zeta in IH.
  cbn [filter]. rewrite (Qc_eq_bool_sym (k a) (k b)).
  destruct (Qc_eq_bool (k b) (k a)) eqn:E; cbn [negb orb andb concat app].
  - apply Qc_eq_bool_true in E. rewrite <- E. rewrite <- IH.
    cbn [concat app]. split; intros H.
    + injection H as H. now rewrite H.
    + now rewrite H.
  - destruct (filter (fun c => Qc_eq_bool (k c) (k a)) l') as [|f0 F] eqn:EF.
    + pose proof (filter_nil_all _ _ EF) as Hall.
      rewrite (existsb_key_false k (k a) l' Hall). cbn [negb andb app].
      rewrite (filter_all (fun c => negb (Qc_eq_bool (k c) (k a))) l')
        by (intros c Hc; now rewrite (Hall c Hc)).
      rewrite (by_group_cons k b l'). cbv zeta.
      rewrite <- IH. cbn [concat app]. split; intros H.
      * injection H as H. now rewrite H.
      * now rewrite H.
    + assert (Hf0 : In f0 (filter (fun c => Qc_eq_bool (k c) (k a)) l'))
        by (rewrite EF; now left).
      apply filter_In in Hf0. destruct Hf0 as [Hin Hk].
      rewrite (existsb_key_true k (k a) l' f0 Hin Hk). cbn [negb andb].
      split; [|discriminate].
      cbn [app]. intros H. injection H as H _. subst f0.
      rewrite E in Hk. discriminate.
Qed.

Lemma county_of_position (county_var : string) (sample : DataFrame) :
  map (fun i => nth i (col county_var sample) 0) (seq 0 (length sample))
  = col county_var sample.
Proof.
  rewrite <- (length_col county_var sample). apply map_nth_seq.
Qed.

Lemma row_order_by_group (county_var : string) (sample : DataFrame) :
  row_order county_var sample
  = concat (by_group (fun i => nth i (col county_var sample) 0)
              (seq 0 (length sample))).
Proof.
  unfold row_order, by_group. cbv zeta.
  now rewrite county_of_position.
Qed.

Lemma row_order_identity_iff (county_var : string) (sample : DataFrame) :
  row_order county_var sample = seq 0 (length sample)
  <-> contiguous (col county_var sample) = true.
Proof.
  rewrite row_order_by_group, regroup_fixed_iff.
  now rewrite county_of_position.
Qed.

Section Reattachment.

Variable OLS_resid : list (list Qc) -> list Qc -> outcome (list Qc).

Lemma county_block_reordered (m : nat) (regs : list string)
    (county_var : string) (frame : DataFrame) (c : Qc) (block : list Qc)
    (g : nat -> list Qc) :
  length block = length (mask county_var c frame) ->
  (forall i, nth i (col county_var frame) 0 = c -> g i = block) ->
  map (fun i =>
         nth i (map (fun j => nth (rank (col county_var frame) j) (g j) 0)
                  (seq 0 (length frame))) 0)
    (filter (fun i => Qc_eq_bool (nth i (col county_var frame) 0) c)
       (seq 0 (length frame)))
  = block.
Proof.
  intros Hlen Hg.
  rewrite (map_ext_in _
             (fun i => nth (rank (col county_var frame) i) block 0)).
  - rewrite <- (map_map (rank (col county_var frame))
                  (fun r => nth r block 0)).
    rewrite ranks_of_county, length_county_rows, <- Hlen.
    apply map_nth_seq.
  - intros i Hi. apply filter_seq_In in Hi. destruct Hi as [Hlt Hk].
    apply Qc_eq_bool_true in Hk.
    rewrite nth_map_seq by assumption. simpl. now rewrite (Hg i Hk).
Qed.

Lemma trend_residuals_reordered (m : nat) (regs : list string)
    (county_var : string) (frame : DataFrame) :
  length_preserving OLS_resid ->
  Replicate4.trend_residuals OLS_resid m regs county_var frame
  = (reorder (row_order county_var frame)
       (fst (row_residuals OLS_resid m regs county_var frame)),
     reorder (row_order county_var frame)
       (snd (row_residuals OLS_resid m regs county_var frame))).
Proof.
  intros L. unfold Replicate4.trend_residuals. rewrite county_loop_concat.
  simpl app. unfold reorder, row_order, row_residuals. cbv zeta. simpl fst.
  simpl snd. rewrite !concat_map, !map_map.
  f_equal; f_equal; apply map_ext; intros c; symmetry;
    apply (county_block_reordered m regs county_var frame c);
    try (apply (length_residualize_county OLS_resid m regs
                  (mask county_var c frame) L));
    intros i Hi; now rewrite Hi.
Qed.

Lemma length_row_residuals (m : nat) (regs : list string)
    (county_var : string) (frame : DataFrame) :
  length (fst (row_residuals OLS_resid m regs county_var frame)) = length frame
  /\ length (snd (row_residuals OLS_resid m regs county_var frame))
     = length frame.
Proof.
  unfold row_residuals. cbv zeta. simpl.
  now rewrite !length_map, !length_seq.
Qed.

(** C9.  With a linear or quadratic trend the final series are the
    per-row residuals read in the order [row_order]: position [i] holds the
    residual that belongs to row [nth i order].  That order is the
    identity, so that every position holds the residual of its own row,
    exactly when every county's rows are contiguous in the sample; in that
    case the final series are the per-row residuals. *)
Theorem residuals_reattached_in_loop_order
    (county_var trend_type : string) (sample : DataFrame)
    (y_dm2 treat_dm2 : list Qc) :
  length_preserving OLS_resid ->
  polynomial_trend trend_type ->
  length y_dm2 = length sample ->
  length treat_dm2 = length sample ->
  ~ In county_var trend_columns ->
  let frame := trend_frame trend_type sample y_dm2 treat_dm2 in
  let resid :=
    row_residuals OLS_resid (min_rows trend_type) (regressors trend_type)
      county_var frame in
  let order := row_order county_var sample in
  Replicate4.handle_trends OLS_resid county_var trend_type sample
    y_dm2 treat_dm2
  = Returned (Replicate4.mkLocals frame
      (Some (reorder order (fst resid))) (Some (reorder order (snd resid))))
  /\ (order = seq 0 (length sample)
      <-> contiguous (col county_var sample) = true)
  /\ (contiguous (col county_var sample) = true ->
      reorder order (fst resid) = fst resid
      /\ reorder order (snd resid) = snd resid).
Proof.
  intros L Htrend Hy Ht Hname frame resid order.
  assert (Hcol : col county_var frame = col county_var sample)
    by (apply col_trend_frame; assumption).
  assert (Hlen : length frame = length sample)
    by (apply length_trend_frame; assumption).
  assert (Horder : row_order county_var frame = order).
  { unfold order, row_order. now rewrite Hcol, Hlen. }
  split; [|split].
  - rewrite handle_trends_returns by assumption. cbv zeta. fold frame.
    rewrite trend_residuals_reordered by assumption.
    simpl fst. simpl snd. fold resid. now rewrite Horder.
  - apply row_order_identity_iff.
  - intros Hc. apply row_order_identity_iff in Hc. fold order in Hc.
    rewrite Hc, <- Hlen.
    destruct (length_row_residuals (min_rows trend_type)
                (regressors trend_type) county_var frame) as [H1 H2].
    fold resid in H1, H2.
    rewrite <- H1 at 1. rewrite <- H2. split; apply reorder_identity.
Qed.

End Reattachment.

Lemma residuals_reattached_witness :
  Replicate4.handle_trends perfect_fit "county_id" "quadratic" panel_3_2
    series_5a series_5b
  = Returned (Replicate4.mkLocals frame_3_2
      (Some (reorder (row_order "county_id" panel_3_2) (fst resid_3_2)))
      (Some (reorder (row_order "county_id" panel_3_2) (snd resid_3_2))))
  /\ (row_order "county_id" panel_3_2 = seq 0 (length panel_3_2)
      <-> contiguous (col "county_id" panel_3_2) = true)
  /\ (contiguous (col "county_id" panel_3_2) = true ->
      reorder (row_order "county_id" panel_3_2) (fst resid_3_2) = fst resid_3_2
      /\ reorder (row_order "county_id" panel_3_2) (snd resid_3_2)
         = snd resid_3_2).
Proof.
  apply (residuals_reattached_in_loop_order perfect_fit "county_id" "quadratic"
           panel_3_2 series_5a series_5b).
  - exact perfect_fit_length_preserving.
  - right. reflexivity.
  - reflexivity.
  - reflexivity.
  - simpl. intuition discriminate.
Defined.

(** On the interleaved panel [panel_3_2] the loop emits rows 0, 2, 4 of
    county 1 and then rows 1, 3 of county 2, so the second position of the
    final outcome series holds the residual of row 2 (county 1) where row 1
    (county 2) stands, and the value that belongs to row 1 moves to
    position 3. *)
Lemma interleaved_rows_get_other_residuals :
  row_order "county_id" panel_3_2 = [0; 2; 4; 1; 3]%nat
  /\ contiguous (col "county_id" panel_3_2) = false
  /\ fst resid_3_2 = [0; Qc_of_Z 2; 0; Qc_of_Z 4; 0]
  /\ reorder (row_order "county_id" panel_3_2) (fst resid_3_2)
     = [0; 0; 0; Qc_of_Z 2; Qc_of_Z 4].
Proof.
  repeat split; reflexivity.
Qed.

(** ** Row order and the clustered standard error *)

Lemma series_eqb_eq (a b : list Qc) : series_eqb a b = true -> a = b.
Proof.
  revert b. induction a as [|x a IH]; intros [|y b] H; simpl in H;
    try reflexivity; try discriminate.
  apply andb_true_iff in H. destruct H as [Hxy Hab].
  apply Qc_eq_bool_true in Hxy. subst y. f_equal. now apply IH.
Qed.

Lemma inputs_eqb_eq (o : option (list Qc * list Qc * list Qc))
    (y x g : list Qc) :
  inputs_eqb o y x g = true -> o = Some (y, x, g).
Proof.
  destruct o as [[[y' x'] g']|]; simpl; [|discriminate].
  rewrite !andb_true_iff. intros [[Hy Hx] Hg].
  apply series_eqb_eq in Hy, Hx, Hg. now subst.
Qed.

Lemma panel_by_period_permutation : Permutation panel_by_period panel_by_county.
Proof.
  unfold panel_by_period, panel_by_county.
  apply perm_skip.
  apply (Permutation_cons_app [obs 1 11 2004 (num 5) (num 1)]
           [obs 2 11 2004 (num 8) (num 0); obs 3 10 2000 (num 9) (num 1)]).
  simpl.
  apply (Permutation_cons_app
           [obs 1 11 2004 (num 5) (num 1); obs 2 11 2004 (num 8) (num 0)] []).
  rewrite app_nil_r. apply Permutation_refl.
Qed.

Section RowOrder.

Variable OLS_resid : list (list Qc) -> list Qc -> outcome (list Qc).
Variable OLS_cluster : list Qc -> list Qc -> list Qc -> outcome Fit.

Lemma run_from_inputs (cols : list string) (df : DataFrame)
    (y_var treat_var county_var state_year_var cluster_var trend_type : string)
    (y x g : list Qc) :
  regression_inputs
    (Replicate4.final_design OLS_resid cols df y_var treat_var county_var
       state_year_var trend_type) cluster_var = Some (y, x, g) ->
  Replicate4.run_twfe_regression_on OLS_resid OLS_cluster cols df y_var
    treat_var county_var state_year_var cluster_var trend_type
  = (fit <- OLS_cluster y x g ;;
     Returned (Some (Replicate4.result_dict fit g))).
Proof.
  unfold Replicate4.run_twfe_regression_on, regression_inputs.
  destruct (Replicate4.final_design _ _ _ _ _ _ _ _) as [l|e]; [|discriminate].
  simpl. unfold Replicate4.final_regression.
  destruct (Replicate4.l_y_final l) as [y'|]; [|discriminate].
  destruct (Replicate4.l_x_final l) as [x'|]; [|discriminate].
  intros H. injection H as -> -> ->. reflexivity.
Qed.

Lemma inputs_by_county :
  regression_inputs
    (Replicate4.final_design OLS_resid cols_replication panel_by_county
       "y" "treat" "county_id" "state_year" "quadratic") "county_id"
  = Some (y_by_county, x_by_county, labels_by_county).
Proof.
  apply inputs_eqb_eq. vm_compute. reflexivity.
Qed.

Lemma inputs_by_period :
  regression_inputs
    (Replicate4.final_design OLS_resid cols_replication panel_by_period
       "y" "treat" "county_id" "state_year" "quadratic") "county_id"
  = Some (y_by_county, x_by_county, labels_by_period).
Proof.
  apply inputs_eqb_eq. vm_compute. reflexivity.
Qed.

(** C7 at its failing input.  [panel_by_period] is a permutation of
    [panel_by_county].  With [trend_type='quadratic'] (no county has three
    rows, so no trend regression is run) the clustered regression of the
    county-sorted panel gets each row's series values with the row's own
    county; the regression of the period-sorted panel gets the very same
    two series, in the same order, with the cluster labels of its own row
    order, so that four of the five values carry another county's label. *)
Theorem row_order_changes_cluster_pairing :
  Permutation panel_by_period panel_by_county
  /\ Replicate4.run_twfe_regression OLS_resid OLS_cluster panel_by_county
       "y" "treat" "county_id" "state_year" "county_id" "quadratic"
     = (fit <- OLS_cluster y_by_county x_by_county labels_by_county ;;
        Returned (Some (Replicate4.result_dict fit labels_by_county)))
  /\ Replicate4.run_twfe_regression OLS_resid OLS_cluster panel_by_period
       "y" "treat" "county_id" "state_year" "county_id" "quadratic"
     = (fit <- OLS_cluster y_by_county x_by_county labels_by_period ;;
        Returned (Some (Replicate4.result_dict fit labels_by_period))).
Proof.
  split; [|split].
  - exact panel_by_period_permutation.
  - apply run_from_inputs, inputs_by_county.
  - apply run_from_inputs, inputs_by_period.
Qed.

End RowOrder.

(** The squared standard errors the two calls of the theorem above stand
    for, by the reference formula: 4672/2401 for the county-sorted panel
    (which is also the value both row orders give with
    [trend_type='none']), 1984/2401 for the period-sorted one. *)
Lemma cluster_se_squared_by_row_order :
  cluster_se_squared y_by_county x_by_county labels_by_county
  = Q2Qc (4672 # 2401)
  /\ cluster_se_squared y_by_county x_by_county labels_by_period
     = Q2Qc (1984 # 2401)
  /\ Q2Qc (4672 # 2401) <> Q2Qc (1984 # 2401).
Proof.
  split; [|split].
  - apply Qc_is_canon. vm_compute. reflexivity.
  - apply Qc_is_canon. vm_compute. reflexivity.
  - intros H. apply Q2Qc_eq_iff in H. discriminate H.
Qed.

(** ** Row order without a trend *)

Lemma filter_perm {A : Type} (p : A -> bool) (l l' : list A) :
  Permutation l l' -> Permutation (filter p l) (filter p l').
Proof.
  induction 1 as [|a l l' _ IH|a b l|l l' l'' _ IH1 _ IH2]; simpl.
  - constructor.
  - destruct (p a); [now constructor|assumption].
  - destruct (p a), (p b); try apply Permutation_refl. constructor.
  - now transitivity (filter p l').
Qed.

Lemma mean_perm (a b : list Qc) : Permutation a b -> mean a = mean b.
Proof.
  intros H. unfold mean.
  now rewrite (qsum_perm a b H), (Permutation_length H).
Qed.

Lemma within_perm {A : Type} (l l' : list A) (k f f' : A -> Qc) :
  Permutation l l' -> (forall a, f a = f' a) ->
  forall a, within l k f a = within l' k f' a.
Proof.
  intros H Hf a. unfold within, group_mean, group.
  rewrite (Hf a). f_equal. apply mean_perm.
  rewrite (map_ext f f' Hf). apply Permutation_map, filter_perm, H.
Qed.

Lemma combine_map {A B C : Type} (f : A -> B) (g : A -> C) (l : list A) :
  combine (map f l) (map g l) = map (fun a => (f a, g a)) l.
Proof.
  induction l as [|a l IH]; [reflexivity|]. simpl. now rewrite IH.
Qed.

Lemma unique_perm_length (a b : list Qc) :
  Permutation a b -> length (unique a) = length (unique b).
Proof.
  intros H. apply Permutation_length, NoDup_Permutation;
    try apply unique_NoDup.
  intros x. rewrite !unique_In. split; apply Permutation_in;
    [assumption|now symmetry].
Qed.

Section NoTrend.

Variable OLS_resid : list (list Qc) -> list Qc -> outcome (list Qc).
Variable OLS_cluster : list Qc -> list Qc -> list Qc -> outcome Fit.

Lemma inputs_without_trend (cols : list string) (df : DataFrame)
    (y_var treat_var county_var state_year_var cluster_var : string) :
  ~ In state_year_var demean_columns ->
  ~ In cluster_var demean_columns ->
  let sample := dropna cols df in
  let d2 v :=
    within sample (cellf state_year_var)
      (within sample (cellf county_var) (cellf v)) in
  regression_inputs
    (Replicate4.final_design OLS_resid cols df y_var treat_var county_var
       state_year_var "none") cluster_var
  = Some (map (d2 y_var) sample, map (d2 treat_var) sample,
          map (cellf cluster_var) sample).
Proof.
  intros Hsy Hcl sample d2. unfold Replicate4.final_design. fold sample.
  rewrite handle_trends_none. unfold regression_inputs.
  cbn [Replicate4.l_y_final Replicate4.l_x_final Replicate4.l_sample].
  rewrite demean_twice_frame by assumption.
  rewrite demean_twice_within by assumption. reflexivity.
Qed.

(** In exact arithmetic, with [trend_type='none'], a clustered fit that
    does not depend on the order of its rows returns the same result for a
    panel and for a permutation of its rows. *)
Theorem no_trend_row_order_invariant
    (df df' : DataFrame)
    (y_var treat_var county_var state_year_var cluster_var : string) :
  order_invariant OLS_cluster ->
  Permutation df df' ->
  ~ In state_year_var demean_columns ->
  ~ In cluster_var demean_columns ->
  Replicate4.run_twfe_regression OLS_resid OLS_cluster df y_var treat_var
    county_var state_year_var cluster_var "none"
  = Replicate4.run_twfe_regression OLS_resid OLS_cluster df' y_var treat_var
      county_var state_year_var cluster_var "none".
Proof.
  intros Hinv Hperm Hsy Hcl. unfold Replicate4.run_twfe_regression.
  set (cols := set_list (Replicate4.cols_of y_var treat_var county_var
                           state_year_var cluster_var)).
  rewrite (run_from_inputs OLS_resid OLS_cluster cols df _ _ _ _ _ _ _ _ _
             (inputs_without_trend cols df y_var treat_var county_var
                state_year_var cluster_var Hsy Hcl)).
  rewrite (run_from_inputs OLS_resid OLS_cluster cols df' _ _ _ _ _ _ _ _ _
             (inputs_without_trend cols df' y_var treat_var county_var
                state_year_var cluster_var Hsy Hcl)).
  assert (Hs : Permutation (dropna cols df) (dropna cols df'))
    by (apply filter_perm, Hperm).
  assert (Hg : Permutation (map (cellf cluster_var) (dropna cols df))
                 (map (cellf cluster_var) (dropna cols df')))
    by (apply Permutation_map, Hs).
  rewrite (Hinv _ _ _
             (map (within (dropna cols df') (cellf state_year_var)
                     (within (dropna cols df') (cellf county_var)
                        (cellf y_var))) (dropna cols df'))
             (map (within (dropna cols df') (cellf state_year_var)
                     (within (dropna cols df') (cellf county_var)
                        (cellf treat_var))) (dropna cols df'))
             (map (cellf cluster_var) (dropna cols df')));
    try (now rewrite !length_map).
  - unfold Replicate4.result_dict, nunique.
    now rewrite (unique_perm_length _ _ Hg).
  - unfold design_rows. simpl fst. simpl snd. rewrite !combine_map.
    rewrite (map_ext
               (fun a =>
                  (within (dropna cols df) (cellf state_year_var)
                     (within (dropna cols df) (cellf county_var) (cellf y_var)) a,
                   (within (dropna cols df) (cellf state_year_var)
                      (within (dropna cols df) (cellf county_var)
                         (cellf treat_var)) a,
                    cellf cluster_var a)))
               (fun a =>
                  (within (dropna cols df') (cellf state_year_var)
                     (within (dropna cols df') (cellf county_var) (cellf y_var)) a,
                   (within (dropna cols df') (cellf state_year_var)
                      (within (dropna cols df') (cellf county_var)
                         (cellf treat_var)) a,
                    cellf cluster_var a)))).
    + apply Permutation_map, Hs.
    + intros a. f_equal; [|f_equal];
        apply within_perm; try assumption; intros b;
        apply within_perm; try assumption; reflexivity.
Qed.

End NoTrend.

(** The exact fit does not depend on the order of its rows. *)

Lemma unique_perm (a b : list Qc) :
  Permutation a b -> Permutation (unique a) (unique b).
Proof.
  intros H. apply NoDup_Permutation; try apply unique_NoDup.
  intros x. rewrite !unique_In. split; apply Permutation_in;
    [assumption|now symmetry].
Qed.

Lemma design_rows_columns (y x g : list Qc) :
  length y = length x -> length x = length g ->
  y = map fst (design_rows (y, x, g))
  /\ x = map (fun r => fst (snd r)) (design_rows (y, x, g))
  /\ g = map (fun r => snd (snd r)) (design_rows (y, x, g)).
Proof.
  unfold design_rows. simpl fst. simpl snd.
  revert x g. induction y as [|a y IH]; intros [|b x] [|c g] H1 H2;
    simpl in H1, H2; try discriminate.
  - repeat split.
  - injection H1 as H1. injection H2 as H2.
    destruct (IH x g H1 H2) as [E1 [E2 E3]].
    simpl. repeat split; f_equal; assumption.
Qed.

Lemma cluster_sums_perm {A : Type} (s k : A -> Qc) (R R' : list A) :
  Permutation R R' ->
  qsum (map (fun c => qsum (group_vals c (map k R) (map s R))
                      * qsum (group_vals c (map k R) (map s R)))
          (unique (map k R)))
  = qsum (map (fun c => qsum (group_vals c (map k R') (map s R'))
                        * qsum (group_vals c (map k R') (map s R')))
            (unique (map k R'))).
Proof.
  intros H.
  rewrite (qsum_perm _ _
             (Permutation_map _ (unique_perm _ _ (Permutation_map k H)))).
  f_equal. apply map_ext. intros c. rewrite !group_vals_map. unfold group.
  now rewrite (qsum_perm _ _ (Permutation_map s (filter_perm _ _ _ H))).
Qed.

Lemma exact_fit_of_rows (R R' : list (Qc * (Qc * Qc))) :
  Permutation R R' ->
  exact_fit (map fst R) (map (fun r => fst (snd r)) R)
    (map (fun r => snd (snd r)) R)
  = exact_fit (map fst R') (map (fun r => fst (snd r)) R')
      (map (fun r => snd (snd r)) R').
Proof.
  intros H.
  assert (Emx : mean (map (fun r => fst (snd r)) R')
                = mean (map (fun r => fst (snd r)) R))
    by (symmetry; apply mean_perm, Permutation_map, H).
  assert (Emy : mean (map fst R') = mean (map fst R))
    by (symmetry; apply mean_perm, Permutation_map, H).
  assert (Esum : forall phi : Qc * (Qc * Qc) -> Qc,
            qsum (map phi R') = qsum (map phi R))
    by (intros phi; symmetry; apply qsum_perm, Permutation_map, H).
  unfold exact_fit, ols_slope, cluster_se_squared, zip_with. cbv zeta.
  rewrite Emx, Emy.
  repeat (rewrite ?map_map, ?combine_map).
  rewrite !length_map, (Permutation_length H).
  rewrite !Esum.
  rewrite (unique_perm_length _ _
             (Permutation_map (fun r => snd (snd r)) H)).
  do 2 f_equal. f_equal. f_equal.
  apply (cluster_sums_perm _ (fun r => snd (snd r)) R R' H).
Qed.

Lemma exact_fit_order_invariant : order_invariant exact_fit.
Proof.
  intros y x g y' x' g' H1 H2 H3 H4 H.
  destruct (design_rows_columns y x g H1 H2) as [Ey [Ex Eg]].
  destruct (design_rows_columns y' x' g' H3 H4) as [Ey' [Ex' Eg']].
  set (R := design_rows (y, x, g)) in *.
  set (R' := design_rows (y', x', g')) in *.
  clearbody R R'. subst y x g y' x' g'.
  now apply exact_fit_of_rows.
Qed.

Section NoTrendRows.

Variable OLS_resid : list (list Qc) -> list Qc -> outcome (list Qc).

(** In exact arithmetic, with [trend_type='none'], a permutation of the
    panel's rows permutes the rows handed to the final clustered regression
    (outcome, treatment, cluster label) in the same way.  Hence a clustered
    fit that does not depend on the order of its rows, as the exact
    least-squares fit is, returns the same result for both panels.
    Rounding is not modelled: in binary64 a group mean depends on the order
    of summation, and the rows need not agree to the last bit. *)
Theorem no_trend_permutes_regression_rows
    (df df' : DataFrame)
    (y_var treat_var county_var state_year_var cluster_var : string) :
  Permutation df df' ->
  ~ In state_year_var demean_columns ->
  ~ In cluster_var demean_columns ->
  (exists inputs inputs',
     regression_inputs
       (Replicate4.final_design OLS_resid
          (set_list (Replicate4.cols_of y_var treat_var county_var
                       state_year_var cluster_var))
          df y_var treat_var county_var state_year_var "none") cluster_var
     = Some inputs
     /\ regression_inputs
          (Replicate4.final_design OLS_resid
             (set_list (Replicate4.cols_of y_var treat_var county_var
                          state_year_var cluster_var))
             df' y_var treat_var county_var state_year_var "none") cluster_var
        = Some inputs'
     /\ Permutation (design_rows inputs) (design_rows inputs'))
  /\ (forall OLS_cluster,
        order_invariant OLS_cluster ->
        Replicate4.run_twfe_regression OLS_resid OLS_cluster df y_var
          treat_var county_var state_year_var cluster_var "none"
        = Replicate4.run_twfe_regression OLS_resid OLS_cluster df' y_var
            treat_var county_var state_year_var cluster_var "none").
Proof.
  intros Hperm Hsy Hcl. split.
  - set (cols := set_list (Replicate4.cols_of y_var treat_var county_var
                             state_year_var cluster_var)).
    eexists. eexists.
    split; [apply (inputs_without_trend OLS_resid cols df); assumption|].
    split; [apply (inputs_without_trend OLS_resid cols df'); assumption|].
    assert (Hs : Permutation (dropna cols df) (dropna cols df'))
      by (apply filter_perm, Hperm).
    unfold design_rows. simpl fst. simpl snd. rewrite !combine_map.
    rewrite (map_ext
               (fun a =>
                  (within (dropna cols df) (cellf state_year_var)
                     (within (dropna cols df) (cellf county_var) (cellf y_var)) a,
                   (within (dropna cols df) (cellf state_year_var)
                      (within (dropna cols df) (cellf county_var)
                         (cellf treat_var)) a,
                    cellf cluster_var a)))
               (fun a =>
                  (within (dropna cols df') (cellf state_year_var)
                     (within (dropna cols df') (cellf county_var) (cellf y_var)) a,
                   (within (dropna cols df') (cellf state_year_var)
                      (within (dropna cols df') (cellf county_var)
                         (cellf treat_var)) a,
                    cellf cluster_var a)))).
    + apply Permutation_map, Hs.
    + intros a. f_equal; [|f_equal];
        apply within_perm; try assumption; intros b;
        apply within_perm; try assumption; reflexivity.
  - intros OLS_cluster Hinv.
    now apply no_trend_row_order_invariant.
Qed.

End NoTrendRows.

Lemma no_trend_regression_rows_witness :
  (exists inputs inputs',
     regression_inputs
       (Replicate4.final_design resid_raises
          (set_list (Replicate4.cols_of "y" "treat" "county_id" "state_year"
                       "county_id"))
          panel_by_period "y" "treat" "county_id" "state_year" "none")
       "county_id"
     = Some inputs
     /\ regression_inputs
          (Replicate4.final_design resid_raises
             (set_list (Replicate4.cols_of "y" "treat" "county_id"
                          "state_year" "county_id"))
             panel_by_county "y" "treat" "county_id" "state_year" "none")
          "county_id"
        = Some inputs'
     /\ Permutation (design_rows inputs) (design_rows inputs'))
  /\ Replicate4.run_twfe_regression resid_raises exact_fit panel_by_period
       "y" "treat" "county_id" "state_year" "county_id" "none"
     = Replicate4.run_twfe_regression resid_raises exact_fit panel_by_county
         "y" "treat" "county_id" "state_year" "county_id" "none".
Proof.
  destruct (no_trend_permutes_regression_rows resid_raises panel_by_period
              panel_by_county "y" "treat" "county_id" "state_year" "county_id")
    as [Hrows Hfit].
  - exact panel_by_period_permutation.
  - simpl. intuition discriminate.
  - simpl. intuition discriminate.
  - split; [exact Hrows|].
    exact (Hfit exact_fit exact_fit_order_invariant).
Defined.

(** On the twice-demeaned series of [panel_by_county] the exact fit
    reports the slope -6/7 and the squared standard error 4672/2401. *)
Lemma exact_fit_by_county :
  exact_fit y_by_county x_by_county labels_by_county
  = Returned (mkFit (Q2Qc (-6 # 7)) (Q2Qc (4672 # 2401)) 0 5).
Proof.
  unfold exact_fit. do 2 f_equal;
    first [ apply Qc_is_canon; vm_compute; reflexivity | reflexivity ].
Qed.

(** ** The guard on the empty sample in the other scripts *)

Lemma apply_filter_In (sample_filter : option (list bool)) (df : DataFrame)
    (r : Row) :
  In r (apply_filter sample_filter df) -> In r df.
Proof.
  destruct sample_filter as [keep|]; simpl; [|trivial].
  intros H. apply in_map_iff in H. destruct H as [[r' b] [<- H]].
  apply filter_In in H. destruct H as [H _].
  now apply in_combine_l in H.
Qed.

Section GuardedScripts.

Variable OLS_resid : list (list Qc) -> list Qc -> outcome (list Qc).
Variable OLS_cluster : list Qc -> list Qc -> list Qc -> outcome Fit.
Variable add_constant : design -> design.
Variable PanelOLS_fit :
  list Qc -> design -> list Qc -> list Qc -> string -> outcome Fit.
Variable OLS_cluster_fit : list Qc -> design -> list Qc -> string -> outcome Fit.

(** When every row lacks one of the outcome, treatment, entity or time
    cells, the scripts that guard the sample size return [None]: version
    4's [05_extension_analysis.py] and version 2's [05_run_extension.py]
    for every column naming, version 2's [02_replicate.py] (primary and
    fallback) for its fixed entity and time columns; each for every
    [trend_type]. *)
Theorem guarded_scripts_return_None_on_empty_sample
    (df : DataFrame)
    (y_var treat_var county_var state_year_var cluster_var trend_type : string)
    (additional_controls : option (list string))
    (sample_filter : option (list bool)) :
  (forall r, In r df ->
     exists c, In c [y_var; treat_var; county_var; state_year_var] /\ r c = None) ->
  Extension4.run_twfe_regression OLS_resid OLS_cluster df y_var treat_var
    county_var state_year_var cluster_var trend_type additional_controls
  = Returned None
  /\ Extension2.run_twfe_regression add_constant PanelOLS_fit df y_var
       treat_var sample_filter county_var state_year_var cluster_var
     = Returned None
  /\ (county_var = "county_id" -> state_year_var = "state_year_id" ->
      Replicate2.run_panel_regression PanelOLS_fit OLS_cluster_fit df y_var
        treat_var sample_filter trend_type = Returned None
      /\ Replicate2.run_manual_twfe OLS_cluster_fit df y_var treat_var
           sample_filter trend_type = Returned None).
Proof.
  intros H. split; [|split].
  - unfold Extension4.run_twfe_regression, Extension4.run_twfe_regression_on.
    rewrite dropna_all_missing; [reflexivity|].
    intros r Hr. destruct (H r Hr) as [c [Hc Hn]]. exists c.
    split; [|assumption]. apply set_list_In.
    unfold Extension4.cols_of, Replicate4.cols_of. apply in_or_app. left.
    simpl in Hc. simpl. intuition.
  - unfold Extension2.run_twfe_regression, Extension2.run_twfe_regression_on.
    rewrite dropna_all_missing; [reflexivity|].
    intros r Hr. apply apply_filter_In in Hr.
    destruct (H r Hr) as [c [Hc Hn]]. exists c.
    split; [|assumption]. apply set_list_In.
    unfold Extension2.cols_of. simpl in Hc. simpl. intuition.
  - intros -> ->.
    assert (E : Replicate2.prepare_sample df y_var treat_var sample_filter = []).
    { unfold Replicate2.prepare_sample. apply dropna_all_missing.
      intros r Hr. apply apply_filter_In in Hr.
      destruct (H r Hr) as [c [Hc Hn]]. exists c.
      split; [|assumption]. unfold Replicate2.cols_needed.
      simpl in Hc. simpl. intuition. }
    unfold Replicate2.run_panel_regression, Replicate2.run_manual_twfe.
    rewrite E. split; reflexivity.
Qed.

End GuardedScripts.

Lemma guarded_scripts_witness :
  Extension4.run_twfe_regression resid_raises cluster_raises panel_no_outcome
    "y" "treat" "county_id" "state_year_id" "county_id" "linear" None
  = Returned None
  /\ Extension2.run_twfe_regression add_constant_column panel_raises
       panel_no_outcome "y" "treat" None "county_id" "state_year_id"
       "county_id"
     = Returned None
  /\ Replicate2.run_panel_regression panel_raises named_raises
       panel_no_outcome "y" "treat" None "linear" = Returned None
  /\ Replicate2.run_manual_twfe named_raises panel_no_outcome "y" "treat"
       None "linear" = Returned None.
Proof.
  destruct (guarded_scripts_return_None_on_empty_sample resid_raises
              cluster_raises add_constant_column panel_raises named_raises
              panel_no_outcome "y" "treat" "county_id" "state_year_id"
              "county_id" "linear" None None) as [H4 [H2 H]].
  - intros r [<- | [<- | []]]; exists "y"; simpl; auto.
  - destruct (H eq_refl eq_refl) as [Ha Hb]. repeat split; assumption.
Defined.

(** * Further properties *)

(** ** The extension script of version 4 against the replication script *)

Lemma dropna_app (a b : list string) (df : DataFrame) :
  dropna (a ++ b) df = dropna a (dropna b df).
Proof.
  unfold dropna. induction df as [|r df IH]; [reflexivity|].
  simpl. rewrite forallb_app.
  destruct (forallb (notna r) b); simpl.
  - destruct (forallb (notna r) a); simpl; now rewrite IH.
  - rewrite andb_false_r. exact IH.
Qed.

Lemma dropna_set_list (names : list string) (df : DataFrame) :
  dropna (set_list names) df = dropna names df.
Proof. apply dropna_enumeration. intros c. apply set_list_In. Qed.

Section Controls.

Variable OLS_resid : list (list Qc) -> list Qc -> outcome (list Qc).
Variable OLS_cluster : list Qc -> list Qc -> list Qc -> outcome Fit.

(** [additional_controls] only restricts the sample: the listed columns
    join the columns that must be present, and nothing else reads them.  A
    call with controls is the call without controls on the rows where the
    controls are present. *)
Theorem additional_controls_only_restrict_sample
    (df : DataFrame)
    (y_var treat_var county_var state_year_var cluster_var trend_type : string)
    (controls : list string) :
  Extension4.run_twfe_regression OLS_resid OLS_cluster df y_var treat_var
    county_var state_year_var cluster_var trend_type (Some controls)
  = Extension4.run_twfe_regression OLS_resid OLS_cluster (dropna controls df)
      y_var treat_var county_var state_year_var cluster_var trend_type None.
Proof.
  unfold Extension4.run_twfe_regression, Extension4.run_twfe_regression_on.
  rewrite !dropna_set_list.
  assert (E : dropna
                (Extension4.cols_of y_var treat_var county_var state_year_var
                   cluster_var (Some controls)) df
              = dropna
                  (Extension4.cols_of y_var treat_var county_var state_year_var
                     cluster_var None) (dropna controls df)).
  { unfold Extension4.cols_of. rewrite app_nil_r.
    destruct controls as [|c cs].
    - rewrite app_nil_r. unfold dropna at 3. simpl forallb.
      now rewrite filter_all.
    - apply dropna_app. }
  rewrite E. reflexivity.
Qed.

(** On a sample of at least ten complete rows the extension script's
    estimator does what the replication script's does: it raises what that
    one raises, and it returns that one's record followed by the two ends
    [coef -/+ 1.96 se] of the confidence interval. *)
Theorem extension4_record_extends_replication
    (df : DataFrame)
    (y_var treat_var county_var state_year_var cluster_var trend_type : string) :
  (10 <= length (dropna (Replicate4.cols_of y_var treat_var county_var
                           state_year_var cluster_var) df))%nat ->
  (forall e,
     Replicate4.run_twfe_regression OLS_resid OLS_cluster df y_var treat_var
       county_var state_year_var cluster_var trend_type = Raised e ->
     Extension4.run_twfe_regression OLS_resid OLS_cluster df y_var treat_var
       county_var state_year_var cluster_var trend_type None = Raised e)
  /\ (forall d,
        Replicate4.run_twfe_regression OLS_resid OLS_cluster df y_var treat_var
          county_var state_year_var cluster_var trend_type = Returned (Some d) ->
        exists coef se,
          lookup "coef" d = Some (PFloat coef)
          /\ lookup "se" d = Some (PFloat se)
          /\ Extension4.run_twfe_regression OLS_resid OLS_cluster df y_var
               treat_var county_var state_year_var cluster_var trend_type None
             = Returned (Some
                 (d ++ [ ("ci_low", PFloat (coef - Extension4.z_95 * se));
                         ("ci_high", PFloat (coef + Extension4.z_95 * se)) ]))).
Proof.
  intros Hn.
  unfold Extension4.run_twfe_regression, Extension4.run_twfe_regression_on,
    Replicate4.run_twfe_regression, Replicate4.run_twfe_regression_on,
    Replicate4.final_design.
  rewrite !dropna_set_list.
  unfold Extension4.cols_of. rewrite app_nil_r.
  apply Nat.ltb_ge in Hn. rewrite Hn.
  set (sample := dropna _ df).
  set (d2 := Replicate4.demean_twice _ _ _ _ sample).
  destruct (Replicate4.handle_trends OLS_resid county_var trend_type
              (fst d2) (fst (snd d2)) (snd (snd d2))) as [l|e0];
    [|split; [intros e H; exact H | intros d H; discriminate H]].
  cbn [bind]. unfold Replicate4.final_regression, Extension4.final_regression.
  destruct (Replicate4.l_x_final l) as [x|];
    [|split; [intros e H; exact H | intros d H; discriminate H]].
  cbn [bind read_local].
  destruct (Replicate4.l_y_final l) as [y|];
    [|split; [intros e H; exact H | intros d H; discriminate H]].
  cbn [bind read_local].
  destruct (OLS_cluster y x (col cluster_var (Replicate4.l_sample l)))
    as [fit|e0];
    [|split; [intros e H; exact H | intros d H; discriminate H]].
  cbn [bind]. split; [intros e H; discriminate H|].
  intros d H. injection H as <-.
  exists (fit_coef fit), (fit_se fit). repeat split.
Qed.

End Controls.

Lemma extension4_record_extends_replication_witness :
  (forall e,
     Replicate4.run_twfe_regression perfect_fit (cluster_reports fit_of_five)
       panel_10 "y" "treat" "county_id" "state_year_id" "county_id" "linear"
     = Raised e ->
     Extension4.run_twfe_regression perfect_fit (cluster_reports fit_of_five)
       panel_10 "y" "treat" "county_id" "state_year_id" "county_id" "linear"
       None = Raised e)
  /\ (forall d,
        Replicate4.run_twfe_regression perfect_fit (cluster_reports fit_of_five)
          panel_10 "y" "treat" "county_id" "state_year_id" "county_id" "linear"
        = Returned (Some d) ->
        exists coef se,
          lookup "coef" d = Some (PFloat coef)
          /\ lookup "se" d = Some (PFloat se)
          /\ Extension4.run_twfe_regression perfect_fit
               (cluster_reports fit_of_five) panel_10 "y" "treat" "county_id"
               "state_year_id" "county_id" "linear" None
             = Returned (Some
                 (d ++ [ ("ci_low", PFloat (coef - Extension4.z_95 * se));
                         ("ci_high", PFloat (coef + Extension4.z_95 * se)) ]))).
Proof.
  apply (extension4_record_extends_replication perfect_fit
           (cluster_reports fit_of_five) panel_10).
  vm_compute. apply le_n.
Defined.

(** ** The office-level panels *)

Lemma office_loop_app (id_cols : list string) (offices : list (string * string))
    (row : Row) (rows : DataFrame) :
  Reshape4.office_loop id_cols offices row rows
  = rows ++ office_rows id_cols offices row.
Proof.
  revert rows. unfold office_rows.
  induction offices as [|[office var] rest IH]; intros rows; simpl.
  - now rewrite app_nil_r.
  - rewrite IH. destruct (notna row var); simpl.
    + now rewrite <- app_assoc.
    + reflexivity.
Qed.

Lemma row_loop_flat_map (id_cols : list string)
    (offices : list (string * string)) (df rows : DataFrame) :
  Reshape4.row_loop id_cols offices df rows
  = rows ++ flat_map (office_rows id_cols offices) df.
Proof.
  revert rows. induction df as [|row rest IH]; intros rows; simpl.
  - now rewrite app_nil_r.
  - rewrite IH, office_loop_app. now rewrite <- app_assoc.
Qed.

Lemma long_row_id (id_cols : list string) (office var c : string) (row : Row) :
  In c id_cols -> Reshape4.long_row id_cols office var row c = row c.
Proof.
  unfold Reshape4.long_row. induction id_cols as [|k ks IH]; intros H.
  - contradiction.
  - simpl. destruct (String.eqb c k) eqn:E.
    + apply String.eqb_eq in E. now subst.
    + apply IH. destruct H as [H|H]; [|assumption].
      subst. now rewrite String.eqb_refl in E.
Qed.

Lemma long_row_other (id_cols : list string) (office var c : string) (row : Row) :
  ~ In c id_cols ->
  Reshape4.long_row id_cols office var row c
  = if String.eqb c "office" then Some (Reshape4.office_code office)
    else if String.eqb c "dem_share" then row var else None.
Proof.
  unfold Reshape4.long_row. induction id_cols as [|k ks IH]; intros H.
  - reflexivity.
  - simpl. destruct (String.eqb c k) eqn:E.
    + apply String.eqb_eq in E. subst. exfalso. apply H. now left.
    + apply IH. intros Hin. apply H. now right.
Qed.

Lemma flat_map_app_perm {A B : Type} (g h : A -> list B) (l : list A) :
  Permutation (flat_map (fun a => g a ++ h a) l) (flat_map g l ++ flat_map h l).
Proof.
  induction l as [|a l IH]; simpl; [constructor|].
  rewrite <- !app_assoc. apply Permutation_app_head.
  rewrite IH. apply Permutation_app_swap_app.
Qed.

Lemma flat_map_pointwise_perm {A B : Type} (g h : A -> list B) (l : list A) :
  (forall a, Permutation (g a) (h a)) ->
  Permutation (flat_map g l) (flat_map h l).
Proof.
  intros H. induction l as [|a l IH]; simpl; [constructor|].
  now apply Permutation_app.
Qed.

(** A double loop lists the same elements whichever loop is the outer
    one. *)
Lemma map_filter_flat_map {B C : Type} (f : B -> C) (p : B -> bool)
    (l : list B) :
  map f (filter p l) = flat_map (fun b => if p b then [f b] else []) l.
Proof.
  induction l as [|b l IH]; simpl; [reflexivity|].
  destruct (p b); simpl; now rewrite IH.
Qed.

Lemma flat_map_transpose {A B C : Type} (f : A -> B -> C) (p : A -> B -> bool)
    (la : list A) (lb : list B) :
  Permutation
    (flat_map (fun a => map (f a) (filter (p a) lb)) la)
    (flat_map (fun b => map (fun a => f a b) (filter (fun a => p a b) la)) lb).
Proof.
  induction la as [|a la IH]; simpl.
  - induction lb as [|b lb IHb]; simpl; [constructor|exact IHb].
  - assert (E : flat_map
                  (fun b => map (fun a0 => f a0 b)
                              (if p a b then a :: filter (fun a0 => p a0 b) la
                               else filter (fun a0 => p a0 b) la)) lb
                = flat_map
                    (fun b => (if p a b then [f a b] else [])
                              ++ map (fun a0 => f a0 b)
                                   (filter (fun a0 => p a0 b) la)) lb).
    { apply flat_map_ext. intros b. destruct (p a b); reflexivity. }
    rewrite E. clear E.
    eapply Permutation_trans; [|apply Permutation_sym, flat_map_app_perm].
    apply Permutation_app; [|exact IH].
    rewrite map_filter_flat_map. apply Permutation_refl.
Qed.

Lemma filter_flat_map {A B : Type} (p : B -> bool) (g : A -> list B)
    (l : list A) :
  filter p (flat_map g l) = flat_map (fun a => filter p (g a)) l.
Proof.
  induction l as [|a l IH]; simpl; [reflexivity|].
  now rewrite filter_app, IH.
Qed.

Lemma map_flat_map {A B C : Type} (h : B -> C) (g : A -> list B) (l : list A) :
  map h (flat_map g l) = flat_map (fun a => map h (g a)) l.
Proof.
  induction l as [|a l IH]; simpl; [reflexivity|].
  now rewrite map_app, IH.
Qed.

(** Every long row carries a reported share and the identifier cells of
    its wide row. *)
Theorem reshaped_panel_lists_reported_shares (df : DataFrame) :
  let long := Reshape4.reshape_to_vote_share_panel df in
  let wide_cols := ["county_id"; "state_year"; "year"; "treat"; "post_2018"] in
  dropna ["dem_share"] long = long
  /\ map (cells (wide_cols ++ ["dem_share"])) long
     = flat_map
         (fun row =>
            map (fun var => cells wide_cols row ++ [row var])
              (filter (notna row)
                 ["dem_share_pres"; "dem_share_gov"; "dem_share_sen"]))
         df
  /\ (length long <= 3 * length df)%nat.
Proof.
  cbv zeta. unfold Reshape4.reshape_to_vote_share_panel.
  rewrite row_loop_flat_map. rewrite app_nil_l.
  split; [|split].
  - unfold dropna. apply filter_all. intros r Hr.
    apply in_flat_map in Hr. destruct Hr as [row [_ Hr]].
    unfold office_rows in Hr. apply in_map_iff in Hr.
    destruct Hr as [[office var] [<- Hov]].
    apply filter_In in Hov. destruct Hov as [_ Hv]. simpl in Hv.
    simpl. unfold notna in *. rewrite long_row_other.
    + simpl. rewrite Hv. reflexivity.
    + simpl. intuition discriminate.
  - rewrite map_flat_map. apply flat_map_ext. intros row.
    unfold office_rows. simpl filter.
    destruct (notna row "dem_share_pres"), (notna row "dem_share_gov"),
      (notna row "dem_share_sen"); reflexivity.
  - induction df as [|row df IH]; simpl; [lia|].
    rewrite length_app. unfold office_rows at 1. rewrite length_map.
    pose proof (filter_length_le (fun ov => notna row (snd ov))
                  [ ("pres", "dem_share_pres"); ("gov", "dem_share_gov");
                    ("sen", "dem_share_sen") ]) as Hle.
    simpl length in Hle at 2. lia.
Qed.

(** One block of the melted frame, after [dropna], against the rows the
    loop of version 4 appends for the same office. *)
Lemma melt_block (keep_cols : list string) (label : Qc) (office var : string)
    (df : DataFrame) :
  (forall row,
     cells shared_cols
       (row_of (map (fun c => (c, row c)) keep_cols
                ++ [ ("office", Some label); ("dem_share", row var) ]))
     = cells shared_cols
         (Reshape4.long_row id_cols_replication office var row)) ->
  map (cells shared_cols)
    (filter (fun r => forallb (notna r) ["dem_share"])
       (map (fun row =>
               row_of (map (fun c => (c, row c)) keep_cols
                       ++ [ ("office", Some label); ("dem_share", row var) ]))
          df))
  = map (fun row =>
           cells shared_cols
             (Reshape4.long_row id_cols_replication office var row))
      (filter (fun row => notna row var) df).
Proof.
  intros H. induction df as [|row df IH]; [reflexivity|].
  cbn [map filter].
  match goal with
  | |- context [forallb ?a ?b] => replace (forallb a b) with (notna row var)
  end.
  - destruct (notna row var); cbn [map]; rewrite IH; [rewrite H|];
      reflexivity.
  - cbn [forallb]. rewrite andb_true_r.
    pose proof (H row) as Hr. unfold cells, shared_cols in Hr.
    cbn [map] in Hr. injection Hr as _ _ _ _ _ _ Hd.
    unfold notna. symmetry.
    etransitivity;
      [ exact (f_equal (fun c : Cell =>
                          match c with Some _ => true | None => false end) Hd)
      | reflexivity ].
Qed.

(** The three reshaped panels hold the same observations. *)
Theorem reshaped_panels_hold_the_same_observations (df : DataFrame) :
  Permutation
    (map (cells shared_cols) (Reshape2.prepare_dem_voteshare_data df))
    (map (cells shared_cols) (Reshape4.vote_share_long df))
  /\ Permutation
       (map (cells shared_cols) (Reshape4.reshape_to_vote_share_panel df))
       (map (cells shared_cols) (Reshape4.vote_share_long df)).
Proof.
  unfold Reshape4.vote_share_long, Reshape4.reshape_to_vote_share_panel,
    Reshape2.prepare_dem_voteshare_data.
  rewrite !row_loop_flat_map, !app_nil_l.
  split.
  - unfold dropna, Reshape2.melt.
    rewrite filter_flat_map, !map_flat_map.
    cbn [flat_map]. rewrite !app_nil_r.
    rewrite (melt_block _ _ "gov" "dem_share_gov") by (intros; reflexivity).
    rewrite (melt_block _ _ "pres" "dem_share_pres") by (intros; reflexivity).
    rewrite (melt_block _ _ "sen" "dem_share_sen") by (intros; reflexivity).
    set (f := fun (row : Row) (ov : string * string) =>
                cells shared_cols
                  (Reshape4.long_row id_cols_replication (fst ov) (snd ov) row)).
    set (p := fun (row : Row) (ov : string * string) => notna row (snd ov)).
    apply Permutation_sym.
    eapply Permutation_trans.
    + rewrite (flat_map_ext _
                 (fun row => map (f row) (filter (p row) offices_replication))).
      * apply flat_map_transpose.
      * intros row. unfold office_rows. now rewrite map_map.
    + cbn [flat_map offices_replication]. rewrite !app_nil_r.
      apply Permutation_refl.
  - rewrite !map_flat_map.
    apply flat_map_pointwise_perm. intros row.
    unfold office_rows. simpl filter.
    destruct (notna row "dem_share_pres"), (notna row "dem_share_gov"),
      (notna row "dem_share_sen"); cbn [map];
      try apply Permutation_refl; try apply perm_swap.
Qed.

Lemma flat_map_filter {A B : Type} (q : A -> bool) (g : A -> list B)
    (l : list A) :
  flat_map g (filter q l) = flat_map (fun a => if q a then g a else []) l.
Proof.
  induction l as [|a l IH]; simpl; [reflexivity|].
  destruct (q a); simpl; now rewrite IH.
Qed.

Lemma filter_none {A : Type} (p : A -> bool) (l : list A) :
  (forall a, In a l -> p a = false) -> filter p l = [].
Proof.
  induction l as [|a l IH]; intros H; [reflexivity|].
  simpl. rewrite (H a (or_introl eq_refl)). apply IH.
  intros b Hb. apply H. now right.
Qed.

Lemma row_loop_filter (id_cols : list string) (offices : list (string * string))
    (c : string) (p : Cell -> bool) (df : DataFrame) :
  In c id_cols ->
  filter (fun r => p (r c)) (Reshape4.row_loop id_cols offices df [])
  = Reshape4.row_loop id_cols offices (filter (fun r => p (r c)) df) [].
Proof.
  intros Hc. rewrite !row_loop_flat_map, !app_nil_l.
  rewrite filter_flat_map, flat_map_filter.
  apply flat_map_ext. intros row.
  assert (H : forall r, In r (office_rows id_cols offices row) -> r c = row c).
  { intros r Hr. unfold office_rows in Hr. apply in_map_iff in Hr.
    destruct Hr as [ov [<- _]]. now apply long_row_id. }
  destruct (p (row c)) eqn:E.
  - apply filter_all. intros r Hr. now rewrite (H r Hr).
  - apply filter_none. intros r Hr. now rewrite (H r Hr).
Qed.

(** Selecting rows by period or by year commutes with the reshaping: the
    office-level panel of the selected county-years is the selection of the
    office-level panel. *)
Theorem reshape_commutes_with_row_selection (p : Cell -> bool) (df : DataFrame) :
  filter (fun r => p (r "post_2018")) (Reshape4.reshape_to_vote_share_panel df)
  = Reshape4.reshape_to_vote_share_panel
      (filter (fun r => p (r "post_2018")) df)
  /\ filter (fun r => p (r "year")) (Reshape4.reshape_to_vote_share_panel df)
     = Reshape4.reshape_to_vote_share_panel (filter (fun r => p (r "year")) df)
  /\ filter (fun r => p (r "state")) (Reshape4.reshape_to_vote_share_panel df)
     = Reshape4.reshape_to_vote_share_panel (filter (fun r => p (r "state")) df).
Proof.
  unfold Reshape4.reshape_to_vote_share_panel.
  repeat split; apply row_loop_filter; simpl; tauto.
Qed.

(** ** The record of version 3 *)

Section Record3.

Variable HAS_PYFIXEST : bool.
Variable feols :
  DataFrame -> string -> string -> string -> string -> string
  -> outcome Extension3.FeolsModel.
Variable OLS_cluster_full :
  list Qc -> list Qc -> list Qc -> outcome Extension3.FullFit.

(** Version 3's estimator always answers with a record of the same seven
    keys: it never raises and never returns [None].  The field [n] is the
    number of complete rows, or 0 when there are fewer than ten. *)
Theorem extension3_always_returns_full_record
    (df : DataFrame)
    (outcome_var treatment_var entity_var time_var cluster_var : string) :
  let df_reg :=
    dropna (Extension3.cols_of outcome_var treatment_var entity_var time_var
              cluster_var) df in
  exists d,
    Extension3.run_twfe_regression HAS_PYFIXEST feols OLS_cluster_full df
      outcome_var treatment_var entity_var time_var cluster_var
    = Returned (Some d)
    /\ keys d = record_keys3
    /\ lookup "n" d
       = Some (PInt (if Nat.ltb (length df_reg) 10 then 0
                     else Z.of_nat (length df_reg))).
Proof.
  cbv zeta.
  unfold Extension3.run_twfe_regression, Extension3.run_twfe_regression_on.
  rewrite dropna_set_list.
  set (df_reg := dropna _ df).
  destruct (Nat.ltb (length df_reg) 10).
  - eexists. repeat split.
  - destruct HAS_PYFIXEST.
    + destruct (feols df_reg outcome_var treatment_var entity_var time_var
                  cluster_var) as [m|e]; eexists; repeat split.
    + rewrite length_manual_frame.
      destruct (Extension3.manual_fit OLS_cluster_full df_reg outcome_var
                  treatment_var entity_var time_var cluster_var) as [f|e];
        eexists; repeat split.
Qed.

End Record3.

(** ** What [None] means in version 2's extension script *)

Section None2.

Variable add_constant : design -> design.
Variable PanelOLS_fit :
  list Qc -> design -> list Qc -> list Qc -> string -> outcome Fit.

(** [run_twfe_regression] of [05_run_extension.py] never raises; it returns
    [None] exactly when no complete row is left or the panel estimator
    raised. *)
Theorem extension2_None_iff_empty_or_failed
    (df : DataFrame) (y_var x_var : string)
    (sample_filter : option (list bool))
    (entity_var time_var cluster_var : string) :
  let cols :=
    set_list (Extension2.cols_of y_var x_var entity_var time_var cluster_var) in
  (Extension2.run_twfe_regression add_constant PanelOLS_fit df y_var x_var
     sample_filter entity_var time_var cluster_var = Returned None
   <-> (length (dropna cols (apply_filter sample_filter df)) = 0%nat
        \/ exists e,
             Extension2.primary_fit add_constant PanelOLS_fit cols df y_var
               x_var sample_filter entity_var time_var = Raised e))
  /\ (forall e,
        Extension2.run_twfe_regression add_constant PanelOLS_fit df y_var x_var
          sample_filter entity_var time_var cluster_var <> Raised e).
Proof.
  cbv zeta.
  unfold Extension2.run_twfe_regression, Extension2.run_twfe_regression_on.
  set (cols := set_list _).
  destruct (Nat.eqb (length (dropna cols (apply_filter sample_filter df))) 0)
    eqn:E.
  - apply Nat.eqb_eq in E. split; [|discriminate].
    split; [now left|reflexivity].
  - apply Nat.eqb_neq in E.
    destruct (Extension2.primary_fit add_constant PanelOLS_fit cols df y_var
                x_var sample_filter entity_var time_var) as [fit|e0].
    + split; [|discriminate].
      split; [discriminate|].
      intros [H|[e H]]; [contradiction|discriminate].
    + split; [|discriminate].
      split; [intros _; right; now exists e0|reflexivity].
Qed.

End None2.

(** ** Counties with few rows *)

Lemma within_singleton {A : Type} (l : list A) (k f : A -> Qc) (a : A) :
  group l k (k a) = [a] -> within l k f a = 0.
Proof.
  intros H. unfold within, group_mean. rewrite H.
  unfold mean. simpl. change (Qc_of_nat 1) with 1. field. discriminate.
Qed.

Lemma nth_map_default {A B : Type} (f : A -> B) (l : list A) (i : nat)
    (da : A) (db : B) :
  (i < length l)%nat -> nth i (map f l) db = f (nth i l da).
Proof.
  revert i. induction l as [|a l IH]; intros i Hi; simpl in Hi; [lia|].
  destruct i; simpl; [reflexivity|]. apply IH. lia.
Qed.

Lemma group_singleton_nth {A : Type} (l : list A) (k : A -> Qc) (i : nat)
    (d : A) :
  (i < length l)%nat ->
  length (group l k (k (nth i l d))) = 1%nat ->
  group l k (k (nth i l d)) = [nth i l d].
Proof.
  intros Hi Hlen.
  assert (Hin : In (nth i l d) (group l k (k (nth i l d)))).
  { unfold group. apply filter_In. split; [now apply nth_In|].
    apply Qc_eq_bool_refl. }
  destruct (group l k (k (nth i l d))) as [|b [|c g]]; simpl in Hlen;
    try discriminate.
  destruct Hin as [->|[]]. reflexivity.
Qed.

(** A county observed once has entity-demeaned outcome and treatment
    exactly 0: steps 1 and 2 store 0 in [y_dm] and [treat_dm] at its row. *)
Theorem singleton_county_is_demeaned_to_zero
    (y_var treat_var county_var state_year_var : string) (sample : DataFrame)
    (i : nat) :
  (i < length sample)%nat ->
  length (mask county_var (nth i (col county_var sample) 0) sample) = 1%nat ->
  let frame :=
    fst (Replicate4.demean_twice y_var treat_var county_var state_year_var
           sample) in
  nth i (col "y_dm" frame) 0 = 0 /\ nth i (col "treat_dm" frame) 0 = 0.
Proof.
  intros Hi Hlen. cbv zeta.
  unfold Replicate4.demean_twice. cbn [fst].
  rewrite (col_assign_other "treat_dm" "y_dm");
    [| discriminate | frame_lengths ].
  rewrite !col_assign_same by frame_lengths.
  rewrite !demean_within.
  set (d := fun _ : string => @None Qc).
  assert (Hg : group sample (cellf county_var) (cellf county_var (nth i sample d))
               = [nth i sample d]).
  { apply group_singleton_nth; [assumption|].
    unfold col in Hlen.
    rewrite (nth_map_default _ sample i d 0 Hi) in Hlen. exact Hlen. }
  split; rewrite (nth_map_default _ sample i d 0 Hi);
    now apply within_singleton.
Qed.

Lemma singleton_county_witness :
  nth 4 (col "y_dm"
           (fst (Replicate4.demean_twice "y" "treat" "county_id" "state_year"
                   panel_by_county))) 0 = 0
  /\ nth 4 (col "treat_dm"
              (fst (Replicate4.demean_twice "y" "treat" "county_id" "state_year"
                      panel_by_county))) 0 = 0.
Proof.
  apply (singleton_county_is_demeaned_to_zero "y" "treat" "county_id"
           "state_year" panel_by_county 4).
  - vm_compute. repeat constructor.
  - vm_compute. reflexivity.
Defined.

(** ** Panels in which no county is long enough for a trend *)

Section ShortCounties.

Variable OLS_resid : list (list Qc) -> list Qc -> outcome (list Qc).
Variable OLS_cluster : list Qc -> list Qc -> list Qc -> outcome Fit.

Lemma residualize_short_county (m : nat) (regs : list string)
    (county_data : DataFrame) :
  (length county_data < m)%nat ->
  Replicate4.residualize_county OLS_resid m regs county_data
  = (col "y_dm2" county_data, col "treat_dm2" county_data).
Proof.
  intros H. unfold Replicate4.residualize_county.
  apply Nat.ltb_lt in H. now rewrite H.
Qed.

Lemma col_concat (c : string) (frames : list DataFrame) :
  col c (concat frames) = concat (map (col c) frames).
Proof. unfold col. apply concat_map. Qed.

(** When no county is long enough for its trend model and every county's
    rows are adjacent, the trend step changes nothing. *)
Lemma trend_residuals_short (m : nat) (regs : list string)
    (county_var : string) (frame : DataFrame) :
  (forall c, In c (unique (col county_var frame)) ->
     (length (mask county_var c frame) < m)%nat) ->
  contiguous (col county_var frame) = true ->
  Replicate4.trend_residuals OLS_resid m regs county_var frame
  = (col "y_dm2" frame, col "treat_dm2" frame).
Proof.
  intros Hshort Hcont.
  unfold Replicate4.trend_residuals. rewrite county_loop_concat.
  cbn [app].
  assert (E : concat (map (fun k => mask county_var k frame)
                        (unique (col county_var frame))) = frame).
  { rewrite mask_by_group. apply regroup_fixed_iff. exact Hcont. }
  f_equal.
  - rewrite <- E at 2. rewrite col_concat, map_map. f_equal.
    apply map_ext_in. intros c Hc.
    now rewrite residualize_short_county by (apply Hshort; exact Hc).
  - rewrite <- E at 2. rewrite col_concat, map_map. f_equal.
    apply map_ext_in. intros c Hc.
    now rewrite residualize_short_county by (apply Hshort; exact Hc).
Qed.

(** With a linear (quadratic) trend requested, a panel in which every
    county has fewer than 2 (3) complete rows, listed county by county, is
    estimated exactly as with [trend_type='none']: no county regression is
    run. *)
Theorem short_counties_trend_is_noop
    (df : DataFrame)
    (y_var treat_var county_var state_year_var cluster_var trend_type : string) :
  let sample :=
    dropna (Replicate4.cols_of y_var treat_var county_var state_year_var
              cluster_var) df in
  polynomial_trend trend_type ->
  ~ In county_var (demean_columns ++ trend_columns) ->
  ~ In cluster_var trend_columns ->
  short_counties county_var trend_type sample = true ->
  contiguous (col county_var sample) = true ->
  Replicate4.run_twfe_regression OLS_resid OLS_cluster df y_var treat_var
    county_var state_year_var cluster_var trend_type
  = Replicate4.run_twfe_regression OLS_resid OLS_cluster df y_var treat_var
      county_var state_year_var cluster_var "none".
Proof.
  cbv zeta. intros Htrend Hcounty Hcluster Hshort Hcont.
  unfold Replicate4.run_twfe_regression, Replicate4.run_twfe_regression_on,
    Replicate4.final_design.
  rewrite dropna_set_list.
  set (sample := dropna _ df) in *.
  set (d := Replicate4.demean_twice y_var treat_var county_var state_year_var
              sample).
  assert (Hc1 : ~ In county_var demean_columns)
    by (intros H; apply Hcounty, in_or_app; now left).
  assert (Hc2 : ~ In county_var trend_columns)
    by (intros H; apply Hcounty, in_or_app; now right).
  assert (Hly : length (fst (snd d)) = length (fst d)).
  { unfold d, Replicate4.demean_twice. cbn [fst snd]. frame_lengths. }
  assert (Hlx : length (snd (snd d)) = length (fst d)).
  { unfold d, Replicate4.demean_twice. cbn [fst snd]. frame_lengths. }
  assert (Hcol : col county_var
                   (trend_frame trend_type (fst d) (fst (snd d)) (snd (snd d)))
                 = col county_var sample).
  { rewrite col_trend_frame by assumption.
    unfold d. now apply demean_twice_frame. }
  rewrite handle_trends_polynomial by assumption. cbv zeta.
  rewrite trend_residuals_short.
  - rewrite col_trend_frame_y, col_trend_frame_treat by assumption.
    unfold pd_Series.
    rewrite length_trend_frame by assumption.
    cbn [fst snd]. rewrite Hly, Hlx, Nat.eqb_refl. cbn [bind].
    rewrite handle_trends_none. cbn [bind].
    unfold Replicate4.final_regression. cbn [Replicate4.l_sample
      Replicate4.l_x_final Replicate4.l_y_final read_local bind].
    now rewrite col_trend_frame by assumption.
  - intros c Hc. rewrite Hcol in Hc.
    unfold short_counties in Hshort. rewrite forallb_forall in Hshort.
    specialize (Hshort c Hc). apply Nat.ltb_lt in Hshort.
    rewrite (length_mask_same_keys county_var c _ sample Hcol).
    destruct Htrend as [-> | ->]; exact Hshort.
  - now rewrite Hcol.
Qed.

End ShortCounties.

Lemma short_counties_witness :
  Replicate4.run_twfe_regression perfect_fit (cluster_reports fit_of_five)
    panel_by_county "y" "treat" "county_id" "state_year" "county_id"
    "quadratic"
  = Replicate4.run_twfe_regression perfect_fit (cluster_reports fit_of_five)
      panel_by_county "y" "treat" "county_id" "state_year" "county_id" "none".
Proof.
  apply (short_counties_trend_is_noop perfect_fit (cluster_reports fit_of_five)
           panel_by_county "y" "treat" "county_id" "state_year" "county_id"
           "quadratic").
  - right. reflexivity.
  - simpl. intuition discriminate.
  - simpl. intuition discriminate.
  - vm_compute. reflexivity.
  - vm_compute. reflexivity.
Defined.

(** ** The recentred series of version 3's manual branch *)

Lemma qsum_map_add_const {A : Type} (f : A -> Qc) (c : Qc) (l : list A) :
  qsum (map (fun a => f a + c) l) = qsum (map f l) + Qc_of_nat (length l) * c.
Proof.
  induction l as [|a l IH]; simpl length.
  - change (Qc_of_nat 0) with 0. simpl. ring.
  - rewrite Qc_of_nat_S. simpl. rewrite IH. ring.
Qed.

Ltac column_lengths :=
  repeat first
    [ rewrite length_map | rewrite length_assign | rewrite length_col
    | rewrite length_demean ];
  try assumption; try reflexivity; try congruence.

(** The column [out] after the three assignments: the twice-demeaned
    variable plus its overall mean. *)
Lemma col_demean_recentre (entity_var time_var var out : string)
    (df : DataFrame) :
  var <> out -> time_var <> out ->
  col out (Extension3.demean_recentre entity_var time_var var out df)
  = map (fun a =>
           within df (cellf time_var) (within df (cellf entity_var) (cellf var)) a
           + mean (col var df))
      df.
Proof.
  intros Hv Ht. unfold Extension3.demean_recentre.
  rewrite col_assign_same by column_lengths.
  rewrite (col_assign_other out var) by (assumption || column_lengths).
  rewrite (col_assign_other out var) by (assumption || column_lengths).
  rewrite col_assign_same by column_lengths.
  unfold demean at 1.
  rewrite (col_assign_other out time_var) by (assumption || column_lengths).
  rewrite col_assign_same by column_lengths.
  rewrite demean_within.
  change (col time_var df) with (map (cellf time_var) df).
  rewrite demean_series_within, map_map. reflexivity.
Qed.

Lemma col_demean_recentre_other (entity_var time_var var out c : string)
    (df : DataFrame) :
  c <> out ->
  col c (Extension3.demean_recentre entity_var time_var var out df) = col c df.
Proof.
  intros Hc. unfold Extension3.demean_recentre.
  repeat (rewrite (col_assign_other out c) by (assumption || column_lengths)).
  reflexivity.
Qed.

(** In exact arithmetic, the manual branch adds the overall mean back
    after the two demeaning steps: in every time group the mean of [y_dm]
    is the overall mean of the outcome, and the total of [y_dm] is the
    total of the outcome; the same for [x_dm] and the treatment.
    Rounding is not modelled: in binary64 the equalities need not be
    exact. *)
Theorem manual_demeaning_recentres_every_period
    (df_reg : DataFrame)
    (outcome_var treatment_var entity_var time_var : string) :
  ~ In outcome_var manual_columns ->
  ~ In treatment_var manual_columns ->
  ~ In entity_var manual_columns ->
  ~ In time_var manual_columns ->
  let frame :=
    Extension3.manual_frame df_reg outcome_var treatment_var entity_var
      time_var in
  (forall t,
     qsum (group_vals t (col time_var df_reg) (col "y_dm" frame))
     = Qc_of_nat (length (mask time_var t df_reg)) * mean (col outcome_var df_reg)
     /\ qsum (group_vals t (col time_var df_reg) (col "x_dm" frame))
        = Qc_of_nat (length (mask time_var t df_reg))
          * mean (col treatment_var df_reg))
  /\ qsum (col "y_dm" frame) = qsum (col outcome_var df_reg)
  /\ qsum (col "x_dm" frame) = qsum (col treatment_var df_reg).
Proof.
  intros Ho Htr He Ht. cbv zeta.
  unfold manual_columns in *. simpl in Ho, Htr, He, Ht.
  unfold Extension3.manual_frame.
  set (f1 := Extension3.demean_recentre entity_var time_var outcome_var "y_dm"
               df_reg).
  assert (Hy : col "y_dm"
                 (Extension3.demean_recentre entity_var time_var treatment_var
                    "x_dm" f1)
               = map (fun a =>
                        within df_reg (cellf time_var)
                          (within df_reg (cellf entity_var) (cellf outcome_var)) a
                        + mean (col outcome_var df_reg)) df_reg).
  { rewrite col_demean_recentre_other by discriminate.
    unfold f1. apply col_demean_recentre; intuition congruence. }
  assert (Hx : col "x_dm"
                 (Extension3.demean_recentre entity_var time_var treatment_var
                    "x_dm" f1)
               = map (fun a =>
                        within f1 (cellf time_var)
                          (within f1 (cellf entity_var) (cellf treatment_var)) a
                        + mean (col treatment_var f1)) f1).
  { apply col_demean_recentre; intuition congruence. }
  assert (Hk : forall c, c <> "y_dm" -> col c f1 = col c df_reg).
  { intros c Hc. unfold f1. now apply col_demean_recentre_other. }
  assert (Hlen : length f1 = length df_reg)
    by (unfold f1; apply length_demean_recentre).
  rewrite Hy, Hx.
  split; [intros t; split|split].
  - unfold col at 1. fold (cellf time_var).
    rewrite group_vals_map, qsum_map_add_const, within_group_sum.
    match goal with
    | |- context [Qc_of_nat (length (group ?l ?k ?x))] =>
        change (Qc_of_nat (length (group l k x)))
          with (Qc_of_nat (length (mask time_var x l)))
    end.
    ring.
  - rewrite <- (Hk time_var) by intuition congruence.
    unfold col at 1. fold (cellf time_var).
    rewrite group_vals_map, qsum_map_add_const, within_group_sum.
    rewrite (Hk treatment_var) by intuition congruence.
    match goal with
    | |- context [Qc_of_nat (length (group ?l ?k ?x))] =>
        change (Qc_of_nat (length (group l k x)))
          with (Qc_of_nat (length (mask time_var x l)))
    end.
    rewrite (length_mask_same_keys time_var t f1 df_reg)
      by (apply Hk; intuition congruence).
    ring.
  - rewrite qsum_map_add_const, within_total_sum.
    rewrite <- (length_col outcome_var), mean_times_length. ring.
  - rewrite qsum_map_add_const, within_total_sum.
    rewrite <- (length_col treatment_var f1), mean_times_length.
    rewrite (Hk treatment_var) by intuition congruence. ring.
Qed.

Lemma manual_demeaning_witness :
  (forall t,
     qsum (group_vals t (col "state_year" panel_3_2)
             (col "y_dm" (Extension3.manual_frame panel_3_2 "y" "treat"
                            "county_id" "state_year")))
     = Qc_of_nat (length (mask "state_year" t panel_3_2))
       * mean (col "y" panel_3_2)
     /\ qsum (group_vals t (col "state_year" panel_3_2)
                (col "x_dm" (Extension3.manual_frame panel_3_2 "y" "treat"
                               "county_id" "state_year")))
        = Qc_of_nat (length (mask "state_year" t panel_3_2))
          * mean (col "treat" panel_3_2))
  /\ qsum (col "y_dm" (Extension3.manual_frame panel_3_2 "y" "treat"
                         "county_id" "state_year"))
     = qsum (col "y" panel_3_2)
  /\ qsum (col "x_dm" (Extension3.manual_frame panel_3_2 "y" "treat"
                         "county_id" "state_year"))
     = qsum (col "treat" panel_3_2).
Proof.
  apply (manual_demeaning_recentres_every_period panel_3_2 "y" "treat"
           "county_id" "state_year");
    simpl; intuition discriminate.
Defined.

(** ** The design of version 2's panel estimator *)

Lemma length_insert_sorted (x : Qc) (l : list Qc) :
  length (insert_sorted x l) = S (length l).
Proof.
  induction l as [|y t IH]; [reflexivity|].
  simpl. destruct (Qc_leb x y); simpl; [reflexivity|now rewrite IH].
Qed.

Lemma length_sorted (l : list Qc) : length (sorted l) = length l.
Proof.
  induction l as [|x l IH]; [reflexivity|].
  simpl. now rewrite length_insert_sorted, IH.
Qed.

Lemma length_indicator_times (k : Qc) (keys vals : list Qc) :
  length keys = length vals ->
  length (indicator_times k keys vals) = length keys.
Proof.
  intros H. unfold indicator_times.
  rewrite length_map, length_combine. lia.
Qed.

Lemma county_trend_columns_names (prefix val : string) (cids : list Qc)
    (sample : DataFrame) (exog_cols : list string) :
  snd (Replicate2.county_trend_columns prefix val cids sample exog_cols)
  = exog_cols ++ trend_names prefix cids.
Proof.
  revert sample exog_cols.
  induction cids as [|cid rest IH]; intros sample exog_cols; simpl.
  - now rewrite app_nil_r.
  - rewrite IH, <- app_assoc. reflexivity.
Qed.

Lemma county_trend_columns_frame (prefix val c : string) (cids : list Qc)
    (sample : DataFrame) (exog_cols : list string) :
  (forall s, (prefix ++ s)%string <> c) ->
  col c (fst (Replicate2.county_trend_columns prefix val cids sample exog_cols))
  = col c sample.
Proof.
  intros Hc. revert sample exog_cols.
  induction cids as [|cid rest IH]; intros sample exog_cols; simpl.
  - reflexivity.
  - rewrite IH. apply col_assign_other.
    + intros E. now apply (Hc (str_of_Z (trunc cid))).
    + rewrite length_indicator_times; now rewrite !length_col.
Qed.

(** The regressors of the panel estimator: the treatment, the common
    [year_dm], and one trend column for every county but the first in
    sorted order; the quadratic design adds one [ctrend2_] column for each
    of the same counties and no common quadratic term. *)
Theorem build_exog_regressors (x_var : string) (sample : DataFrame) :
  let ids := tl (sorted (unique (col "county_id" sample))) in
  let n := length (unique (col "county_id" sample)) in
  snd (Replicate2.build_exog x_var "none" sample) = [x_var]
  /\ snd (Replicate2.build_exog x_var "linear" sample)
     = [x_var; "year_dm"] ++ trend_names "ctrend_" ids
  /\ snd (Replicate2.build_exog x_var "quadratic" sample)
     = [x_var; "year_dm"] ++ trend_names "ctrend_" ids
       ++ trend_names "ctrend2_" ids
  /\ length (snd (Replicate2.build_exog x_var "linear" sample))
     = (2 + (n - 1))%nat
  /\ length (snd (Replicate2.build_exog x_var "quadratic" sample))
     = (2 + 2 * (n - 1))%nat
  /\ (In "year2_dm" (snd (Replicate2.build_exog x_var "quadratic" sample)) ->
      x_var = "year2_dm").
Proof.
  cbv zeta.
  assert (Hids : length (tl (sorted (unique (col "county_id" sample))))
                 = (length (unique (col "county_id" sample)) - 1)%nat).
  { rewrite <- (length_sorted (unique (col "county_id" sample))).
    destruct (sorted (unique (col "county_id" sample))); simpl; lia. }
  assert (Hlin : snd (Replicate2.build_exog x_var "linear" sample)
                 = [x_var; "year_dm"]
                   ++ trend_names "ctrend_"
                        (tl (sorted (unique (col "county_id" sample))))).
  { unfold Replicate2.build_exog. cbn [String.eqb Ascii.eqb Bool.eqb orb fst snd].
    rewrite county_trend_columns_names.
    rewrite col_assign_other by (discriminate || frame_lengths).
    reflexivity. }
  assert (Hquad : snd (Replicate2.build_exog x_var "quadratic" sample)
                  = [x_var; "year_dm"]
                    ++ trend_names "ctrend_"
                         (tl (sorted (unique (col "county_id" sample))))
                    ++ trend_names "ctrend2_"
                         (tl (sorted (unique (col "county_id" sample))))).
  { unfold Replicate2.build_exog. cbn [String.eqb Ascii.eqb Bool.eqb orb fst snd].
    rewrite !county_trend_columns_names.
    rewrite (col_assign_other "year2_dm" "county_id")
      by (discriminate || frame_lengths).
    rewrite county_trend_columns_frame by (intros s; simpl; discriminate).
    rewrite !(col_assign_other "year_dm" "county_id")
      by (discriminate || frame_lengths).
    now rewrite <- app_assoc. }
  repeat split.
  - exact Hlin.
  - exact Hquad.
  - rewrite Hlin, length_app. unfold trend_names. rewrite length_map, Hids.
    reflexivity.
  - rewrite Hquad, !length_app. unfold trend_names.
    rewrite !length_map, Hids. simpl. lia.
  - rewrite Hquad. intros H. simpl in H.
    destruct H as [H|[H|H]]; [assumption|discriminate|].
    exfalso. apply in_app_or in H. unfold trend_names in H.
    destruct H as [H|H]; apply in_map_iff in H;
      destruct H as [cid [H _]]; simpl in H; discriminate.
Qed.

(** ** The 2x2 comparison of means *)

(** [run_simple_did] raises nothing: its estimate is NaN when one of the
    four cells holds no reported outcome, and otherwise the difference of
    the two differences of cell means; the record always has the same seven
    keys. *)
Theorem simple_did_is_nan_iff_a_cell_is_empty
    (df : DataFrame) (y_var : string) (treated_group control_group : list bool)
    (pre_period post_period : Z + list Z) :
  let d :=
    SimpleDiD2.run_simple_did df y_var treated_group control_group pre_period
      post_period in
  let treated_pre := did_cell df y_var treated_group pre_period in
  let treated_post := did_cell df y_var treated_group post_period in
  let control_pre := did_cell df y_var control_group pre_period in
  let control_post := did_cell df y_var control_group post_period in
  lookup "coef" d
  = Some (if some_cell_empty
               [treated_pre; treated_post; control_pre; control_post]
          then PNaN
          else PFloat ((mean treated_post - mean treated_pre)
                       - (mean control_post - mean control_pre)))
  /\ keys d
     = ["coef"; "treated_pre"; "treated_post"; "control_pre"; "control_post";
        "diff_treated"; "diff_control"].
Proof.
  cbv zeta. split; [|reflexivity].
  unfold SimpleDiD2.run_simple_did, did_cell. cbn [lookup String.eqb Ascii.eqb Bool.eqb].
  unfold SimpleDiD2.mean_skipna.
  destruct (present
              (SimpleDiD2.loc df treated_group
                 (SimpleDiD2.as_list pre_period) y_var)) as [|a1 l1];
    destruct (present
                (SimpleDiD2.loc df treated_group
                   (SimpleDiD2.as_list post_period) y_var)) as [|a2 l2];
    destruct (present
                (SimpleDiD2.loc df control_group
                   (SimpleDiD2.as_list pre_period) y_var)) as [|a3 l3];
    destruct (present
                (SimpleDiD2.loc df control_group
                   (SimpleDiD2.as_list post_period) y_var)) as [|a4 l4];
    reflexivity.
Qed.

Lemma present_shift (c : Qc) (cells : list Cell) :
  present
    (map (fun v : Cell =>
            match v with Some q => Some (q + c) | None => None end) cells)
  = map (fun q => q + c) (present cells).
Proof.
  induction cells as [|[q|] cells IH]; simpl; [reflexivity| |assumption].
  now rewrite IH.
Qed.

Lemma year_isin_shift_row (y_var : string) (c : Qc) (period : list Qc)
    (r : Row) :
  y_var <> "year" ->
  SimpleDiD2.year_isin period (shift_row y_var c r)
  = SimpleDiD2.year_isin period r.
Proof.
  intros Hy. unfold SimpleDiD2.year_isin, shift_row.
  destruct (String.eqb "year" y_var) eqn:E; [|reflexivity].
  apply String.eqb_eq in E. congruence.
Qed.

Lemma loc_shift (y_var : string) (c : Qc) (df : DataFrame)
    (group : list bool) (period : list Qc) :
  y_var <> "year" ->
  SimpleDiD2.loc (shift_outcome y_var c df) group period y_var
  = map (fun v : Cell =>
           match v with Some q => Some (q + c) | None => None end)
      (SimpleDiD2.loc df group period y_var).
Proof.
  intros Hy. unfold SimpleDiD2.loc, shift_outcome.
  revert group. induction df as [|r df IH]; intros group; [reflexivity|].
  destruct group as [|b group]; [reflexivity|].
  cbn [map combine filter fst snd].
  rewrite year_isin_shift_row by assumption.
  destruct (b && SimpleDiD2.year_isin period r); cbn [map fst];
    rewrite IH; [|reflexivity].
  unfold shift_row at 1. now rewrite String.eqb_refl.
Qed.

Lemma mean_shift (c : Qc) (l : list Qc) :
  l <> [] -> mean (map (fun q => q + c) l) = mean l + c.
Proof.
  intros H. unfold mean. rewrite length_map, qsum_map_add_const.
  rewrite map_id. field. apply Qc_of_nat_nonzero.
  destruct l; [congruence|simpl; lia].
Qed.

Lemma did_cell_shift (df : DataFrame) (y_var : string) (c : Qc)
    (group : list bool) (period : Z + list Z) :
  y_var <> "year" ->
  did_cell (shift_outcome y_var c df) y_var group period
  = map (fun q => q + c) (did_cell df y_var group period).
Proof.
  intros Hy. unfold did_cell. now rewrite loc_shift, present_shift.
Qed.

(** In exact arithmetic, raising every outcome by the same amount leaves
    the estimate of [run_simple_did] unchanged.  Rounding is not
    modelled: in binary64 the shifted outcomes and their cell means are
    rounded anew, and the two estimates need not be equal to the last
    bit. *)
Theorem simple_did_ignores_level_shift
    (df : DataFrame) (y_var : string) (treated_group control_group : list bool)
    (pre_period post_period : Z + list Z) (c : Qc) :
  y_var <> "year" ->
  lookup "coef"
    (SimpleDiD2.run_simple_did (shift_outcome y_var c df) y_var treated_group
       control_group pre_period post_period)
  = lookup "coef"
      (SimpleDiD2.run_simple_did df y_var treated_group control_group
         pre_period post_period).
Proof.
  intros Hy.
  unfold SimpleDiD2.run_simple_did. cbn [lookup String.eqb Ascii.eqb Bool.eqb].
  unfold SimpleDiD2.mean_skipna.
  fold (did_cell (shift_outcome y_var c df) y_var treated_group pre_period).
  fold (did_cell (shift_outcome y_var c df) y_var treated_group post_period).
  fold (did_cell (shift_outcome y_var c df) y_var control_group pre_period).
  fold (did_cell (shift_outcome y_var c df) y_var control_group post_period).
  fold (did_cell df y_var treated_group pre_period).
  fold (did_cell df y_var treated_group post_period).
  fold (did_cell df y_var control_group pre_period).
  fold (did_cell df y_var control_group post_period).
  rewrite !did_cell_shift by assumption.
  destruct (did_cell df y_var treated_group pre_period) as [|a1 l1] eqn:E1;
    destruct (did_cell df y_var treated_group post_period) as [|a2 l2] eqn:E2;
    destruct (did_cell df y_var control_group pre_period) as [|a3 l3] eqn:E3;
    destruct (did_cell df y_var control_group post_period) as [|a4 l4] eqn:E4;
    try reflexivity.
  cbn [map SimpleDiD2.nan_sub SimpleDiD2.to_pyval].
  change (a1 + c :: map (fun q => q + c) l1)
    with (map (fun q => q + c) (a1 :: l1)).
  change (a2 + c :: map (fun q => q + c) l2)
    with (map (fun q => q + c) (a2 :: l2)).
  change (a3 + c :: map (fun q => q + c) l3)
    with (map (fun q => q + c) (a3 :: l3)).
  change (a4 + c :: map (fun q => q + c) l4)
    with (map (fun q => q + c) (a4 :: l4)).
  rewrite !mean_shift by discriminate.
  do 2 f_equal. ring.
Qed.

Lemma simple_did_level_shift_witness :
  lookup "coef"
    (SimpleDiD2.run_simple_did (shift_outcome "y" (Qc_of_Z 10) did_panel) "y"
       did_treated did_control (inl 2016%Z) (inl 2020%Z))
  = lookup "coef"
      (SimpleDiD2.run_simple_did did_panel "y" did_treated did_control
         (inl 2016%Z) (inl 2020%Z)).
Proof.
  apply (simple_did_ignores_level_shift did_panel "y" did_treated did_control
           (inl 2016%Z) (inl 2020%Z) (Qc_of_Z 10)).
  discriminate.
Defined.

(** ** The master scripts *)

Section Pipeline.

Variable returncode : string -> Z.

Lemma run_scripts_until_failure (scripts log : list string) :
  RunAll.run_scripts returncode scripts log
  = RunAll.mkRun (log ++ until_failure (succeeds returncode) scripts)
      (if forallb (succeeds returncode) scripts then 0%Z else 1%Z).
Proof.
  revert log. induction scripts as [|s rest IH]; intros log; simpl.
  - now rewrite app_nil_r.
  - unfold succeeds at 1 3. destruct (Z.eqb (returncode s) 0); simpl.
    + rewrite IH, <- app_assoc. reflexivity.
    + reflexivity.
Qed.

Lemma script_loop_until_failure (scripts : list string)
    (results : list (string * bool)) :
  RunAll.script_loop returncode scripts results true
  = (results ++ map (fun s => (s, succeeds returncode s)) (until_failure (succeeds returncode) scripts),
     forallb (succeeds returncode) scripts).
Proof.
  revert results. induction scripts as [|s rest IH]; intros results; simpl.
  - now rewrite app_nil_r.
  - unfold RunAll.run_script, succeeds in *. cbn beta.
    destruct (Z.eqb (returncode s) 0) eqn:E; simpl; rewrite E.
    + rewrite IH, <- app_assoc. reflexivity.
    + reflexivity.
Qed.

Lemma until_failure_prefix (scripts : list string) :
  exists rest, scripts = until_failure (succeeds returncode) scripts ++ rest.
Proof.
  induction scripts as [|s l IH]; simpl.
  - now exists [].
  - destruct (succeeds returncode s).
    + destruct IH as [rest IH]. exists rest. simpl. now rewrite <- IH.
    + now exists l.
Qed.

Lemma until_failure_all (scripts : list string) :
  forallb (succeeds returncode) scripts = true -> until_failure (succeeds returncode) scripts = scripts.
Proof.
  induction scripts as [|s l IH]; simpl; [reflexivity|].
  destruct (succeeds returncode s); simpl; [|discriminate].
  intros H. now rewrite IH.
Qed.

Lemma until_failure_earlier_succeeded (scripts : list string) (s : string) :
  In s (removelast (until_failure (succeeds returncode) scripts)) -> succeeds returncode s = true.
Proof.
  induction scripts as [|a l IH]; simpl; [contradiction|].
  destruct (succeeds returncode a) eqn:E; simpl; [|contradiction].
  destruct (until_failure (succeeds returncode) l) eqn:El.
  - contradiction.
  - intros [<-|H]; [assumption|]. apply IH. exact H.
Qed.

Lemma until_failure_last_failed (scripts : list string) :
  forallb (succeeds returncode) scripts = false ->
  succeeds returncode (last (until_failure (succeeds returncode) scripts) "") = false.
Proof.
  induction scripts as [|a l IH]; simpl; [discriminate|].
  destruct (succeeds returncode a) eqn:E; simpl.
  - intros H. specialize (IH H).
    destruct (until_failure (succeeds returncode) l) eqn:El; [|exact IH].
    destruct l; simpl in *; [discriminate|].
    destruct (succeeds returncode s); discriminate.
  - intros _. exact E.
Qed.

(** Both master scripts start the scripts in order and stop at the first
    one that fails: what they started is a prefix of the script list, every
    script before the last started one succeeded, the exit code is 0 exactly
    when every script of the list succeeds (and then all were started), and
    otherwise it is 1 and the last started script is one that failed.
    Version 3 records for each started script whether it succeeded. *)
Theorem master_scripts_stop_at_first_failure :
  let r4 := RunAll.main4 returncode in
  let r3 := RunAll.main3 returncode in
  let all_ok scripts := forall s, In s scripts -> returncode s = 0%Z in
  (exists rest, RunAll.scripts4 = RunAll.started r4 ++ rest)
  /\ (forall s, In s (removelast (RunAll.started r4)) -> returncode s = 0%Z)
  /\ (RunAll.exit_code r4 = 0%Z <-> all_ok RunAll.scripts4)
  /\ (RunAll.exit_code r4 = 0%Z -> RunAll.started r4 = RunAll.scripts4)
  /\ (RunAll.exit_code r4 <> 0%Z ->
      RunAll.exit_code r4 = 1%Z
      /\ returncode (last (RunAll.started r4) "") <> 0%Z)
  /\ map fst (fst r3) = until_failure (succeeds returncode) RunAll.scripts3
  /\ (forall s b, In (s, b) (fst r3) -> b = Z.eqb (returncode s) 0)
  /\ (snd r3 = 0%Z <-> all_ok RunAll.scripts3)
  /\ (snd r3 <> 0%Z -> snd r3 = 1%Z).
Proof.
  cbv zeta. unfold RunAll.main4, RunAll.main3.
  rewrite run_scripts_until_failure, script_loop_until_failure.
  cbn [RunAll.started RunAll.exit_code app fst snd].
  assert (Hall : forall scripts,
            forallb (succeeds returncode) scripts = true
            <-> (forall s, In s scripts -> returncode s = 0%Z)).
  { intros scripts. rewrite forallb_forall. unfold succeeds.
    split; intros H s Hs; apply Z.eqb_eq; now apply H. }
  repeat split.
  - apply until_failure_prefix.
  - intros s Hs. apply Z.eqb_eq. fold (succeeds returncode s).
    now apply until_failure_earlier_succeeded in Hs.
  - intros H. apply Hall.
    destruct (forallb (succeeds returncode) RunAll.scripts4); [reflexivity|discriminate].
  - intros H. apply Hall in H. now rewrite H.
  - intros H. apply until_failure_all.
    destruct (forallb (succeeds returncode) RunAll.scripts4); [reflexivity|discriminate].
  - destruct (forallb (succeeds returncode) RunAll.scripts4); [contradiction|reflexivity].
  - intros E.
    destruct (forallb (succeeds returncode) RunAll.scripts4) eqn:Hf; [contradiction|].
    apply until_failure_last_failed in Hf. unfold succeeds in Hf.
    apply Z.eqb_neq in Hf. contradiction.
  - rewrite map_map. cbn [fst]. apply map_id.
  - intros s b H. apply in_map_iff in H. destruct H as [s' [H _]].
    injection H as <- <-. reflexivity.
  - intros H. apply Hall.
    destruct (forallb (succeeds returncode) RunAll.scripts3); [reflexivity|discriminate].
  - intros H. apply Hall in H. now rewrite H.
  - destruct (forallb (succeeds returncode) RunAll.scripts3); [contradiction|reflexivity].
Qed.

End Pipeline.

(** ** A variable that only depends on the period *)

Lemma one_row_per_cell_sym {A : Type} (l : list A) (ke kt : A -> Qc) :
  one_row_per_cell l ke kt -> one_row_per_cell l kt ke.
Proof.
  intros H t e Ht He. specialize (H e t He Ht).
  unfold cell_count, group in *. now rewrite filter_filter_comm.
Qed.

Lemma mean_const {A : Type} (f : A -> Qc) (c : Qc) (g : list A) :
  g <> [] -> (forall b, In b g -> f b = c) -> mean (map f g) = c.
Proof.
  intros Hg Hc. rewrite (map_ext_in f (fun _ => c)) by assumption.
  unfold mean. rewrite length_map, qsum_map_const. field.
  apply Qc_of_nat_nonzero. destruct g; [congruence|simpl; lia].
Qed.

Lemma group_In {A : Type} (l : list A) (k : A -> Qc) (a : A) :
  In a l -> In a (group l k (k a)).
Proof.
  intros H. unfold group. apply filter_In. split; [assumption|].
  apply Qc_eq_bool_refl.
Qed.

Lemma group_sub {A : Type} (l : list A) (k : A -> Qc) (x : Qc) (a : A) :
  In a (group l k x) -> In a l.
Proof. unfold group. rewrite filter_In. tauto. Qed.

Section PeriodVariable.

Context {A : Type}.
Variable l : list A.
Variables ke kt : A -> Qc.

Hypothesis bal : one_row_per_cell l ke kt.

(** In a balanced panel every entity sums a function of the period to
    the same total. *)
Lemma entity_sum_of_period_function (phi : Qc -> Qc) :
  exists S, forall e, In e (map ke l) ->
    qsum (map (fun a => phi (kt a)) (group l ke e)) = S.
Proof.
  exists (qsum (map (fun a => phi (kt a)
                              * / Qc_of_nat (length (group l kt (kt a)))) l)).
  intros e He.
  unfold group at 1.
  rewrite <- (qsum_map_indicator (fun a => Qc_eq_bool (ke a) e)
                (fun a => phi (kt a)) l).
  apply (qsum_by_groups l kt). intros t.
  destruct (in_dec Qc_eq_dec t (map kt l)) as [Ht|Ht];
    [|now rewrite (group_empty l kt t Ht)].
  rewrite qsum_map_indicator.
  rewrite (map_ext_in (fun a => phi (kt a)) (fun _ => phi t)).
  - rewrite qsum_map_const.
    pose proof (one_row_per_cell_sym l ke kt bal t e Ht He) as Hb.
    unfold cell_count in Hb. rewrite Hb. change (Qc_of_nat 1) with 1.
    rewrite (map_ext_in _ (fun _ => phi t * / Qc_of_nat (length (group l kt t)))).
    + rewrite qsum_map_const. field.
      apply Qc_of_nat_nonzero, group_nonempty, Ht.
    + intros a Ha. now rewrite (group_key l kt t a Ha).
  - intros a Ha. apply filter_In in Ha. destruct Ha as [Ha _].
    now rewrite (group_key l kt t a Ha).
Qed.

(** After the two demeaning steps nothing is left of a variable that is
    the same for all rows of a period. *)
Lemma twice_within_of_period_variable (f : A -> Qc) :
  (forall a b, In a l -> In b l -> kt a = kt b -> f a = f b) ->
  forall a, In a l -> within l kt (within l ke f) a = 0.
Proof.
  intros Hf.
  set (phi := fun t => mean (map f (group l kt t))).
  assert (Hphi : forall a, In a l -> f a = phi (kt a)).
  { intros a Ha. unfold phi. symmetry. apply mean_const.
    - intros E. pose proof (group_In l kt a Ha) as Hin.
      rewrite E in Hin. contradiction.
    - intros b Hb. apply Hf.
      + exact (group_sub l kt _ b Hb).
      + exact Ha.
      + exact (group_key l kt _ b Hb). }
  destruct (entity_sum_of_period_function phi) as [S HS].
  destruct (period_size_constant l kt ke (one_row_per_cell_sym l ke kt bal))
    as [N HN].
  assert (Hm : forall a, In a l -> within l ke f a = f a - S * / N).
  { intros a Ha. unfold within, group_mean, mean. rewrite length_map.
    rewrite (HN (ke a) (in_map ke l a Ha)).
    rewrite (map_ext_in f (fun b => phi (kt b))).
    - rewrite (HS (ke a) (in_map ke l a Ha)). reflexivity.
    - intros b Hb. apply Hphi. exact (group_sub l ke _ b Hb). }
  intros a Ha. unfold within at 1. rewrite (Hm a Ha).
  unfold group_mean. rewrite (mean_const _ (f a - S * / N)).
  - ring.
  - intros E. pose proof (group_In l kt a Ha) as Hin.
    rewrite E in Hin. contradiction.
  - intros b Hb. rewrite (Hm b (group_sub l kt _ b Hb)).
    f_equal. apply Hf.
    + exact (group_sub l kt _ b Hb).
    + exact Ha.
    + exact (group_key l kt _ b Hb).
Qed.

End PeriodVariable.

Lemma determined_by_spec (key val : string) (df : DataFrame) :
  determined_by key val df = true ->
  forall a b, In a df -> In b df ->
    cellf key a = cellf key b -> cellf val a = cellf val b.
Proof.
  unfold determined_by. rewrite forallb_forall. intros H a b Ha Hb E.
  specialize (H a Ha). rewrite forallb_forall in H. specialize (H b Hb).
  apply Qc_eq_bool_true in E. rewrite E in H. simpl in H.
  now apply Qc_eq_bool_true.
Qed.

Lemma within_of_group_variable {A : Type} (l : list A) (k f : A -> Qc) :
  (forall a b, In a l -> In b l -> k a = k b -> f a = f b) ->
  forall a, In a l -> within l k f a = 0.
Proof.
  intros Hf a Ha. unfold within, group_mean.
  rewrite (mean_const f (f a)).
  - ring.
  - intros E. pose proof (group_In l k a Ha) as Hin.
    rewrite E in Hin. contradiction.
  - intros b Hb. apply Hf.
    + exact (group_sub l k _ b Hb).
    + exact Ha.
    + exact (group_key l k _ b Hb).
Qed.

Lemma within_of_zero {A : Type} (l : list A) (k f : A -> Qc) :
  (forall a, In a l -> f a = 0) ->
  forall a, In a l -> within l k f a = 0.
Proof.
  intros Hf. apply within_of_group_variable.
  intros a b Ha Hb _. now rewrite (Hf a Ha), (Hf b Hb).
Qed.

(** The two demeaning steps leave nothing of a treatment without
    variation inside the groups: a treatment that never changes within a
    county, or, in a balanced panel, one that is the same for all counties of
    a state-year, gives a regressor that is identically 0. *)
Theorem treatment_without_within_variation_is_annihilated
    (y_var treat_var county_var state_year_var : string) (sample : DataFrame) :
  ~ In state_year_var demean_columns ->
  determined_by county_var treat_var sample = true
  \/ (balanced county_var state_year_var sample = true
      /\ determined_by state_year_var treat_var sample = true) ->
  snd (snd (Replicate4.demean_twice y_var treat_var county_var state_year_var
              sample))
  = map (fun _ => 0) sample.
Proof.
  intros Hsy H. rewrite demean_twice_within by assumption. cbn [snd].
  apply map_ext_in. intros a Ha.
  destruct H as [H|[Hb H]].
  - apply within_of_zero; [|assumption].
    apply within_of_group_variable. now apply determined_by_spec.
  - apply twice_within_of_period_variable; [| |assumption].
    + now apply balanced_one_row_per_cell.
    + now apply determined_by_spec.
Qed.

Lemma treatment_annihilated_witness :
  snd (snd (Replicate4.demean_twice "y" "treat" "county_id" "state_year"
              panel_fixed_treatment))
  = map (fun _ => 0) panel_fixed_treatment.
Proof.
  apply (treatment_without_within_variation_is_annihilated "y" "treat"
           "county_id" "state_year" panel_fixed_treatment).
  - simpl. intuition discriminate.
  - left. vm_compute. reflexivity.
Defined.

(** ** Column names *)

Lemma last_char_append (v suffix : string) :
  suffix <> EmptyString ->
  last_char (v ++ suffix) = last_char suffix.
Proof.
  intros H. induction v as [|a v IH]; [reflexivity|].
  simpl. rewrite IH. destruct suffix as [|b s]; [congruence|].
  simpl. destruct (last_char s); reflexivity.
Qed.

Lemma neq_by_last_char (a b : string) : last_char a <> last_char b -> a <> b.
Proof. intros H E. apply H. now rewrite E. Qed.

Lemma string_length_append (a b : string) :
  String.length (a ++ b) = (String.length a + String.length b)%nat.
Proof. induction a as [|c a IH]; simpl; [reflexivity|now rewrite IH]. Qed.

Lemma append_cancel_r (v w suffix : string) :
  (v ++ suffix)%string = (w ++ suffix)%string -> v = w.
Proof.
  revert w. induction v as [|a v IH]; intros [|b w] H.
  - reflexivity.
  - exfalso. apply (f_equal String.length) in H.
    simpl in H. rewrite string_length_append in H. lia.
  - exfalso. apply (f_equal String.length) in H.
    simpl in H. rewrite string_length_append in H. lia.
  - simpl in H. injection H as -> H. f_equal. now apply IH.
Qed.

Lemma append_nil_r (s : string) : (s ++ "")%string = s.
Proof. induction s as [|a s IH]; simpl; [reflexivity|now rewrite IH]. Qed.

(** Two names are different: by assumption, by their last characters, or
    because they differ before a common suffix. *)
Ltac names_differ :=
  first
    [ assumption
    | discriminate
    | congruence
    | apply neq_by_last_char; rewrite ?last_char_append by discriminate;
      cbn; discriminate
    | let E := fresh "E" in
      intros E; apply append_cancel_r in E; congruence ].

Lemma length_astype_int (c : string) (df : DataFrame) :
  length (astype_int c df) = length df.
Proof. unfold astype_int. column_lengths. Qed.

Lemma length_manual_sample (df : DataFrame) (y_var x_var : string)
    (sample_filter : option (list bool)) :
  length (manual_sample df y_var x_var sample_filter)
  = length (Replicate2.prepare_sample df y_var x_var sample_filter).
Proof. unfold manual_sample. now rewrite !length_astype_int. Qed.

(** A demeaned column of a frame whose key and value columns are those of
    [l]. *)
Lemma demean_as_within (key val : string) (df l : DataFrame)
    (k f : Row -> Qc) :
  col key df = map k l -> col val df = map f l ->
  demean key val df = map (within l k f) l.
Proof.
  intros Hk Hv. unfold demean. rewrite Hk, Hv.
  apply demean_series_within.
Qed.

(** ** The fallback of version 2 *)

(** The frame of the fallback after its two demeaning loops, column by
    column. *)
Lemma manual_frame_columns (y_var x_var : string) (sample : DataFrame) :
  x_var <> y_var -> x_var <> (y_var ++ "_dm1")%string ->
  let frame :=
    Replicate2.demean_vars "state_year_id" "_dm1" "_dm" [y_var; x_var]
      (Replicate2.demean_vars "county_id" "" "_dm1" [y_var; x_var] sample) in
  let d2 v :=
    within sample (cellf "state_year_id")
      (within sample (cellf "county_id") (cellf v)) in
  length frame = length sample
  /\ col (y_var ++ "_dm") frame = map (d2 y_var) sample
  /\ col (x_var ++ "_dm") frame = map (d2 x_var) sample
  /\ (forall c, last_char c <> last_char "m" -> last_char c <> last_char "1" ->
        col c frame = col c sample).
Proof.
  intros Hxy Hx1. cbv zeta. cbn [Replicate2.demean_vars].
  rewrite !append_nil_r.
  set (s1 := assign (y_var ++ "_dm1") (demean "county_id" y_var sample) sample).
  set (s2 := assign (x_var ++ "_dm1") (demean "county_id" x_var s1) s1).
  set (s3 := assign (y_var ++ "_dm") (demean "state_year_id" (y_var ++ "_dm1") s2)
               s2).
  assert (L1 : length s1 = length sample) by (unfold s1; column_lengths).
  assert (L2 : length s2 = length sample)
    by (unfold s2; column_lengths).
  assert (L3 : length s3 = length sample)
    by (unfold s3; column_lengths).
  assert (K1 : forall c, c <> (y_var ++ "_dm1")%string -> col c s1 = col c sample).
  { intros c Hc. unfold s1. apply col_assign_other; [assumption|column_lengths]. }
  assert (K2 : forall c, c <> (x_var ++ "_dm1")%string -> col c s2 = col c s1).
  { intros c Hc. unfold s2. apply col_assign_other; [assumption|column_lengths]. }
  assert (K3 : forall c, c <> (y_var ++ "_dm")%string -> col c s3 = col c s2).
  { intros c Hc. unfold s3. apply col_assign_other; [assumption|column_lengths]. }
  assert (Y1 : col (y_var ++ "_dm1") s2
               = map (within sample (cellf "county_id") (cellf y_var)) sample).
  { rewrite K2 by names_differ. unfold s1.
    rewrite col_assign_same by column_lengths. apply demean_within. }
  assert (X1 : col (x_var ++ "_dm1") s2
               = map (within sample (cellf "county_id") (cellf x_var)) sample).
  { unfold s2. rewrite col_assign_same by column_lengths.
    apply demean_as_within.
    - rewrite K1 by names_differ. reflexivity.
    - rewrite K1 by names_differ. reflexivity. }
  assert (T2 : col "state_year_id" s2 = map (cellf "state_year_id") sample).
  { rewrite K2, K1 by names_differ. reflexivity. }
  repeat split.
  - column_lengths.
  - rewrite col_assign_other; [| names_differ | column_lengths ].
    unfold s3. rewrite col_assign_same by column_lengths.
    now apply demean_as_within.
  - rewrite col_assign_same by column_lengths.
    apply demean_as_within.
    + rewrite K3 by names_differ. exact T2.
    + rewrite K3 by names_differ. exact X1.
  - intros c Hm H1.
    assert (N1 : forall v, c <> (v ++ "_dm1")%string).
    { intros v. apply neq_by_last_char.
      rewrite last_char_append by discriminate. exact H1. }
    assert (Nm : forall v, c <> (v ++ "_dm")%string).
    { intros v. apply neq_by_last_char.
      rewrite last_char_append by discriminate. exact Hm. }
    rewrite col_assign_other; [| apply Nm | column_lengths ].
    rewrite K3, K2, K1 by (apply N1 || apply Nm). reflexivity.
Qed.

Lemma manual_dict_same_keys (fit : Fit) (frame sample : DataFrame) :
  length frame = length sample ->
  col "county_id" frame = col "county_id" sample ->
  col "state_year_id" frame = col "state_year_id" sample ->
  Replicate2.manual_dict fit frame = Replicate2.manual_dict fit sample.
Proof. intros H1 H2 H3. unfold Replicate2.manual_dict. now rewrite H1, H2, H3. Qed.

Section Fallback2.

Variable OLS_cluster_fit : list Qc -> design -> list Qc -> string -> outcome Fit.

(** Without a trend, the fallback of version 2 regresses exactly the
    twice-demeaned series that steps 1 and 2 of version 4 compute on the
    same sample, clustered by county, and without a constant. *)
Theorem manual_fallback_regresses_twice_demeaned_series
    (df : DataFrame) (y_var x_var : string)
    (sample_filter : option (list bool)) :
  x_var <> y_var -> x_var <> (y_var ++ "_dm1")%string ->
  let sample := manual_sample df y_var x_var sample_filter in
  let d :=
    Replicate4.demean_twice y_var x_var "county_id" "state_year_id" sample in
  Replicate2.run_manual_twfe OLS_cluster_fit df y_var x_var sample_filter "none"
  = if Nat.eqb (length sample) 0 then Returned None
    else
      fit <- OLS_cluster_fit (fst (snd d))
               [ ((x_var ++ "_dm")%string, snd (snd d)) ]
               (col "county_id" sample) (x_var ++ "_dm") ;;
      Returned (Some (Replicate2.manual_dict fit sample)).
Proof.
  intros Hxy Hx1. cbv zeta.
  unfold Replicate2.run_manual_twfe.
  rewrite <- length_manual_sample.
  destruct (Nat.eqb (length (manual_sample df y_var x_var sample_filter)) 0);
    [reflexivity|].
  fold (manual_sample df y_var x_var sample_filter).
  set (sample := manual_sample df y_var x_var sample_filter).
  cbn [String.eqb Ascii.eqb Bool.eqb negb fst snd].
  destruct (manual_frame_columns y_var x_var sample Hxy Hx1)
    as [HL [HY [HX HC]]].
  rewrite demean_twice_within by (simpl; intuition discriminate).
  cbn [fst snd]. unfold select. cbn [map].
  rewrite HY, HX.
  rewrite (HC "county_id") by (cbn; discriminate).
  destruct (OLS_cluster_fit _ _ _ _) as [fit|e]; [|reflexivity].
  cbn [bind]. do 2 f_equal.
  apply manual_dict_same_keys; [exact HL| |]; apply HC; cbn; discriminate.
Qed.

(** With a trend requested, the fallback adds the twice-demeaned [year]
    as a regressor common to all counties.  In a balanced panel in which
    the year is the same for all rows of a state-year, that regressor is
    identically 0: the time effects have absorbed it. *)
Theorem manual_fallback_trend_is_absorbed
    (df : DataFrame) (y_var x_var : string)
    (sample_filter : option (list bool)) :
  x_var <> y_var -> x_var <> (y_var ++ "_dm1")%string ->
  let sample := manual_sample df y_var x_var sample_filter in
  let d :=
    Replicate4.demean_twice y_var x_var "county_id" "state_year_id" sample in
  balanced "county_id" "state_year_id" sample = true ->
  determined_by "state_year_id" "year" sample = true ->
  Replicate2.run_manual_twfe OLS_cluster_fit df y_var x_var sample_filter
    "linear"
  = if Nat.eqb (length sample) 0 then Returned None
    else
      fit <- OLS_cluster_fit (fst (snd d))
               [ ((x_var ++ "_dm")%string, snd (snd d));
                 ("year_dm", map (fun _ => 0) sample) ]
               (col "county_id" sample) (x_var ++ "_dm") ;;
      Returned (Some (Replicate2.manual_dict fit sample)).
Proof.
  intros Hxy Hx1. cbv zeta. intros Hbal Hyear.
  unfold Replicate2.run_manual_twfe.
  rewrite <- length_manual_sample.
  destruct (Nat.eqb (length (manual_sample df y_var x_var sample_filter)) 0);
    [reflexivity|].
  fold (manual_sample df y_var x_var sample_filter).
  set (sample := manual_sample df y_var x_var sample_filter) in *.
  cbn [String.eqb Ascii.eqb Bool.eqb negb fst snd].
  destruct (manual_frame_columns y_var x_var sample Hxy Hx1)
    as [HL [HY [HX HC]]].
  set (frame := Replicate2.demean_vars "state_year_id" "_dm1" "_dm"
                  [y_var; x_var]
                  (Replicate2.demean_vars "county_id" "" "_dm1" [y_var; x_var]
                     sample)) in *.
  set (s5 := assign "year_dm" (demean "county_id" "year" frame) frame).
  set (s6 := assign "year_dm" (demean "state_year_id" "year_dm" s5) s5).
  assert (L5 : length s5 = length sample) by (unfold s5; column_lengths).
  assert (L6 : length s6 = length sample) by (unfold s6; column_lengths).
  rewrite demean_twice_within by (simpl; intuition discriminate).
  cbn [fst snd]. unfold select. cbn [map app].
  rewrite HY, HX.
  assert (Z6 : col "year_dm" s6 = map (fun _ => 0) sample).
  { unfold s6. rewrite col_assign_same by column_lengths.
    rewrite (demean_as_within "state_year_id" "year_dm" s5 sample
               (cellf "state_year_id")
               (within sample (cellf "county_id") (cellf "year"))).
    - apply map_ext_in. intros a Ha.
      apply twice_within_of_period_variable; [| |assumption].
      + now apply balanced_one_row_per_cell.
      + now apply determined_by_spec.
    - unfold s5. rewrite col_assign_other by (discriminate || column_lengths).
      apply HC; cbn; discriminate.
    - unfold s5. rewrite col_assign_same by column_lengths.
      apply demean_as_within; apply HC; cbn; discriminate. }
  rewrite Z6.
  assert (C6 : col "county_id" s6 = col "county_id" sample).
  { unfold s6. rewrite col_assign_other by (discriminate || column_lengths).
    unfold s5. rewrite col_assign_other by (discriminate || column_lengths).
    apply HC; cbn; discriminate. }
  assert (T6 : col "state_year_id" s6 = col "state_year_id" sample).
  { unfold s6. rewrite col_assign_other by (discriminate || column_lengths).
    unfold s5. rewrite col_assign_other by (discriminate || column_lengths).
    apply HC; cbn; discriminate. }
  rewrite C6.
  destruct (OLS_cluster_fit _ _ _ _) as [fit|e]; [|reflexivity].
  cbn [bind]. do 2 f_equal.
  now apply manual_dict_same_keys.
Qed.

End Fallback2.

Lemma manual_fallback_witness :
  Replicate2.run_manual_twfe (named_reports some_fit) panel_10 "y" "treat"
    None "none"
  = if Nat.eqb (length (manual_sample panel_10 "y" "treat" None)) 0
    then Returned None
    else
      fit <- named_reports some_fit
               (fst (snd (Replicate4.demean_twice "y" "treat" "county_id"
                            "state_year_id"
                            (manual_sample panel_10 "y" "treat" None))))
               [ ("treat_dm",
                  snd (snd (Replicate4.demean_twice "y" "treat" "county_id"
                              "state_year_id"
                              (manual_sample panel_10 "y" "treat" None)))) ]
               (col "county_id" (manual_sample panel_10 "y" "treat" None))
               "treat_dm" ;;
      Returned (Some (Replicate2.manual_dict fit
                        (manual_sample panel_10 "y" "treat" None))).
Proof.
  apply (manual_fallback_regresses_twice_demeaned_series
           (named_reports some_fit) panel_10 "y" "treat" None);
    discriminate.
Defined.

Lemma manual_fallback_trend_witness :
  Replicate2.run_manual_twfe (named_reports some_fit) panel_10 "y" "treat"
    None "linear"
  = if Nat.eqb (length (manual_sample panel_10 "y" "treat" None)) 0
    then Returned None
    else
      fit <- named_reports some_fit
               (fst (snd (Replicate4.demean_twice "y" "treat" "county_id"
                            "state_year_id"
                            (manual_sample panel_10 "y" "treat" None))))
               [ ("treat_dm",
                  snd (snd (Replicate4.demean_twice "y" "treat" "county_id"
                              "state_year_id"
                              (manual_sample panel_10 "y" "treat" None))));
                 ("year_dm",
                  map (fun _ => 0) (manual_sample panel_10 "y" "treat" None)) ]
               (col "county_id" (manual_sample panel_10 "y" "treat" None))
               "treat_dm" ;;
      Returned (Some (Replicate2.manual_dict fit
                        (manual_sample panel_10 "y" "treat" None))).
Proof.
  apply (manual_fallback_trend_is_absorbed (named_reports some_fit) panel_10
           "y" "treat" None).
  - discriminate.
  - discriminate.
  - vm_compute. reflexivity.
  - vm_compute. reflexivity.
Defined.

(** ** The interaction model *)

Lemma demean_zero (key val : string) (df : DataFrame) :
  col val df = map (fun _ => 0) df ->
  demean key val df = map (fun _ => 0) df.
Proof.
  intros H. rewrite demean_within. apply map_ext_in.
  apply within_of_zero. intros a Ha.
  unfold col in H.
  exact (proj1 map_ext_in_iff H a Ha).
Qed.

Lemma demean_loop_frame (county_var state_year_var : string)
    (vars : list string) (sample : DataFrame) :
  length (Interaction4.demean_loop county_var state_year_var vars sample)
  = length sample
  /\ forall c, last_char c <> last_char "m" ->
       col c (Interaction4.demean_loop county_var state_year_var vars sample)
       = col c sample.
Proof.
  revert sample. induction vars as [|var rest IH]; intros sample.
  - split; [reflexivity|intros; reflexivity].
  - cbn [Interaction4.demean_loop]. destruct (IH
      (assign (var ++ "_dm")
         (demean state_year_var (var ++ "_county_dm")
            (assign (var ++ "_county_dm") (demean county_var var sample)
               sample))
         (assign (var ++ "_county_dm") (demean county_var var sample) sample)))
      as [HL HC].
    split.
    + rewrite HL. column_lengths.
    + intros c Hc. rewrite (HC c Hc).
      rewrite col_assign_other;
        [| apply neq_by_last_char;
           rewrite last_char_append by discriminate; exact Hc
         | column_lengths ].
      rewrite col_assign_other;
        [| apply neq_by_last_char;
           rewrite last_char_append by discriminate; exact Hc
         | column_lengths ].
      reflexivity.
Qed.

Lemma demean_loop_app (county_var state_year_var : string)
    (vs ws : list string) (sample : DataFrame) :
  Interaction4.demean_loop county_var state_year_var (vs ++ ws) sample
  = Interaction4.demean_loop county_var state_year_var ws
      (Interaction4.demean_loop county_var state_year_var vs sample).
Proof.
  revert sample. induction vs as [|v vs IH]; intros sample; [reflexivity|].
  cbn [app Interaction4.demean_loop]. apply IH.
Qed.

Lemma zip_with_mult_zero (a b : list Qc) (n : nat) :
  length a = n -> length b = n ->
  (forall i, nth i a 0 * nth i b 0 = 0) ->
  zip_with Qcmult a b = repeat 0 n.
Proof.
  revert b n. induction a as [|x a IH]; intros [|y b] n Ha Hb H;
    simpl in Ha, Hb; subst n; try discriminate; [reflexivity|].
  unfold zip_with. simpl. f_equal.
  - exact (H 0%nat).
  - apply IH; [reflexivity|now injection Hb|].
    intros i. exact (H (S i)).
Qed.

Lemma map_const_repeat {A : Type} (c : Qc) (l : list A) :
  map (fun _ => c) l = repeat c (length l).
Proof. induction l as [|a l IH]; simpl; [reflexivity|now rewrite IH]. Qed.

Section Interaction.

Variable OLS_cluster_named :
  list Qc -> design -> list Qc -> outcome Interaction4.NamedFit.

(** When the product of treatment and period indicator is 0 in every
    complete row (no row of the later period, or no treated row in it), the
    interaction regressor handed to the regression is identically 0; the
    function has no guard for it. *)
Theorem interaction_term_without_support_is_zero
    (df : DataFrame)
    (y_var treat_var interact_var county_var state_year_var cluster_var : string) :
  let sample :=
    dropna (Interaction4.cols_of y_var treat_var interact_var county_var
              state_year_var cluster_var) df in
  let frame :=
    Interaction4.interaction_frame sample y_var treat_var interact_var
      county_var state_year_var in
  no_interaction_support treat_var interact_var sample = true ->
  (10 <= length sample)%nat ->
  col "treat_x_post_dm" frame = map (fun _ => 0) sample
  /\ Interaction4.run_interaction_regression OLS_cluster_named df y_var
       treat_var interact_var county_var state_year_var cluster_var
     = (results <- OLS_cluster_named (col (y_var ++ "_dm") frame)
                     [ ((treat_var ++ "_dm")%string,
                        col (treat_var ++ "_dm") frame);
                       ("treat_x_post_dm", map (fun _ => 0) sample) ]
                     (col cluster_var frame) ;;
        Returned (Some (Interaction4.result_dict (treat_var ++ "_dm") results
                          (col cluster_var frame)))).
Proof.
  cbv zeta. intros Hsupport Hn.
  set (sample := dropna _ df) in *.
  assert (Hzero : forall r, In r sample ->
                    cellf treat_var r * cellf interact_var r = 0).
  { intros r Hr. unfold no_interaction_support in Hsupport.
    rewrite forallb_forall in Hsupport. apply Qc_eq_bool_true.
    now apply Hsupport. }
  assert (Hcol : col "treat_x_post_dm"
                   (Interaction4.interaction_frame sample y_var treat_var
                      interact_var county_var state_year_var)
                 = map (fun _ => 0) sample).
  { unfold Interaction4.interaction_frame.
    set (s0 := assign "treat_x_post"
                 (zip_with Qcmult (col treat_var sample)
                    (col interact_var sample)) sample).
    assert (L0 : length s0 = length sample).
    { unfold s0. apply length_assign. unfold zip_with.
      rewrite length_map, length_combine, !length_col. lia. }
    assert (P0 : col "treat_x_post" s0 = map (fun _ => 0) s0).
    { unfold s0 at 1. rewrite col_assign_same.
      - rewrite map_const_repeat, L0. apply zip_with_mult_zero.
        + apply length_col.
        + apply length_col.
        + intros i. destruct (Nat.lt_ge_cases i (length sample)) as [Hi|Hi].
          * unfold col.
            rewrite !(nth_map_default _ sample i (fun _ => None) 0 Hi).
            apply Hzero. now apply nth_In.
          * rewrite (nth_overflow (col treat_var sample))
              by (rewrite length_col; exact Hi).
            ring.
      - unfold zip_with.
        rewrite length_map, length_combine, !length_col. lia. }
    change [y_var; treat_var; interact_var; "treat_x_post"]
      with ([y_var; treat_var; interact_var] ++ ["treat_x_post"]).
    rewrite demean_loop_app.
    destruct (demean_loop_frame county_var state_year_var
                [y_var; treat_var; interact_var] s0) as [L3 C3].
    set (s3 := Interaction4.demean_loop county_var state_year_var
                 [y_var; treat_var; interact_var] s0) in *.
    assert (P3 : col "treat_x_post" s3 = map (fun _ => 0) s3).
    { rewrite C3 by (cbn; discriminate). rewrite P0.
      rewrite !map_const_repeat. now rewrite L3. }
    cbn [Interaction4.demean_loop].
    rewrite col_assign_same by column_lengths.
    rewrite demean_zero.
    - rewrite !map_const_repeat. f_equal.
      column_lengths; try (rewrite repeat_length; reflexivity).
    - rewrite col_assign_same by column_lengths.
      rewrite (demean_zero county_var "treat_x_post" s3 P3).
      rewrite !map_const_repeat. f_equal.
      column_lengths; try (rewrite repeat_length; reflexivity). }
  split; [exact Hcol|].
  unfold Interaction4.run_interaction_regression,
    Interaction4.run_interaction_regression_on.
  rewrite dropna_set_list. fold sample.
  apply Nat.ltb_ge in Hn. rewrite Hn.
  unfold select. cbn [map]. rewrite Hcol. reflexivity.
Qed.

End Interaction.

Lemma interaction_without_support_witness :
  col "treat_x_post_dm"
    (Interaction4.interaction_frame
       (dropna (Interaction4.cols_of "y" "treat" "post_2018" "county_id"
                  "state_year_id" "county_id") panel_pre_period)
       "y" "treat" "post_2018" "county_id" "state_year_id")
  = map (fun _ => 0)
      (dropna (Interaction4.cols_of "y" "treat" "post_2018" "county_id"
                 "state_year_id" "county_id") panel_pre_period)
  /\ Interaction4.run_interaction_regression named_fit_raises
       panel_pre_period "y" "treat" "post_2018" "county_id" "state_year_id"
       "county_id"
     = (results <- named_fit_raises
                     (col "y_dm"
                        (Interaction4.interaction_frame
                           (dropna (Interaction4.cols_of "y" "treat" "post_2018"
                                      "county_id" "state_year_id" "county_id")
                              panel_pre_period)
                           "y" "treat" "post_2018" "county_id" "state_year_id"))
                     [ ("treat_dm",
                        col "treat_dm"
                          (Interaction4.interaction_frame
                             (dropna (Interaction4.cols_of "y" "treat"
                                        "post_2018" "county_id" "state_year_id"
                                        "county_id") panel_pre_period)
                             "y" "treat" "post_2018" "county_id"
                             "state_year_id"));
                       ("treat_x_post_dm",
                        map (fun _ => 0)
                          (dropna (Interaction4.cols_of "y" "treat" "post_2018"
                                     "county_id" "state_year_id" "county_id")
                             panel_pre_period)) ]
                     (col "county_id"
                        (Interaction4.interaction_frame
                           (dropna (Interaction4.cols_of "y" "treat" "post_2018"
                                      "county_id" "state_year_id" "county_id")
                              panel_pre_period)
                           "y" "treat" "post_2018" "county_id" "state_year_id")) ;;
        Returned (Some (Interaction4.result_dict "treat_dm" results
                          (col "county_id"
                             (Interaction4.interaction_frame
                                (dropna (Interaction4.cols_of "y" "treat"
                                           "post_2018" "county_id"
                                           "state_year_id" "county_id")
                                   panel_pre_period)
                                "y" "treat" "post_2018" "county_id"
                                "state_year_id"))))).
Proof.
  apply (interaction_term_without_support_is_zero named_fit_raises
           panel_pre_period "y" "treat" "post_2018" "county_id" "state_year_id"
           "county_id").
  - vm_compute. reflexivity.
  - vm_compute. apply le_n.
Defined.

(** ** An unknown trend type in version 2 *)

Section UnknownTrend2.

Variable OLS_cluster_fit : list Qc -> design -> list Qc -> string -> outcome Fit.

(** Version 2 does not validate [trend_type] either, and its two
    estimators read an unknown value differently: the design of the panel
    estimator is the one without trends, the fallback regresses as for
    ['linear']. *)
Theorem unknown_trend_type_in_version2
    (df sample : DataFrame) (y_var x_var trend_type : string)
    (sample_filter : option (list bool)) :
  ~ known_trend trend_type ->
  Replicate2.build_exog x_var trend_type sample = (sample, [x_var])
  /\ Replicate2.run_manual_twfe OLS_cluster_fit df y_var x_var sample_filter
       trend_type
     = Replicate2.run_manual_twfe OLS_cluster_fit df y_var x_var sample_filter
         "linear".
Proof.
  intros H. unfold known_trend in H. simpl in H.
  assert (Hn : String.eqb trend_type "none" = false)
    by (apply String.eqb_neq; intuition congruence).
  assert (Hl : String.eqb trend_type "linear" = false)
    by (apply String.eqb_neq; intuition congruence).
  assert (Hq : String.eqb trend_type "quadratic" = false)
    by (apply String.eqb_neq; intuition congruence).
  split.
  - unfold Replicate2.build_exog. now rewrite Hl, Hq.
  - unfold Replicate2.run_manual_twfe. rewrite Hn, Hq. reflexivity.
Qed.

End UnknownTrend2.

Lemma unknown_trend_type_in_version2_witness :
  Replicate2.build_exog "treat" "cubic" panel_10 = (panel_10, ["treat"])
  /\ Replicate2.run_manual_twfe (named_reports some_fit) panel_10 "y" "treat"
       None "cubic"
     = Replicate2.run_manual_twfe (named_reports some_fit) panel_10 "y" "treat"
         None "linear".
Proof.
  apply (unknown_trend_type_in_version2 (named_reports some_fit) panel_10
           panel_10 "y" "treat" "cubic" None).
  exact cubic_is_unknown.
Defined.

(** ** The year index *)

Lemma In_insert_sorted (x y : Qc) (l : list Qc) :
  In x (insert_sorted y l) <-> x = y \/ In x l.
Proof.
  induction l as [|z l IH]; simpl.
  - intuition.
  - destruct (Qc_leb y z); simpl; [intuition|].
    rewrite IH. intuition.
Qed.

Lemma In_sorted (x : Qc) (l : list Qc) : In x (sorted l) <-> In x l.
Proof.
  induction l as [|y l IH]; simpl; [tauto|].
  rewrite In_insert_sorted, IH. intuition.
Qed.

Lemma position_In (x : Qc) (l : list Qc) :
  In x l -> exists n, Categorical2.position x l = Some n.
Proof.
  induction l as [|y l IH]; intros H; [contradiction|].
  simpl. destruct (Qc_eq_bool x y) eqn:E; [now exists 0%nat|].
  destruct H as [H|H].
  - subst. now rewrite Qc_eq_bool_refl in E.
  - destruct (IH H) as [n Hn]. rewrite Hn. now exists (S n).
Qed.

Lemma position_inj (x y : Qc) (l : list Qc) (n : nat) :
  Categorical2.position x l = Some n ->
  Categorical2.position y l = Some n -> x = y.
Proof.
  revert n. induction l as [|z l IH]; intros n Hx Hy; [discriminate|].
  simpl in Hx, Hy.
  destruct (Qc_eq_bool x z) eqn:Ex, (Qc_eq_bool y z) eqn:Ey.
  - apply Qc_eq_bool_true in Ex, Ey. congruence.
  - injection Hx as <-.
    destruct (Categorical2.position y l); discriminate.
  - injection Hy as <-.
    destruct (Categorical2.position x l); discriminate.
  - destruct (Categorical2.position x l) as [i|] eqn:Px; [|discriminate].
    destruct (Categorical2.position y l) as [j|] eqn:Py; [|discriminate].
    simpl in Hx, Hy. injection Hx as <-. injection Hy as Hj.
    apply (IH i); [reflexivity|]. now rewrite <- Hj.
Qed.

Lemma Qc_of_Z_inj (a b : Z) : Qc_of_Z a = Qc_of_Z b -> a = b.
Proof.
  unfold Qc_of_Z. intros H. apply Q2Qc_eq_iff in H.
  unfold Qeq in H. simpl in H. lia.
Qed.

Lemma In_present (x : Qc) (l : list Cell) : In (Some x) l -> In x (present l).
Proof.
  induction l as [|[q|] l IH]; simpl; [tauto| |].
  - intros [H|H]; [left; congruence|right; now apply IH].
  - intros [H|H]; [discriminate|now apply IH].
Qed.

(** The year index groups the rows as the year does: two rows with a
    year have the same index exactly when they have the same year.  A row
    without a year gets the index -1, which no row with a year has; so no
    row lacks an index, and a later [dropna] on it drops nothing. *)
Theorem year_index_groups_like_year (df : DataFrame) :
  let years := map (fun r : Row => r "year") df in
  let idx := col "year_idx" (Categorical2.with_year_idx df) in
  idx = Categorical2.codes years
  /\ dropna ["year_idx"] (Categorical2.with_year_idx df)
     = Categorical2.with_year_idx df
  /\ (forall i j a b,
        nth_error years i = Some (Some a) ->
        nth_error years j = Some (Some b) ->
        (nth i idx 0 = nth j idx 0 <-> a = b))
  /\ (forall i, nth_error years i = Some None -> nth i idx 0 = Qc_of_Z (-1))
  /\ (forall i a,
        nth_error years i = Some (Some a) -> nth i idx 0 <> Qc_of_Z (-1)).
Proof.
  cbv zeta.
  assert (Hlen : length (Categorical2.codes (map (fun r : Row => r "year") df))
                 = length df).
  { unfold Categorical2.codes. now rewrite !length_map. }
  assert (Hidx : col "year_idx" (Categorical2.with_year_idx df)
                 = Categorical2.codes (map (fun r : Row => r "year") df)).
  { unfold Categorical2.with_year_idx. now apply col_assign_same. }
  rewrite Hidx.
  set (years := map (fun r : Row => r "year") df).
  set (cats := sorted (unique (present years))).
  assert (Hcode : forall i a, nth_error years i = Some (Some a) ->
            exists n, Categorical2.position a cats = Some n
                      /\ nth i (Categorical2.codes years) 0
                         = Qc_of_Z (Z.of_nat n)).
  { intros i a Hi.
    assert (Hin : In a cats).
    { unfold cats. apply In_sorted, unique_In, In_present.
      eapply nth_error_In. exact Hi. }
    destruct (position_In a cats Hin) as [n Hn]. exists n. split; [exact Hn|].
    unfold Categorical2.codes. cbv zeta. fold cats.
    erewrite nth_map_default with (da := None).
    - erewrite nth_error_nth by exact Hi. cbv iota beta. now rewrite Hn.
    - apply (proj1 (nth_error_Some years i)). rewrite Hi. discriminate. }
  split; [reflexivity|].
  split; [|split; [|split]].
  - unfold dropna. apply filter_all. intros r Hr.
    unfold Categorical2.with_year_idx, assign in Hr.
    apply in_map_iff in Hr. destruct Hr as [[r0 v] [<- _]].
    reflexivity.
  - intros i j a b Hi Hj.
    destruct (Hcode i a Hi) as [n [Pn ->]].
    destruct (Hcode j b Hj) as [m [Pm ->]].
    split.
    + intros E. apply Qc_of_Z_inj in E. apply Nat2Z.inj in E. subst m.
      exact (position_inj a b cats n Pn Pm).
    + intros ->. rewrite Pn in Pm. now injection Pm as ->.
  - intros i Hi. unfold Categorical2.codes.
    erewrite nth_map_default with (da := None).
    + now erewrite nth_error_nth by exact Hi.
    + apply (proj1 (nth_error_Some years i)). rewrite Hi. discriminate.
  - intros i a Hi. destruct (Hcode i a Hi) as [n [_ ->]].
    intros E. apply Qc_of_Z_inj in E. lia.
Qed.

(** ** The tables of the replication script *)

Section Tables.

Variable OLS_resid : list (list Qc) -> list Qc -> outcome (list Qc).
Variable OLS_cluster : list Qc -> list Qc -> list Qc -> outcome Fit.
Variable CA : Qc.

(** What the estimator of the replication script can answer. *)
Lemma replicate4_answers (df : DataFrame)
    (y_var treat_var county_var state_year_var cluster_var trend_type : string) :
  (exists e,
     Replicate4.run_twfe_regression OLS_resid OLS_cluster df y_var treat_var
       county_var state_year_var cluster_var trend_type = Raised e)
  \/ (exists fit clusters,
        Replicate4.run_twfe_regression OLS_resid OLS_cluster df y_var treat_var
          county_var state_year_var cluster_var trend_type
        = Returned (Some (Replicate4.result_dict fit clusters))).
Proof.
  unfold Replicate4.run_twfe_regression, Replicate4.run_twfe_regression_on.
  destruct (Replicate4.final_design _ _ _ _ _ _ _ _) as [l|e];
    [|left; now exists e].
  cbn [bind]. unfold Replicate4.final_regression.
  destruct (Replicate4.l_x_final l) as [x|]; [|left; eexists; reflexivity].
  destruct (Replicate4.l_y_final l) as [y|]; [|left; eexists; reflexivity].
  cbn [bind read_local].
  destruct (OLS_cluster y x _) as [fit|e]; [|left; now exists e].
  right. now exists fit, (col cluster_var (Replicate4.l_sample l)).
Qed.

Lemma specification_loop_answers (sample : DataFrame) (y_var prefix : string)
    (offset : Z) (specs : list (Z * string))
    (results : list (string * option dict)) :
  (forall kv, In kv results ->
     exists d, snd kv = Some d /\ keys d = record_keys4) ->
  match Tables4.specification_loop OLS_resid OLS_cluster sample y_var prefix
          offset specs results with
  | Tables4.Ok results' =>
      (forall kv, In kv results' ->
         exists d, snd kv = Some d /\ keys d = record_keys4)
      /\ exists rs,
           length rs = length specs
           /\ results'
              = fold_left
                  (fun acc p =>
                     Tables4.setitem
                       (prefix ++ str_of_Z (fst (fst p) + offset))%string
                       (snd p) acc)
                  (combine specs rs) results
  | Tables4.Err (Tables4.EstimatorError _) => True
  | Tables4.Err _ => False
  end.
Proof.
  revert results. induction specs as [|[i trend] rest IH]; intros results Hres.
  - simpl. split; [assumption|]. now exists [].
  - cbn [Tables4.specification_loop].
    destruct (replicate4_answers sample y_var "treat" "county_id" "state_year"
                "county_id" trend) as [[e ->]|[fit [clusters ->]]];
      [exact I|].
    cbn [Tables4.of_outcome Tables4.and_then Tables4.subscript].
    cbn [Replicate4.result_dict lookup String.eqb Ascii.eqb Bool.eqb
           Tables4.and_then].
    set (r := Some _).
    assert (Hnew : forall kv,
              In kv (Tables4.setitem
                       (prefix ++ str_of_Z (i + offset))%string r results) ->
              exists d, snd kv = Some d /\ keys d = record_keys4).
    { clear IH. induction results as [|[k v] t IHt]; simpl.
      - intros kv [<-|[]]. eexists. split; reflexivity.
      - destruct (String.eqb _ k); intros kv [<-|H].
        + eexists. split; reflexivity.
        + apply Hres. now right.
        + apply Hres. now left.
        + apply IHt; [|assumption]. intros kv' H'. apply Hres. now right. }
    specialize (IH _ Hnew).
    destruct (Tables4.specification_loop OLS_resid OLS_cluster sample y_var
                prefix offset rest _) as [results'|[e|msg|key]];
      try exact IH.
    destruct IH as [Hall [rs [Hlen ->]]].
    split; [assumption|].
    exists (r :: rs). split; [simpl; now rewrite Hlen|reflexivity].
Qed.

(** [replicate_table3] never fails in a statement of its own: the
    estimator never returns [None] and its record has every field the
    function prints.  It ends either with one record (of the five fields)
    under each of the six keys, in column order, or with the exception of the
    first estimation that raised. *)
Theorem replicate_table3_fails_only_in_the_estimator (df : DataFrame) :
  match Tables4.replicate_table3 OLS_resid OLS_cluster CA df with
  | Tables4.Ok results =>
      map fst results = table3_keys
      /\ forall kv, In kv results ->
           exists d, snd kv = Some d /\ keys d = record_keys4
  | Tables4.Err (Tables4.EstimatorError _) => True
  | Tables4.Err _ => False
  end.
Proof.
  unfold Tables4.replicate_table3.
  set (s1 := filter (fun r => notna r "turnout_share") df).
  set (s2 := filter (Tables4.in_vbm_sample CA) df).
  pose proof (specification_loop_answers s1 "turnout_share" "turnout_col" 0
                Tables4.specifications []) as H1.
  destruct (Tables4.specification_loop OLS_resid OLS_cluster s1
              "turnout_share" "turnout_col" 0 Tables4.specifications [])
    as [r1|[e|msg|key]];
    cbn [Tables4.and_then]; try (apply H1; intros kv []).
  destruct H1 as [Hall1 [rs1 [Hlen1 ->]]]; [intros kv []|].
  pose proof (specification_loop_answers s2 "vbm_share" "vbm_col" 3
                Tables4.specifications
                (fold_left
                   (fun acc p =>
                      Tables4.setitem
                        ("turnout_col" ++ str_of_Z (fst (fst p) + 0))%string
                        (snd p) acc)
                   (combine Tables4.specifications rs1) []) Hall1) as H2.
  destruct (Tables4.specification_loop OLS_resid OLS_cluster s2 "vbm_share"
              "vbm_col" 3 Tables4.specifications _) as [r2|[e|msg|key]];
    try exact H2.
  destruct H2 as [Hall2 [rs2 [Hlen2 ->]]].
  split; [|assumption].
  destruct rs1 as [|a1 [|a2 [|a3 [|]]]]; try discriminate Hlen1.
  destruct rs2 as [|b1 [|b2 [|b3 [|]]]]; try discriminate Hlen2.
  reflexivity.
Qed.

End Tables.

(** ** The thresholds of the California analysis *)

Section California.

Variable OLS_resid : list (list Qc) -> list Qc -> outcome (list Qc).
Variable OLS_cluster : list Qc -> list Qc -> list Qc -> outcome Fit.

Lemma extension4_not_None (df : DataFrame)
    (y_var treat_var county_var state_year_var cluster_var trend_type : string) :
  (10 <= length (dropna (Replicate4.cols_of y_var treat_var county_var
                           state_year_var cluster_var) df))%nat ->
  Extension4.run_twfe_regression OLS_resid OLS_cluster df y_var treat_var
    county_var state_year_var cluster_var trend_type None <> Returned None.
Proof.
  intros Hn.
  unfold Extension4.run_twfe_regression, Extension4.run_twfe_regression_on.
  rewrite dropna_set_list. unfold Extension4.cols_of. rewrite app_nil_r.
  apply Nat.ltb_ge in Hn. rewrite Hn.
  destruct (Replicate4.handle_trends _ _ _ _ _ _) as [l|e]; [|discriminate].
  cbn [bind]. unfold Extension4.final_regression.
  destruct (Replicate4.l_x_final l); [|discriminate].
  destruct (Replicate4.l_y_final l); [|discriminate].
  cbn [bind read_local].
  destruct (OLS_cluster _ _ _); discriminate.
Qed.

(** [california_analysis] asks for more than 10 rows with an outcome
    before it calls the estimator, the estimator for at least 10 complete
    rows.  With exactly 10 rows, all complete, the analysis adds no row and
    estimates nothing, although the estimator would not have returned
    [None] for that sample. *)
Theorem california_analysis_skips_ten_rows
    (analysis outcome_label y_var trend : string) (ca_df : DataFrame)
    (results : list dict) :
  let sample := filter (fun r => notna r y_var) ca_df in
  length sample = 10%nat ->
  dropna (Replicate4.cols_of y_var "treat" "county_id" "state_year" "county_id")
    sample = sample ->
  Analyses4.california_step OLS_resid OLS_cluster analysis outcome_label y_var
    trend ca_df results = Tables4.Ok results
  /\ Extension4.run_twfe_regression OLS_resid OLS_cluster sample y_var "treat"
       "county_id" "state_year" "county_id" trend None <> Returned None.
Proof.
  cbv zeta. intros Hlen Hcomplete. split.
  - unfold Analyses4.california_step. now rewrite Hlen.
  - apply extension4_not_None. rewrite Hcomplete, Hlen. apply le_n.
Qed.

End California.

Lemma california_analysis_witness :
  Analyses4.california_step perfect_fit (cluster_reports fit_of_five)
    "CA Full" "Turnout" "y" "linear" panel_ten [] = Tables4.Ok []
  /\ Extension4.run_twfe_regression perfect_fit (cluster_reports fit_of_five)
       (filter (fun r => notna r "y") panel_ten) "y" "treat" "county_id"
       "state_year" "county_id" "linear" None <> Returned None.
Proof.
  apply (california_analysis_skips_ten_rows perfect_fit
           (cluster_reports fit_of_five) "CA Full" "Turnout" "y" "linear"
           panel_ten []).
  - reflexivity.
  - reflexivity.
Defined.
